(** * End-to-end encryption core of the messaging layer

    A shallow embedding of

    - [packages/core/src/encryption/e2e.ts]: [TweetNaClEncryption], the
      dual-envelope codec [createEncryptedContent], [parseEncryptedContent],
      [decryptMessageContent];
    - [packages/core/src/encryption/key-storage.ts]: the [KeyStorage]
      interface and [MemoryKeyStorage];
    - [packages/core/src/adapters/adapter.ts] and [memory.ts]: the
      [MessagingAdapter] interface with its optional key-directory methods,
      and the in-memory adapter;
    - [packages/core/src/services/messaging.ts]: [MessagingService].

    Conventions.  A JavaScript [string] is a [string]; a [Uint8Array] is a
    [list Byte.byte]; [T | null] is [option T]; a [Map<string, T>] is a
    [gmap string T].  A call that can throw returns an [Outcome]; [async]
    methods are run to completion one after the other (the service supports
    one operation at a time per instance), so [await e] is the plain
    sequencing of [e]. *)

From Stdlib Require Import String Ascii List ZArith NArith Bool Lia ZifyNat.
From stdpp Require Import gmap strings list.

Local Open Scope string_scope.
Local Open Scope list_scope.

(** ** Bytes *)

Abbreviation bytes := (list Byte.byte).

#[global] Instance byte_eq_dec : EqDecision Byte.byte := Byte.byte_eq_dec.

(** [Uint8Array.prototype.slice(from, to)] and [slice(from)]: the bounds are
    clamped to the length, the result is a fresh array. *)
Definition slice (from to : nat) (b : bytes) : bytes :=
  firstn (to - from) (skipn from b).

Definition sliceFrom (from : nat) (b : bytes) : bytes := skipn from b.

(** ** Outcomes of calls that may throw *)

Inductive Outcome (X : Type) : Type :=
| Returns (x : X)
| Throws (message : string).
Arguments Returns {X} x.
Arguments Throws {X} message.

(** A computation over a mutable state [S].  What was written to the state
    before a [throw] stays written. *)
Definition M (S X : Type) : Type := S -> Outcome X * S.

Definition ret {S X} (x : X) : M S X := fun s => (Returns x, s).

Definition throw {S X} (message : string) : M S X :=
  fun s => (Throws message, s).

Definition bind {S X Y} (m : M S X) (k : X -> M S Y) : M S Y :=
  fun s =>
    match m s with
    | (Returns x, s') => k x s'
    | (Throws e, s') => (Throws e, s')
    end.

Definition get {S} : M S S := fun s => (Returns s, s).

Definition modify {S} (f : S -> S) : M S unit := fun s => (Returns tt, f s).

(** Completes a value computed without touching the state. *)
Definition liftOutcome {S X} (o : Outcome X) : M S X := fun s => (o, s).

(** [try { m } catch { h }]. *)
Definition tryCatch {S X} (m : M S X) (h : M S X) : M S X :=
  fun s =>
    match m s with
    | (Returns x, s') => (Returns x, s')
    | (Throws _, s') => h s'
    end.

Declare Scope js_scope.
Delimit Scope js_scope with js.
Notation "x <- m ;; k" := (bind m (fun x => k))
  (at level 100, m at next level, right associativity) : js_scope.
Notation "m ;;; k" := (bind m (fun _ => k))
  (at level 100, right associativity) : js_scope.

(** The pure counterpart on [Outcome] itself. *)
Definition obind {X Y} (o : Outcome X) (k : X -> Outcome Y) : Outcome Y :=
  match o with
  | Returns x => k x
  | Throws e => Throws e
  end.

(** ** JavaScript values as [JSON.parse] produces them *)

Inductive JsValue : Type :=
| JUndefined
| JNull
| JBool (b : bool)
| JNumber (z : Z)
| JString (s : string)
| JArray (items : list JsValue)
| JObject (fields : list (string * JsValue)).

(** Truthiness, as [if (v)], [!v], [a && b], [c ? x : y] test it.  Numbers
    are only ever tested, so an integer stands for them. *)
Definition truthy (v : JsValue) : bool :=
  match v with
  | JUndefined | JNull => false
  | JBool b => b
  | JNumber z => negb (Z.eqb z 0)
  | JString s => negb (String.eqb s "")
  | JArray _ | JObject _ => true
  end.

(** Truthiness of a [string | null]: [null] and the empty string are falsy. *)
Definition truthyString (s : option string) : bool :=
  match s with
  | Some s => negb (String.eqb s "")
  | None => false
  end.

Fixpoint lookupField (name : string) (fields : list (string * JsValue))
  : JsValue :=
  match fields with
  | [] => JUndefined
  | (k, v) :: rest => if String.eqb k name then v else lookupField name rest
  end.

(** [v.name] for a name that no built-in prototype defines (the code reads
    only [s] and [r]): reading a property of [null] or [undefined] throws a
    [TypeError]; any other primitive and an array answer [undefined]. *)
Definition getProp (v : JsValue) (name : string) : Outcome JsValue :=
  match v with
  | JUndefined | JNull => Throws "TypeError: Cannot read properties of null"
  | JObject fields => Returns (lookupField name fields)
  | _ => Returns JUndefined
  end.

(** ** Types of [types/index.ts] used by the core *)

(** [{ publicKey: Uint8Array; secretKey: Uint8Array }] *)
Record KeyPair := mkKeyPair { publicKey : bytes; secretKey : bytes }.

(** [EncryptedContent]: the dual envelope. *)
Record EncryptedContent := mkEncryptedContent {
  s : string;
  r : string;
  recipientId : string;
}.

(** The object [JSON.stringify] sees for an [EncryptedContent]: its own
    properties in creation order. *)
Definition contentToJs (e : EncryptedContent) : JsValue :=
  JObject [("s", JString (s e)); ("r", JString (r e));
           ("recipientId", JString (recipientId e))].

Inductive EncryptionStatus :=
| ready | needs_setup | needs_pin_setup | has_backup | needs_regeneration
| error.

(** ** The platform: tweetnacl, tweetnacl-util, WebCrypto and JSON

    These are libraries the repository calls, not code of the repository;
    the embedding takes them as an interface.  Every array-taking primitive
    of tweetnacl throws on a key or nonce of the wrong size. *)

Class Platform := {
  (** the state of the secure random source *)
  Rng : Type;
  (** [nacl.randomBytes(n)] *)
  randomBytes : nat -> Rng -> bytes * Rng;
  (** [nacl.box.keyPair()] *)
  box_keyPair : Rng -> KeyPair * Rng;
  (** [nacl.box.keyPair.fromSecretKey(sk)] *)
  box_keyPair_fromSecretKey : bytes -> Outcome KeyPair;
  (** [nacl.box(msg, nonce, theirPublicKey, mySecretKey)] *)
  box : bytes -> bytes -> bytes -> bytes -> Outcome bytes;
  (** [nacl.box.open(box, nonce, theirPublicKey, mySecretKey)]; [null] when
      authentication fails *)
  box_open : bytes -> bytes -> bytes -> bytes -> Outcome (option bytes);
  (** [nacl.secretbox(msg, nonce, key)] *)
  secretbox : bytes -> bytes -> bytes -> Outcome bytes;
  (** [nacl.secretbox.open(box, nonce, key)] *)
  secretbox_open : bytes -> bytes -> bytes -> Outcome (option bytes);
  (** [crypto.subtle.deriveBits({name: 'PBKDF2', salt, iterations,
      hash: 'SHA-256'}, importKey('raw', password, ...), bits)] *)
  pbkdf2_sha256 : bytes -> bytes -> N -> N -> bytes;
  (** [new TextEncoder().encode(s)] *)
  textEncode : string -> bytes;
  (** tweetnacl-util [decodeUTF8]: string to bytes; throws on a string that
      has no UTF-8 encoding *)
  decodeUTF8 : string -> Outcome bytes;
  (** tweetnacl-util [encodeUTF8]: bytes to string; throws on malformed
      UTF-8 *)
  encodeUTF8 : bytes -> Outcome string;
  (** tweetnacl-util [encodeBase64] *)
  encodeBase64 : bytes -> string;
  (** tweetnacl-util [decodeBase64]; the argument is whatever the caller
      passes at run time; throws on an invalid encoding *)
  decodeBase64 : JsValue -> Outcome bytes;
  (** [JSON.parse]; [None] is a [SyntaxError] *)
  JSON_parse : string -> option JsValue;
  (** [JSON.stringify] *)
  JSON_stringify : JsValue -> string;
}.

(** [nacl.box.nonceLength], [nacl.secretbox.nonceLength] *)
Definition box_nonceLength : nat := 24.
Definition secretbox_nonceLength : nat := 24.

(** The characters of the base-64 alphabet, padding included. *)
Definition isBase64Char (c : ascii) : bool :=
  let n := nat_of_ascii c in
  (((65 <=? n) && (n <=? 90)) || ((97 <=? n) && (n <=? 122))
   || ((48 <=? n) && (n <=? 57)) || (n =? 43) || (n =? 47) || (n =? 61))%nat.

(** A key pair as tweetnacl makes them: the public key is the one that
    belongs to the secret key. *)
Definition validKeyPair `{Platform} (kp : KeyPair) : Prop :=
  box_keyPair_fromSecretKey (secretKey kp) = Returns kp.

(** The contracts of the platform the proofs rely on. *)
Class PlatformLaws (P : Platform) : Prop := {
  randomBytes_length : forall n g, length (fst (randomBytes n g)) = n;
  box_keyPair_valid : forall g, validKeyPair (fst (box_keyPair g));
  (** what [A] seals for [B], [B] opens: the shared key of
      ([B.publicKey], [A.secretKey]) is that of ([A.publicKey],
      [B.secretKey]) *)
  box_open_box : forall A B msg nonce,
    validKeyPair A -> validKeyPair B -> length nonce = box_nonceLength ->
    exists c, box msg nonce (publicKey B) (secretKey A) = Returns c
      /\ box_open c nonce (publicKey A) (secretKey B) = Returns (Some msg);
  secretbox_open_secretbox : forall msg nonce key,
    length nonce = secretbox_nonceLength -> length key = 32 ->
    exists c, secretbox msg nonce key = Returns c
      /\ secretbox_open c nonce key = Returns (Some msg);
  pbkdf2_length : forall password salt iterations,
    length (pbkdf2_sha256 password salt iterations 256) = 32;
  utf8_roundtrip : forall str b,
    decodeUTF8 str = Returns b -> encodeUTF8 b = Returns str;
  base64_roundtrip : forall b,
    decodeBase64 (JString (encodeBase64 b)) = Returns b;
  base64_alphabet : forall b,
    forallb isBase64Char (list_ascii_of_string (encodeBase64 b)) = true;
  base64_nonempty : forall b, b <> [] -> encodeBase64 b <> "";
  JSON_roundtrip : forall e : EncryptedContent,
    JSON_parse (JSON_stringify (contentToJs e)) = Some (contentToJs e);
  JSON_object_brace : forall str fields,
    JSON_parse str = Some (JObject fields) ->
    In "{"%char (list_ascii_of_string str);
}.

(** ** [encryption/e2e.ts] *)

(** [interface E2EEncryption].  The three methods that draw random bytes run
    over the state of the random source. *)
Record E2EEncryption `{Platform} := {
  generateKeyPair : M Rng KeyPair;
  encryptMessage : string -> bytes -> bytes -> M Rng string;
  (** declared on a [string]; [decryptMessageContent] hands it a property
      of parsed JSON without checking its type *)
  decryptMessage : JsValue -> bytes -> bytes -> Outcome (option string);
  encryptPrivateKeyWithPin : bytes -> string -> M Rng string;
  decryptPrivateKeyWithPin : string -> string -> Outcome (option bytes);
}.

(** [try { ... } catch { return null }] around a body that returns
    [T | null]. *)
Definition catchNull {X} (body : Outcome (option X)) : Outcome (option X) :=
  match body with
  | Returns x => Returns x
  | Throws _ => Returns None
  end.

(** [class TweetNaClEncryption implements E2EEncryption] *)
Module TweetNaClEncryption.
Section WithPlatform.
Context `{Platform}.

Definition random (n : nat) : M Rng bytes :=
  fun g => let (b, g') := randomBytes n g in (Returns b, g').

Definition generateKeyPair : M Rng KeyPair :=
  fun g => let (kp, g') := box_keyPair g in (Returns kp, g').

(** Returns base64 of nonce (24 bytes) followed by the ciphertext.  The
    test [if (!encrypted)] of the source cannot fire: what [nacl.box]
    returns is an array object, and every object is truthy. *)
Definition encryptMessage (plaintext : string)
    (recipientPublicKey senderSecretKey : bytes) : M Rng string :=
  (nonce <- random box_nonceLength ;;
   messageUint8 <- liftOutcome (decodeUTF8 plaintext) ;;
   encrypted <- liftOutcome
     (box messageUint8 nonce recipientPublicKey senderSecretKey) ;;
   let fullMessage := nonce ++ encrypted in
   ret (encodeBase64 fullMessage))%js.

Definition decryptMessage (ciphertextBase64 : JsValue)
    (senderPublicKey recipientSecretKey : bytes) : Outcome (option string) :=
  catchNull
    (obind (decodeBase64 ciphertextBase64) (fun fullMessage =>
     let nonce := slice 0 box_nonceLength fullMessage in
     let ciphertext := sliceFrom box_nonceLength fullMessage in
     obind (box_open ciphertext nonce senderPublicKey recipientSecretKey)
       (fun decrypted =>
        match decrypted with
        | None => Returns None
        | Some d => obind (encodeUTF8 d) (fun str => Returns (Some str))
        end))).

(** PBKDF2, HMAC-SHA-256, 100000 iterations, 256 bits. *)
Definition deriveKeyFromPin (pin : string) (salt : bytes) : bytes :=
  let pinData := textEncode pin in
  pbkdf2_sha256 pinData salt 100000 256.

(** Returns base64 of salt (16), nonce (24), encrypted data. *)
Definition encryptPrivateKeyWithPin (secretKey : bytes) (pin : string)
  : M Rng string :=
  (salt <- random 16 ;;
   let derivedKey := deriveKeyFromPin pin salt in
   nonce <- random secretbox_nonceLength ;;
   encrypted <- liftOutcome (secretbox secretKey nonce derivedKey) ;;
   let combined := salt ++ nonce ++ encrypted in
   ret (encodeBase64 combined))%js.

Definition decryptPrivateKeyWithPin (encryptedBase64 pin : string)
  : Outcome (option bytes) :=
  catchNull
    (obind (decodeBase64 (JString encryptedBase64)) (fun combined =>
     let salt := slice 0 16 combined in
     let nonce := slice 16 (16 + secretbox_nonceLength) combined in
     let encrypted := sliceFrom (16 + secretbox_nonceLength) combined in
     let derivedKey := deriveKeyFromPin pin salt in
     secretbox_open encrypted nonce derivedKey)).

End WithPlatform.
End TweetNaClEncryption.

Section Codec.
Context `{Platform}.

(** [createE2EEncryption()] *)
Definition createE2EEncryption : E2EEncryption := {|
  generateKeyPair := TweetNaClEncryption.generateKeyPair;
  encryptMessage := TweetNaClEncryption.encryptMessage;
  decryptMessage := TweetNaClEncryption.decryptMessage;
  encryptPrivateKeyWithPin := TweetNaClEncryption.encryptPrivateKeyWithPin;
  decryptPrivateKeyWithPin := TweetNaClEncryption.decryptPrivateKeyWithPin;
|}.

Definition bytesToBase64 (b : bytes) : string := encodeBase64 b.

Definition base64ToBytes (base64 : string) : Outcome bytes :=
  decodeBase64 (JString base64).

Definition publicKeyFromPrivate (privateKey : bytes) : Outcome bytes :=
  obind (box_keyPair_fromSecretKey privateKey)
    (fun keyPair => Returns (publicKey keyPair)).

(** Encrypts for both sender and recipient so both can decrypt. *)
Definition createEncryptedContent (encryption : E2EEncryption)
    (plaintext : string)
    (senderSecretKey senderPublicKey recipientPublicKey : bytes)
    (recipientId : string) : M Rng EncryptedContent :=
  (forRecipient <-
     encryptMessage encryption plaintext recipientPublicKey senderSecretKey ;;
   forSender <-
     encryptMessage encryption plaintext senderPublicKey senderSecretKey ;;
   ret {| s := forSender; r := forRecipient; recipientId := recipientId |})%js.

(** [parsed.s && parsed.r] decides; the value is returned as parsed, its
    fields unchecked.  Every exception ends in [null]. *)
Definition parseEncryptedContent (content : string) : option JsValue :=
  match JSON_parse content with
  | None => None
  | Some parsed =>
      match getProp parsed "s" with
      | Throws _ => None
      | Returns parsed_s =>
          if truthy parsed_s then
            match getProp parsed "r" with
            | Throws _ => None
            | Returns parsed_r =>
                if truthy parsed_r then Some parsed else None
            end
          else None
      end
  end.

(** The legacy branch: single encryption for the recipient only. *)
Definition decryptLegacy (encryption : E2EEncryption) (content : string)
    (senderPublicKey currentUserSecretKey : bytes)
  : Outcome (option string) :=
  decryptMessage encryption (JString content)
    senderPublicKey currentUserSecretKey.

Definition decryptMessageContent (encryption : E2EEncryption)
    (content senderId currentUserId : string)
    (senderPublicKey currentUserSecretKey : bytes)
  : Outcome (option string) :=
  let encrypted := parseEncryptedContent content in
  match encrypted with
  | Some encrypted =>
      if truthy encrypted then
        let isSender := String.eqb senderId currentUserId in
        obind (if isSender then getProp encrypted "s"
               else getProp encrypted "r")
          (fun ciphertext =>
             decryptMessage encryption ciphertext
               senderPublicKey currentUserSecretKey)
      else decryptLegacy encryption content
             senderPublicKey currentUserSecretKey
  | None =>
      decryptLegacy encryption content senderPublicKey currentUserSecretKey
  end.

End Codec.

(** ** [types/index.ts]: users, conversations, messages *)

Module User.
Record t := mk {
  id : string;
  name : option string;
  avatar : option string;
}.
End User.

Module Reaction.
Record t := mk { emoji : string; userId : string; createdAt : string }.
End Reaction.

Module Message.
Record t := mk {
  id : string;
  conversationId : string;
  senderId : string;
  content : string;
  contentEncrypted : option string;
  type : string;
  replyTo : option string;
  reactions : option (list Reaction.t);
  readBy : option (list string);
  editedAt : option string;
  deletedAt : option string;
  createdAt : string;
  metadata : option JsValue;
}.

(** [{ ...message, content: c }] *)
Definition withContent (c : string) (m : t) : t :=
  mk (id m) (conversationId m) (senderId m) c (contentEncrypted m) (type m)
     (replyTo m) (reactions m) (readBy m) (editedAt m) (deletedAt m)
     (createdAt m) (metadata m).

(** [{ ...message, content: c, contentEncrypted: e }] *)
Definition withContents (c : string) (e : option string) (m : t) : t :=
  mk (id m) (conversationId m) (senderId m) c e (type m)
     (replyTo m) (reactions m) (readBy m) (editedAt m) (deletedAt m)
     (createdAt m) (metadata m).
End Message.

Module Conversation.
Record t := mk {
  id : string;
  type : string;
  name : option string;
  participants : list User.t;
  createdAt : string;
  updatedAt : string;
  lastMessage : option Message.t;
  unreadCount : Z;
  metadata : option JsValue;
}.
End Conversation.

Module SendMessageOptions.
Record t := mk {
  content : string;
  type : option string;
  replyTo : option string;
  metadata : option JsValue;
}.

(** [{ ...message, content }] *)
Definition withContent (c : string) (m : t) : t :=
  mk c (type m) (replyTo m) (metadata m).
End SendMessageOptions.

Module CreateConversationOptions.
Record t := mk {
  name : option string;
  type : option string;
  metadata : option JsValue;
}.
End CreateConversationOptions.

(** ** [encryption/key-storage.ts] *)

Module StoredKeyPair.
(** Both keys base64 encoded. *)
Record t := mk { publicKey : string; secretKey : string }.
End StoredKeyPair.

Module KeyStorage.
(** [interface KeyStorage], over the state [K] of the store. *)
Record t (K : Type) := mk {
  storeKeyPair : string -> StoredKeyPair.t -> M K unit;
  loadKeyPair : string -> M K (option StoredKeyPair.t);
  deleteKeyPair : string -> M K unit;
  isAvailable : K -> bool;
}.
Arguments mk {K}.
Arguments storeKeyPair {K}.
Arguments loadKeyPair {K}.
Arguments deleteKeyPair {K}.
Arguments isAvailable {K}.
End KeyStorage.

(** [class MemoryKeyStorage]: [private keys: Map<string, StoredKeyPair>] *)
Module MemoryKeyStorage.
Definition isAvailable (keys : gmap string StoredKeyPair.t) : bool := true.

Definition storeKeyPair (userId : string) (k : StoredKeyPair.t)
  : M (gmap string StoredKeyPair.t) unit :=
  modify (fun keys => <[userId := k]> keys).

(** [this.keys.get(userId) || null]; a stored pair is an object, so
    truthy. *)
Definition loadKeyPair (userId : string)
  : M (gmap string StoredKeyPair.t) (option StoredKeyPair.t) :=
  fun keys => (Returns (keys !! userId), keys).

Definition deleteKeyPair (userId : string)
  : M (gmap string StoredKeyPair.t) unit :=
  modify (fun keys => delete userId keys).

Definition clear : M (gmap string StoredKeyPair.t) unit :=
  modify (fun _ => ∅).

(** [createMemoryKeyStorage()] *)
Definition create : KeyStorage.t (gmap string StoredKeyPair.t) :=
  KeyStorage.mk storeKeyPair loadKeyPair deleteKeyPair isAvailable.
End MemoryKeyStorage.

(** ** [adapters/adapter.ts] *)

Module KeyBackup.
(** [{ encryptedKey: string | null; rateLimited: boolean }] *)
Record t := mk { encryptedKey : option string; rateLimited : bool }.
End KeyBackup.

Module MessagingAdapter.
(** [interface MessagingAdapter], over the state [A] of the provider: the
    two mandatory methods [MessagingService] calls on the paths embedded
    here and the five optional key-directory methods.  An optional method
    the adapter does not have is [None]. *)
Record t (A : Type) := mk {
  getConversation : string -> M A (option Conversation.t);
  sendMessage : string -> string -> SendMessageOptions.t -> M A Message.t;
  storePublicKey : option (string -> string -> M A unit);
  getPublicKey : option (string -> M A (option string));
  storeKeyBackup : option (string -> string -> M A unit);
  getKeyBackup : option (string -> M A KeyBackup.t);
  recordPinAttempt : option (string -> bool -> M A unit);
}.
Arguments mk {A}.
Arguments getConversation {A}.
Arguments sendMessage {A}.
Arguments storePublicKey {A}.
Arguments getPublicKey {A}.
Arguments storeKeyBackup {A}.
Arguments getKeyBackup {A}.
Arguments recordPinAttempt {A}.
End MessagingAdapter.

(** ** [adapters/memory.ts] *)

Module MemoryMessagingAdapter.
(** The private fields; [now] is what [new Date().toISOString()] reads.
    The realtime callbacks are left out: nothing embedded here
    subscribes. *)
Record State := mkState {
  conversations : gmap string Conversation.t;
  messages : gmap string (list Message.t);
  publicKeys : gmap string string;
  keyBackups : gmap string string;
  idCounter : N;
  now : string;
}.

(** [`${this.idCounter++}`] *)
Definition generateId : M State string :=
  fun st =>
    (Returns (pretty.pretty (idCounter st)),
     mkState (conversations st) (messages st) (publicKeys st)
       (keyBackups st) (idCounter st + 1) (now st)).

Definition getConversation (id : string) : M State (option Conversation.t) :=
  fun st => (Returns (conversations st !! id), st).

Definition sendMessage (conversationId senderId : string)
    (message : SendMessageOptions.t) : M State Message.t :=
  (this <- get ;;
   match conversations this !! conversationId with
   | None => throw "Conversation not found"
   | Some conversation =>
       id <- generateId ;;
       this <- get ;;
       let timestamp := now this in
       let newMessage :=
         Message.mk id conversationId senderId
           (SendMessageOptions.content message) None
           (default "text" (SendMessageOptions.type message))
           (SendMessageOptions.replyTo message) None None None None
           timestamp (SendMessageOptions.metadata message) in
       let messages' :=
         default [] (messages this !! conversationId) ++ [newMessage] in
       let conversation' :=
         Conversation.mk (Conversation.id conversation)
           (Conversation.type conversation) (Conversation.name conversation)
           (Conversation.participants conversation)
           (Conversation.createdAt conversation) timestamp
           (Some newMessage)
           (Conversation.unreadCount conversation)
           (Conversation.metadata conversation) in
       modify (fun st =>
         mkState (<[conversationId := conversation']> (conversations st))
           (<[conversationId := messages']> (messages st))
           (publicKeys st) (keyBackups st) (idCounter st) (now st)) ;;;
       ret newMessage
   end)%js.

Definition storePublicKey (userId publicKey : string) : M State unit :=
  modify (fun st =>
    mkState (conversations st) (messages st)
      (<[userId := publicKey]> (publicKeys st)) (keyBackups st)
      (idCounter st) (now st)).

(** [this.publicKeys.get(userId) ?? null] *)
Definition getPublicKey (userId : string) : M State (option string) :=
  fun st => (Returns (publicKeys st !! userId), st).

Definition storeKeyBackup (userId encryptedPrivateKey : string)
  : M State unit :=
  modify (fun st =>
    mkState (conversations st) (messages st) (publicKeys st)
      (<[userId := encryptedPrivateKey]> (keyBackups st))
      (idCounter st) (now st)).

Definition getKeyBackup (userId : string) : M State KeyBackup.t :=
  fun st => (Returns (KeyBackup.mk (keyBackups st !! userId) false), st).

(** No-op for the in-memory adapter. *)
Definition recordPinAttempt (userId : string) (success : bool)
  : M State unit := ret tt.

(** [{ id: p }] *)
Definition participant (p : string) : User.t := User.mk p None None.

(** The conversation gets the next id; its type is [options?.type ??
    (participants.length > 2 ? 'group' : 'dm')]. *)
Definition createConversation (participants : list string)
    (options : option CreateConversationOptions.t)
  : M State Conversation.t :=
  (id <- generateId ;;
   this <- get ;;
   let timestamp := now this in
   let conversation :=
     Conversation.mk id
       (default (if (2 <? length participants)%nat then "group" else "dm")
          (options ≫= CreateConversationOptions.type))
       (options ≫= CreateConversationOptions.name)
       (map participant participants) timestamp timestamp None 0
       (options ≫= CreateConversationOptions.metadata) in
   modify (fun st =>
     mkState (<[id := conversation]> (conversations st))
       (<[id := []]> (messages st)) (publicKeys st) (keyBackups st)
       (idCounter st) (now st)) ;;;
   ret conversation)%js.

(** [{ ...conversation, participants: ps }], the object mutated in place. *)
Definition withParticipants (ps : list User.t) (c : Conversation.t)
  : Conversation.t :=
  Conversation.mk (Conversation.id c) (Conversation.type c)
    (Conversation.name c) ps (Conversation.createdAt c)
    (Conversation.updatedAt c) (Conversation.lastMessage c)
    (Conversation.unreadCount c) (Conversation.metadata c).

Definition withUpdatedAt (timestamp : string) (c : Conversation.t)
  : Conversation.t :=
  Conversation.mk (Conversation.id c) (Conversation.type c)
    (Conversation.name c) (Conversation.participants c)
    (Conversation.createdAt c) timestamp (Conversation.lastMessage c)
    (Conversation.unreadCount c) (Conversation.metadata c).

Definition withUnreadCount (n : Z) (c : Conversation.t) : Conversation.t :=
  Conversation.mk (Conversation.id c) (Conversation.type c)
    (Conversation.name c) (Conversation.participants c)
    (Conversation.createdAt c) (Conversation.updatedAt c)
    (Conversation.lastMessage c) n (Conversation.metadata c).

Definition setConversation (id : string) (c : Conversation.t) : M State unit :=
  modify (fun st =>
    mkState (<[id := c]> (conversations st)) (messages st) (publicKeys st)
      (keyBackups st) (idCounter st) (now st)).

(** Leaves the conversation; the last one to leave deletes it and its
    messages. *)
Definition deleteConversation (id userId : string) : M State unit :=
  (this <- get ;;
   match conversations this !! id with
   | None => ret tt
   | Some conversation =>
       let remaining :=
         List.filter (fun p => negb (String.eqb (User.id p) userId))
           (Conversation.participants conversation) in
       setConversation id (withParticipants remaining conversation) ;;;
       if (length remaining =? 0)%nat then
         modify (fun st =>
           mkState (delete id (conversations st)) (delete id (messages st))
             (publicKeys st) (keyBackups st) (idCounter st) (now st))
       else ret tt
   end)%js.

(** [participants.some((p) => p.id === userId)] *)
Definition isParticipant (userId : string) (ps : list User.t) : bool :=
  existsb (fun p => String.eqb (User.id p) userId) ps.

(** The loop of [addParticipants]: a user already present is skipped. *)
Definition pushNew (ps : list User.t) (userIds : list string) : list User.t :=
  fold_left
    (fun ps userId =>
       if isParticipant userId ps then ps else ps ++ [participant userId])
    userIds ps.

Definition addParticipants (conversationId : string) (userIds : list string)
  : M State Conversation.t :=
  (this <- get ;;
   match conversations this !! conversationId with
   | None => throw "Conversation not found"
   | Some conversation =>
       let conversation' :=
         withUpdatedAt (now this)
           (withParticipants
              (pushNew (Conversation.participants conversation) userIds)
              conversation) in
       setConversation conversationId conversation' ;;;
       ret conversation'
   end)%js.

(** [userIds.includes(p.id)] *)
Definition includes (userIds : list string) (id : string) : bool :=
  existsb (String.eqb id) userIds.

Definition removeParticipants (conversationId : string)
    (userIds : list string) : M State Conversation.t :=
  (this <- get ;;
   match conversations this !! conversationId with
   | None => throw "Conversation not found"
   | Some conversation =>
       let conversation' :=
         withUpdatedAt (now this)
           (withParticipants
              (List.filter (fun p => negb (includes userIds (User.id p)))
                 (Conversation.participants conversation))
              conversation) in
       setConversation conversationId conversation' ;;;
       ret conversation'
   end)%js.

(** No-op for the in-memory adapter. *)
Definition muteConversation (conversationId userId : string) (mute : bool)
  : M State unit := ret tt.

Definition markAsRead (conversationId userId : string)
    (messageId : option string) : M State unit :=
  (this <- get ;;
   match conversations this !! conversationId with
   | Some conversation =>
       setConversation conversationId (withUnreadCount 0 conversation)
   | None => ret tt
   end)%js.

(** The sum over [this.conversations.values()]; its terms are integers, so
    the order in which the map hands them out does not matter. *)
Definition getUnreadCount (userId : string) : M State Z :=
  fun st =>
    (Returns
       (map_fold
          (fun _ conversation total =>
             if isParticipant userId (Conversation.participants conversation)
             then (total + Conversation.unreadCount conversation)%Z
             else total)
          0%Z (conversations st)),
     st).

(** Clear all data (for testing). *)
Definition clear : M State unit :=
  modify (fun st => mkState ∅ ∅ ∅ ∅ 1 (now st)).

(** [createMemoryMessagingAdapter()] *)
Definition create : MessagingAdapter.t State :=
  MessagingAdapter.mk getConversation sendMessage
    (Some storePublicKey) (Some getPublicKey) (Some storeKeyBackup)
    (Some getKeyBackup) (Some recordPinAttempt).
End MemoryMessagingAdapter.

(** ** [services/messaging.ts]

    Embedded: the user and encryption set-up ([setCurrentUser],
    [getEncryptionStatus], [initializeEncryption], [setupEncryption],
    [restoreEncryption], [isEncryptionReady], the private [getPublicKey]),
    [sendMessage] and the private [decryptMessage].  Of the remaining
    methods, [listMessages] and [onNewMessage] apply [decryptMessage] to
    what the adapter delivers, and the others pass their arguments to the
    adapter. *)

(** What a method of the service asks of its collaborators: the key
    storage, the adapter, the encryption implementation and the envelope
    codec of [e2e.ts] (which itself calls the encryption).  The service
    keeps no such list; the embedding records each call, in order, so that
    "is called", "is not called" and "before" can be stated. *)
Inductive Call :=
| keyStorage_loadKeyPair (userId : string)
| keyStorage_storeKeyPair (userId : string) (keys : StoredKeyPair.t)
| adapter_getConversation (id : string)
| adapter_sendMessage (conversationId senderId : string)
    (message : SendMessageOptions.t)
| adapter_storePublicKey (userId publicKey : string)
| adapter_getPublicKey (userId : string)
| adapter_storeKeyBackup (userId encryptedPrivateKey : string)
| adapter_getKeyBackup (userId : string)
| adapter_recordPinAttempt (userId : string) (success : bool)
| encryption_generateKeyPair
| encryption_encryptPrivateKeyWithPin (secretKey : bytes) (pin : string)
| encryption_decryptPrivateKeyWithPin (encryptedBase64 pin : string)
| codec_createEncryptedContent (plaintext : string)
    (senderSecretKey senderPublicKey recipientPublicKey : bytes)
    (recipientId : string)
| codec_decryptMessageContent (content senderId currentUserId : string)
    (senderPublicKey currentUserSecretKey : bytes).

(** A call to the encryption or to the envelope codec. *)
Definition isCryptoCall (c : Call) : bool :=
  match c with
  | encryption_generateKeyPair | encryption_encryptPrivateKeyWithPin _ _
  | encryption_decryptPrivateKeyWithPin _ _
  | codec_createEncryptedContent _ _ _ _ _
  | codec_decryptMessageContent _ _ _ _ _ => true
  | _ => false
  end.

Definition isDecryptPrivateKeyCall (c : Call) : bool :=
  match c with
  | encryption_decryptPrivateKeyWithPin _ _ => true
  | _ => false
  end.

Definition isRecordPinAttemptCall (c : Call) : bool :=
  match c with
  | adapter_recordPinAttempt _ _ => true
  | _ => false
  end.

(** The string a [string | null] holds when it is truthy. *)
Definition whenTruthy (v : option string) : option string :=
  if truthyString v then v else None.

(** [\d]: an ASCII digit. *)
Definition isDigit (c : ascii) : bool :=
  ((48 <=? nat_of_ascii c) && (nat_of_ascii c <=? 57))%nat.

(** [/^\d+$/.test(pin)]: one digit or more, and nothing else. *)
Definition testDigits (pin : string) : bool :=
  negb (String.eqb pin "") && forallb isDigit (list_ascii_of_string pin).

(** [pin.length !== 6 || !/^\d+$/.test(pin)]: the condition under which
    [setupEncryption] and [restoreEncryption] throw. *)
Definition pinRejected (pin : string) : bool :=
  negb (String.length pin =? 6)%nat || negb (testDigits pin).

Module MessagingService.
Section Service.
Context `{Platform} {A K : Type}.

(** The fields of a [MessagingService] that change, together with the
    state of what its [adapter], [keyStorage] and [encryption] refer to,
    and the record of the calls made so far. *)
Record State := mkState {
  e2eEnabled : bool;
  currentUserId : option string;
  keyPair : option KeyPair;
  publicKeyCache : gmap string bytes;
  adapterState : A;
  keyStorageState : K;
  rng : Rng;
  trace : list Call;
}.

(** The collaborators fixed by the constructor. *)
Variable adapter : MessagingAdapter.t A.
Variable keyStorage : KeyStorage.t K.
Variable encryption : E2EEncryption.

Definition record (c : Call) : M State unit :=
  modify (fun this =>
    mkState (e2eEnabled this) (currentUserId this) (keyPair this)
      (publicKeyCache this) (adapterState this) (keyStorageState this)
      (rng this) (trace this ++ [c])).

Definition onAdapter {X} (c : Call) (m : M A X) : M State X :=
  (record c ;;;
   fun this =>
     let (o, a) := m (adapterState this) in
     (o, mkState (e2eEnabled this) (currentUserId this) (keyPair this)
           (publicKeyCache this) a (keyStorageState this) (rng this)
           (trace this)))%js.

Definition onKeyStorage {X} (c : Call) (m : M K X) : M State X :=
  (record c ;;;
   fun this =>
     let (o, k) := m (keyStorageState this) in
     (o, mkState (e2eEnabled this) (currentUserId this) (keyPair this)
           (publicKeyCache this) (adapterState this) k (rng this)
           (trace this)))%js.

Definition onRng {X} (c : Call) (m : M Rng X) : M State X :=
  (record c ;;;
   fun this =>
     let (o, g) := m (rng this) in
     (o, mkState (e2eEnabled this) (currentUserId this) (keyPair this)
           (publicKeyCache this) (adapterState this) (keyStorageState this)
           g (trace this)))%js.

Definition onPure {X} (c : Call) (o : Outcome X) : M State X :=
  (record c ;;; liftOutcome o)%js.

(** [this.keyPair = kp] *)
Definition setKeyPair (kp : option KeyPair) : M State unit :=
  modify (fun this =>
    mkState (e2eEnabled this) (currentUserId this) kp
      (publicKeyCache this) (adapterState this) (keyStorageState this)
      (rng this) (trace this)).

(** [this.currentUserId] where [if (!this.currentUserId)] lets it pass. *)
Definition currentUser (this : State) : option string :=
  whenTruthy (currentUserId this).

Definition setCurrentUser (userId : string) : M State unit :=
  (this <- get ;;
   if negb (bool_decide (currentUserId this = Some userId)) then
     modify (fun this =>
       mkState (e2eEnabled this) (Some userId) None ∅
         (adapterState this) (keyStorageState this) (rng this)
         (trace this))
   else ret tt)%js.

Definition getEncryptionStatus : M State EncryptionStatus :=
  (this <- get ;;
   if negb (e2eEnabled this) then ret ready else
   match currentUser this with
   | None => ret error
   | Some userId =>
       localKeys <- onKeyStorage (keyStorage_loadKeyPair userId)
                      (KeyStorage.loadKeyPair keyStorage userId) ;;
       match localKeys with
       | Some _ =>
           match MessagingAdapter.getKeyBackup adapter with
           | Some getKeyBackup =>
               backup <- onAdapter (adapter_getKeyBackup userId)
                           (getKeyBackup userId) ;;
               ret (if truthyString (KeyBackup.encryptedKey backup)
                    then ready else needs_pin_setup)
           | None => ret ready
           end
       | None =>
           hasBackup <-
             match MessagingAdapter.getKeyBackup adapter with
             | Some getKeyBackup =>
                 backup <- onAdapter (adapter_getKeyBackup userId)
                             (getKeyBackup userId) ;;
                 ret (truthyString (KeyBackup.encryptedKey backup))
             | None => ret false
             end ;;
           if (hasBackup : bool) then ret has_backup else
           hasPublicKey <-
             match MessagingAdapter.getPublicKey adapter with
             | Some getPublicKey =>
                 publicKey <- onAdapter (adapter_getPublicKey userId)
                                (getPublicKey userId) ;;
                 ret (truthyString publicKey)
             | None => ret false
             end ;;
           if (hasPublicKey : bool) then ret needs_regeneration
           else ret needs_setup
       end
   end)%js.

Definition initializeEncryption : M State bool :=
  (this <- get ;;
   if negb (e2eEnabled this) then ret true else
   match currentUser this with
   | None => ret false
   | Some userId =>
       localKeys <- onKeyStorage (keyStorage_loadKeyPair userId)
                      (KeyStorage.loadKeyPair keyStorage userId) ;;
       match localKeys with
       | Some localKeys =>
           pk <- liftOutcome
                   (base64ToBytes (StoredKeyPair.publicKey localKeys)) ;;
           sk <- liftOutcome
                   (base64ToBytes (StoredKeyPair.secretKey localKeys)) ;;
           setKeyPair (Some (mkKeyPair pk sk)) ;;;
           ret true
       | None => ret false
       end
   end)%js.

(** [if (this.adapter.m) await this.adapter.m(...)] for an optional
    method that returns nothing. *)
Definition ifSupported (method : option (M A unit)) (c : Call)
  : M State unit :=
  match method with
  | Some m => onAdapter c m
  | None => ret tt
  end.

Definition setupEncryption (pin : string) : M State bool :=
  (this <- get ;;
   match currentUser this with
   | None => ret false
   | Some userId =>
       if pinRejected pin then throw "PIN must be exactly 6 digits" else
       keyPair <- onRng encryption_generateKeyPair
                    (generateKeyPair encryption) ;;
       let publicKeyBase64 := bytesToBase64 (publicKey keyPair) in
       let secretKeyBase64 := bytesToBase64 (secretKey keyPair) in
       encryptedBackup <-
         onRng (encryption_encryptPrivateKeyWithPin (secretKey keyPair) pin)
           (encryptPrivateKeyWithPin encryption (secretKey keyPair) pin) ;;
       ifSupported
         (option_map (fun f => f userId publicKeyBase64)
            (MessagingAdapter.storePublicKey adapter))
         (adapter_storePublicKey userId publicKeyBase64) ;;;
       ifSupported
         (option_map (fun f => f userId encryptedBackup)
            (MessagingAdapter.storeKeyBackup adapter))
         (adapter_storeKeyBackup userId encryptedBackup) ;;;
       let stored := StoredKeyPair.mk publicKeyBase64 secretKeyBase64 in
       onKeyStorage (keyStorage_storeKeyPair userId stored)
         (KeyStorage.storeKeyPair keyStorage userId stored) ;;;
       setKeyPair (Some keyPair) ;;;
       ret true
   end)%js.

Definition restoreEncryption (pin : string) : M State bool :=
  (this <- get ;;
   match currentUser this with
   | None => ret false
   | Some userId =>
       if pinRejected pin then throw "PIN must be exactly 6 digits" else
       match MessagingAdapter.getKeyBackup adapter with
       | None => throw "Key backup not supported by adapter"
       | Some getKeyBackup =>
           backup <- onAdapter (adapter_getKeyBackup userId)
                       (getKeyBackup userId) ;;
           if KeyBackup.rateLimited backup then
             throw "Too many attempts. Please try again in 15 minutes."
           else
           match whenTruthy (KeyBackup.encryptedKey backup) with
           | None => throw "No backup found on server"
           | Some encryptedKey =>
               secretKey <-
                 onPure (encryption_decryptPrivateKeyWithPin encryptedKey pin)
                   (decryptPrivateKeyWithPin encryption encryptedKey pin) ;;
               match secretKey with
               | None =>
                   ifSupported
                     (option_map (fun f => f userId false)
                        (MessagingAdapter.recordPinAttempt adapter))
                     (adapter_recordPinAttempt userId false) ;;;
                   throw "Incorrect PIN"
               | Some secretKey =>
                   ifSupported
                     (option_map (fun f => f userId true)
                        (MessagingAdapter.recordPinAttempt adapter))
                     (adapter_recordPinAttempt userId true) ;;;
                   publicKey <- liftOutcome
                                  (publicKeyFromPrivate secretKey) ;;
                   let stored :=
                     StoredKeyPair.mk (bytesToBase64 publicKey)
                       (bytesToBase64 secretKey) in
                   onKeyStorage (keyStorage_storeKeyPair userId stored)
                     (KeyStorage.storeKeyPair keyStorage userId stored) ;;;
                   setKeyPair (Some (mkKeyPair publicKey secretKey)) ;;;
                   ret true
               end
           end
       end
   end)%js.

Definition isEncryptionReady (this : State) : bool :=
  negb (e2eEnabled this) || bool_decide (keyPair this <> None).

(** [private getPublicKey]: the public key of a user, with caching.  A
    cached array is an object, so [if (cached)] holds whenever the cache
    has an entry. *)
Definition getPublicKey (userId : string) : M State (option bytes) :=
  (this <- get ;;
   match publicKeyCache this !! userId with
   | Some cached => ret (Some cached)
   | None =>
       match MessagingAdapter.getPublicKey adapter with
       | Some adapterGetPublicKey =>
           publicKey <- onAdapter (adapter_getPublicKey userId)
                          (adapterGetPublicKey userId) ;;
           match whenTruthy publicKey with
           | Some publicKey =>
               b <- liftOutcome (base64ToBytes publicKey) ;;
               modify (fun this =>
                 mkState (e2eEnabled this) (currentUserId this)
                   (keyPair this) (<[userId := b]> (publicKeyCache this))
                   (adapterState this) (keyStorageState this) (rng this)
                   (trace this)) ;;;
               ret (Some b)
           | None => ret None
           end
       | None => ret None
       end
   end)%js.

Definition getConversation (id : string) : M State (option Conversation.t) :=
  onAdapter (adapter_getConversation id)
    (MessagingAdapter.getConversation adapter id).

(** [conversation.participants.filter((p) => p.id !== this.currentUserId)] *)
Definition otherParticipants (userId : string) (c : Conversation.t)
  : list User.t :=
  List.filter (fun p => negb (String.eqb (User.id p) userId))
    (Conversation.participants c).

(** The body [sendMessage] hands to the adapter: the first half of the
    method, up to [const sent = await this.adapter.sendMessage(...)]. *)
Definition outgoingContent (userId conversationId : string)
    (message : SendMessageOptions.t) : M State string :=
  (this <- get ;;
   match e2eEnabled this, keyPair this with
   | true, Some keyPair =>
       conversation <- getConversation conversationId ;;
       match conversation with
       | None => throw "Conversation not found"
       | Some conversation =>
           let others := otherParticipants userId conversation in
           if (length others =? 1)%nat then
             match others with
             | recipient :: _ =>
                 let recipientId := User.id recipient in
                 recipientPublicKey <- getPublicKey recipientId ;;
                 match recipientPublicKey with
                 | None => throw "Recipient has not set up encryption"
                 | Some recipientPublicKey =>
                     encrypted <-
                       onRng
                         (codec_createEncryptedContent
                            (SendMessageOptions.content message)
                            (secretKey keyPair) (publicKey keyPair)
                            recipientPublicKey recipientId)
                         (createEncryptedContent encryption
                            (SendMessageOptions.content message)
                            (secretKey keyPair) (publicKey keyPair)
                            recipientPublicKey recipientId) ;;
                     ret (JSON_stringify (contentToJs encrypted))
                 end
             | [] => ret (SendMessageOptions.content message)
             end
           else ret (SendMessageOptions.content message)
       end
   | _, _ => ret (SendMessageOptions.content message)
   end)%js.

Definition sendMessage (conversationId : string)
    (message : SendMessageOptions.t) : M State Message.t :=
  (this <- get ;;
   match currentUser this with
   | None => throw "No user set"
   | Some userId =>
       content <- outgoingContent userId conversationId message ;;
       let outgoing := SendMessageOptions.withContent content message in
       sent <- onAdapter
                 (adapter_sendMessage conversationId userId outgoing)
                 (MessagingAdapter.sendMessage adapter conversationId userId
                    outgoing) ;;
       ret (Message.withContents (SendMessageOptions.content message)
              (if e2eEnabled this then Some content else None) sent)
   end)%js.

(** [private decryptMessage]: decrypt a single message. *)
Definition decryptMessage (message : Message.t) : M State Message.t :=
  (this <- get ;;
   match e2eEnabled this, keyPair this, currentUser this with
   | true, Some keyPair, Some userId =>
       tryCatch
         (senderPublicKey <- getPublicKey (Message.senderId message) ;;
          match senderPublicKey with
          | None =>
              ret (Message.withContent
                     "[Unable to decrypt: sender key not found]" message)
          | Some senderPublicKey =>
              decrypted <-
                onPure
                  (codec_decryptMessageContent (Message.content message)
                     (Message.senderId message) userId senderPublicKey
                     (secretKey keyPair))
                  (decryptMessageContent encryption
                     (Message.content message) (Message.senderId message)
                     userId senderPublicKey (secretKey keyPair)) ;;
              match whenTruthy decrypted with
              | Some decrypted =>
                  ret (Message.withContents decrypted
                         (Some (Message.content message)) message)
              | None =>
                  ret (Message.withContent
                         "[Unable to decrypt message]" message)
              end
          end)
         (ret (Message.withContent "[Decryption error]" message))
   | _, _, _ => ret message
   end)%js.

End Service.
End MessagingService.

(** ** A reference model of the platform

    Small executable stand-ins for the primitives of [Platform], used to
    run the embedding on concrete inputs and to show that the contracts of
    [PlatformLaws] can be met together.  They keep the shape of the
    primitives (sizes checked, nonce and key taken into account, failures
    signalled the same way) and nothing of their secrecy; the text
    encodings are the real ones. *)
Module Model.

Definition byteOf (n : nat) : Byte.byte := byte_of_ascii (ascii_of_nat n).

Definition sum (b : bytes) : nat :=
  fold_right (fun x acc => Byte.to_nat x + acc)%nat 0%nat b.

(** The random source counts up from its state. *)
Definition randomBytes (n : nat) (g : nat) : bytes * nat :=
  (map byteOf (seq g n), (g + n)%nat).

Definition next (x : Byte.byte) : Byte.byte := byteOf (S (Byte.to_nat x)).

Definition previous (x : Byte.byte) : Byte.byte :=
  byteOf (Byte.to_nat x + 255).

(** The public key that belongs to a secret key. *)
Definition publicOf (sk : bytes) : bytes := map next sk.

Definition box_keyPair (g : nat) : KeyPair * nat :=
  let sk := map byteOf (seq g 32) in
  (mkKeyPair (publicOf sk) sk, (g + 32)%nat).

Definition box_keyPair_fromSecretKey (sk : bytes) : Outcome KeyPair :=
  if (length sk =? 32)%nat then Returns (mkKeyPair (publicOf sk) sk)
  else Throws "bad secret key size".

(** The key two parties share: the same from either side. *)
Definition box_before (theirPublicKey mySecretKey : bytes) : bytes :=
  repeat (byteOf (sum (map previous theirPublicKey) + sum mySecretKey)) 32.

Definition tag (nonce key : bytes) : bytes :=
  repeat (byteOf (sum nonce + sum key)) 16.

Definition secretbox (msg nonce key : bytes) : Outcome bytes :=
  if negb (length key =? 32)%nat then Throws "bad key size"
  else if negb (length nonce =? 24)%nat then Throws "bad nonce size"
  else Returns (tag nonce key ++ msg).

Definition secretbox_open (c nonce key : bytes) : Outcome (option bytes) :=
  if negb (length key =? 32)%nat then Throws "bad key size"
  else if negb (length nonce =? 24)%nat then Throws "bad nonce size"
  else if bool_decide (firstn 16 c = tag nonce key)
       then Returns (Some (skipn 16 c))
       else Returns None.

Definition box (msg nonce theirPublicKey mySecretKey : bytes)
  : Outcome bytes :=
  if negb (length theirPublicKey =? 32)%nat then
    Throws "bad public key size"
  else if negb (length mySecretKey =? 32)%nat then
    Throws "bad secret key size"
  else secretbox msg nonce (box_before theirPublicKey mySecretKey).

Definition box_open (c nonce theirPublicKey mySecretKey : bytes)
  : Outcome (option bytes) :=
  if negb (length theirPublicKey =? 32)%nat then
    Throws "bad public key size"
  else if negb (length mySecretKey =? 32)%nat then
    Throws "bad secret key size"
  else secretbox_open c nonce (box_before theirPublicKey mySecretKey).

Definition pbkdf2_sha256 (password salt : bytes) (iterations bits : N)
  : bytes :=
  repeat (byteOf (sum password + sum salt)) (N.to_nat bits / 8).

(** Strings are their own bytes. *)
Definition decodeUTF8 (str : string) : Outcome bytes :=
  Returns (list_byte_of_string str).

Definition encodeUTF8 (b : bytes) : Outcome string :=
  Returns (string_of_list_byte b).

(** Base 64, with padding. *)
Definition alphabet : string :=
  "ABCDEFGHIJKLMNOPQRSTUVWXYZabcdefghijklmnopqrstuvwxyz0123456789+/".

Definition pad : ascii := "="%char.

Definition sextetChar (n : nat) : ascii :=
  match String.get n alphabet with
  | Some c => c
  | None => pad
  end.

Definition charSextet (c : ascii) : option nat :=
  let n := nat_of_ascii c in
  if ((65 <=? n) && (n <=? 90))%nat then Some (n - 65)%nat
  else if ((97 <=? n) && (n <=? 122))%nat then Some (n - 71)%nat
  else if ((48 <=? n) && (n <=? 57))%nat then Some (n + 4)%nat
  else if (n =? 43)%nat then Some 62%nat
  else if (n =? 47)%nat then Some 63%nat
  else None.

Fixpoint encodeBase64 (b : bytes) : string :=
  match b with
  | [] => ""
  | [x] =>
      let n := Byte.to_nat x in
      String (sextetChar (n / 4)) (String (sextetChar (n mod 4 * 16))
        (String pad (String pad "")))
  | [x; y] =>
      let n := Byte.to_nat x in
      let m := Byte.to_nat y in
      String (sextetChar (n / 4))
        (String (sextetChar (n mod 4 * 16 + m / 16))
           (String (sextetChar (m mod 16 * 4)) (String pad "")))
  | x :: y :: z :: rest =>
      let n := Byte.to_nat x in
      let m := Byte.to_nat y in
      let k := Byte.to_nat z in
      String (sextetChar (n / 4))
        (String (sextetChar (n mod 4 * 16 + m / 16))
           (String (sextetChar (m mod 16 * 4 + k / 64))
              (String (sextetChar (k mod 64)) (encodeBase64 rest))))
  end.

Fixpoint decodeQuads (str : string) : Outcome bytes :=
  match str with
  | "" => Returns []
  | String c1 (String c2 (String c3 (String c4 rest))) =>
      match charSextet c1, charSextet c2 with
      | Some s1, Some s2 =>
          let b1 := byteOf (s1 * 4 + s2 / 16) in
          if Ascii.eqb c3 pad then
            if Ascii.eqb c4 pad && String.eqb rest "" then Returns [b1]
            else Throws "invalid encoding"
          else
            match charSextet c3 with
            | Some s3 =>
                let b2 := byteOf (s2 mod 16 * 16 + s3 / 4) in
                if Ascii.eqb c4 pad then
                  if String.eqb rest "" then Returns [b1; b2]
                  else Throws "invalid encoding"
                else
                  match charSextet c4 with
                  | Some s4 =>
                      let b3 := byteOf (s3 mod 4 * 64 + s4) in
                      obind (decodeQuads rest)
                        (fun tail => Returns (b1 :: b2 :: b3 :: tail))
                  | None => Throws "invalid encoding"
                  end
            | None => Throws "invalid encoding"
            end
      | _, _ => Throws "invalid encoding"
      end
  | _ => Throws "invalid encoding"
  end.

Definition decodeBase64 (v : JsValue) : Outcome bytes :=
  match v with
  | JString str => decodeQuads str
  | _ => Throws "expected string"
  end.

(** JSON restricted to what the envelope needs: objects whose values are
    strings, and [null]. *)
Definition dquote : ascii := ascii_of_nat 34.
Definition backslash : ascii := ascii_of_nat 92.

Definition special (c : ascii) : bool :=
  Ascii.eqb c dquote || Ascii.eqb c backslash.

Fixpoint escape (str : string) : string :=
  match str with
  | "" => ""
  | String c rest =>
      if special c then String backslash (String c (escape rest))
      else String c (escape rest)
  end.

(** A string literal: opening quote, escaped characters, closing quote,
    followed by [rest]. *)
Definition literal (str rest : string) : string :=
  String dquote (escape str ++ String dquote rest).

Definition member (key : string) (value : JsValue) (rest : string)
  : string :=
  literal key (String ":"
    match value with
    | JString v => literal v rest
    | _ => "null" ++ rest
    end).

Fixpoint members (fields : list (string * JsValue)) : string :=
  match fields with
  | [] => "}"
  | [(k, v)] => member k v "}"
  | (k, v) :: rest => member k v (String "," (members rest))
  end.

Definition JSON_stringify (v : JsValue) : string :=
  match v with
  | JObject fields => String "{" (members fields)
  | JString str => literal str ""
  | _ => "null"
  end.

(** Reads a string literal after its opening quote. *)
Fixpoint unquote (str : string) : option (string * string) :=
  match str with
  | "" => None
  | String c rest =>
      if Ascii.eqb c dquote then Some ("", rest)
      else if Ascii.eqb c backslash then
        match rest with
        | String e rest' =>
            if special e then
              match unquote rest' with
              | Some (v, after) => Some (String e v, after)
              | None => None
              end
            else None
        | "" => None
        end
      else
        match unquote rest with
        | Some (v, after) => Some (String c v, after)
        | None => None
        end
  end.

(** The rest of the input after the character [c]. *)
Definition expect (c : ascii) (str : string) : option string :=
  match str with
  | String c' rest => if Ascii.eqb c' c then Some rest else None
  | "" => None
  end.

(** One member, a string literal for key and for value, and the rest of
    the input. *)
Definition parseMember (str : string)
  : option (string * JsValue * string) :=
  match expect dquote str with
  | Some rest =>
      match unquote rest with
      | Some (key, rest) =>
          match expect ":" rest with
          | Some rest =>
              match expect dquote rest with
              | Some rest =>
                  match unquote rest with
                  | Some (value, rest) => Some (key, JString value, rest)
                  | None => None
                  end
              | None => None
              end
          | None => None
          end
      | None => None
      end
  | None => None
  end.

(** The members of an object up to its closing brace, which ends the
    input. *)
Fixpoint parseMembers (fuel : nat) (str : string)
  : option (list (string * JsValue)) :=
  match fuel with
  | O => None
  | S fuel =>
      match parseMember str with
      | Some (key, value, String c rest) =>
          if Ascii.eqb c "," then
            option_map (cons (key, value)) (parseMembers fuel rest)
          else if Ascii.eqb c "}" && String.eqb rest "" then
            Some [(key, value)]
          else None
      | _ => None
      end
  end.

Definition JSON_parse (str : string) : option JsValue :=
  if String.eqb str "null" then Some JNull
  else
    match expect "{" str with
    | Some rest =>
        if String.eqb rest "}" then Some (JObject [])
        else option_map JObject (parseMembers (String.length str) rest)
    | None => None
    end.

#[export] Instance platform : Platform :=
  Build_Platform nat randomBytes box_keyPair box_keyPair_fromSecretKey
    box box_open secretbox secretbox_open pbkdf2_sha256
    list_byte_of_string decodeUTF8 encodeUTF8 encodeBase64 decodeBase64
    JSON_parse JSON_stringify.

End Model.

(** The state of a service over an adapter state [A] and a key-storage
    state [K]. *)
Abbreviation ServiceState A K := (@MessagingService.State _ A K).

(** ** Vocabulary of the specification *)

(** The errors of the specification's taxonomy, as the messages the service
    throws them with. *)
Definition ValidationError : string := "PIN must be exactly 6 digits".
Definition BackupUnsupported : string := "Key backup not supported by adapter".
Definition BackupMissing : string := "No backup found on server".
Definition RateLimited : string :=
  "Too many attempts. Please try again in 15 minutes.".
Definition IncorrectPin : string := "Incorrect PIN".

(** The PIN format contract in the specification's words: exactly six ASCII
    digits. *)
Definition exactlySixDigits (pin : string) : bool :=
  match list_ascii_of_string pin with
  | [a; b; c; d; e; f] =>
      isDigit a && isDigit b && isDigit c && isDigit d && isDigit e
      && isDigit f
  | _ => false
  end.

Section Observations.
Context `{Platform} {A K : Type}.
Variable adapter : MessagingAdapter.t A.
Variable keyStorage : KeyStorage.t K.

(** The calls a method made: what it appended to the record. *)
Definition callsMade (before after : @MessagingService.State _ A K)
  : list Call :=
  skipn (length (MessagingService.trace before))
    (MessagingService.trace after).

(** The three facts the status is derived from, as the collaborators
    answer them.  A lookup may change the state of the collaborator, so
    the state it leaves is carried along. *)

(** The Local Key Store holds a KeyPair for the user. *)
Definition localKeyPresent (userId : string) (k : K) : Prop :=
  exists keys k',
    KeyStorage.loadKeyPair keyStorage userId k = (Returns (Some keys), k').

Definition localKeyAbsent (userId : string) (k : K) : Prop :=
  exists k', KeyStorage.loadKeyPair keyStorage userId k = (Returns None, k').

(** The Key Directory answers with a backup blob. *)
Definition remoteBackupPresent (userId : string) (a : A) : Prop :=
  exists getKeyBackup backup a',
    MessagingAdapter.getKeyBackup adapter = Some getKeyBackup
    /\ getKeyBackup userId a = (Returns backup, a')
    /\ truthyString (KeyBackup.encryptedKey backup) = true.

(** The Key Directory has the backup capability and answers that it holds
    no blob; [a'] is the state the lookup leaves. *)
Definition remoteBackupEmpty (userId : string) (a a' : A) : Prop :=
  exists getKeyBackup backup,
    MessagingAdapter.getKeyBackup adapter = Some getKeyBackup
    /\ getKeyBackup userId a = (Returns backup, a')
    /\ truthyString (KeyBackup.encryptedKey backup) = false.

(** No remote backup: the directory lacks the capability, or has it and
    holds no blob. *)
Definition remoteBackupAbsent (userId : string) (a a' : A) : Prop :=
  (MessagingAdapter.getKeyBackup adapter = None /\ a' = a)
  \/ remoteBackupEmpty userId a a'.

Definition remotePublicKeyPresent (userId : string) (a : A) : Prop :=
  exists getPublicKey publicKey a',
    MessagingAdapter.getPublicKey adapter = Some getPublicKey
    /\ getPublicKey userId a = (Returns publicKey, a')
    /\ truthyString publicKey = true.

Definition remotePublicKeyAbsent (userId : string) (a : A) : Prop :=
  MessagingAdapter.getPublicKey adapter = None
  \/ exists getPublicKey publicKey a',
       MessagingAdapter.getPublicKey adapter = Some getPublicKey
       /\ getPublicKey userId a = (Returns publicKey, a')
       /\ truthyString publicKey = false.

(** Whether [sendMessage] goes through its encryption branch: encryption
    enabled and a KeyPair loaded. *)
Definition encrypting (this : @MessagingService.State _ A K) : bool :=
  MessagingService.e2eEnabled this
  && bool_decide (MessagingService.keyPair this <> None).

(** What [getEncryptionStatus] returns. *)
Definition resolveStatus (this : @MessagingService.State _ A K)
  : Outcome EncryptionStatus :=
  fst (MessagingService.getEncryptionStatus adapter keyStorage this).

End Observations.

(** ** Fixtures: users, keys and collaborators for the examples *)
Module Fixtures.
Import Model.

(** A state of the model's random source. *)
Definition seed (n : nat) : @Rng platform := n.

Definition alice : string := "alice".
Definition bob : string := "bob".
Definition carol : string := "carol".

Definition aliceKeys : KeyPair := fst (box_keyPair 1).
Definition bobKeys : KeyPair := fst (box_keyPair 40).

Definition storedKeys (kp : KeyPair) : StoredKeyPair.t :=
  StoredKeyPair.mk (bytesToBase64 (publicKey kp))
    (bytesToBase64 (secretKey kp)).

Definition user (id : string) : User.t := User.mk id None None.

Definition conversation (id : string) (participants : list string)
  : Conversation.t :=
  Conversation.mk id
    (if (2 <? length participants)%nat then "group" else "dm") None
    (map user participants) "2024-01-01T00:00:00.000Z"
    "2024-01-01T00:00:00.000Z" None 0 None.

(** The state of a memory adapter holding one conversation, the public
    keys and the backups given. *)
Definition directory (c : Conversation.t)
    (publicKeys keyBackups : gmap string string)
  : MemoryMessagingAdapter.State :=
  MemoryMessagingAdapter.mkState {[Conversation.id c := c]}
    {[Conversation.id c := []]} publicKeys keyBackups 2
    "2024-01-02T00:00:00.000Z".

Definition emptyDirectory : MemoryMessagingAdapter.State :=
  MemoryMessagingAdapter.mkState ∅ ∅ ∅ ∅ 1 "2024-01-02T00:00:00.000Z".

(** An adapter without the key-backup capability: the memory adapter
    less [storeKeyBackup], [getKeyBackup] and [recordPinAttempt]. *)
Definition withoutBackup : MessagingAdapter.t MemoryMessagingAdapter.State :=
  MessagingAdapter.mk MemoryMessagingAdapter.getConversation
    MemoryMessagingAdapter.sendMessage
    (Some MemoryMessagingAdapter.storePublicKey)
    (Some MemoryMessagingAdapter.getPublicKey) None None None.

(** An adapter that stores backups and keeps no count of PIN attempts:
    the memory adapter less [recordPinAttempt]. *)
Definition withoutAttemptLog
  : MessagingAdapter.t MemoryMessagingAdapter.State :=
  MessagingAdapter.mk MemoryMessagingAdapter.getConversation
    MemoryMessagingAdapter.sendMessage
    (Some MemoryMessagingAdapter.storePublicKey)
    (Some MemoryMessagingAdapter.getPublicKey)
    (Some MemoryMessagingAdapter.storeKeyBackup)
    (Some MemoryMessagingAdapter.getKeyBackup) None.

(** An adapter whose directory is in its cool-down period: the memory
    adapter with [getKeyBackup] answering [rateLimited: true], as the
    Supabase adapter does when the server says so. *)
Definition rateLimitedGetKeyBackup (userId : string)
  : M MemoryMessagingAdapter.State KeyBackup.t :=
  fun st =>
    (Returns (KeyBackup.mk (MemoryMessagingAdapter.keyBackups st !! userId)
                true), st).

Definition rateLimiting : MessagingAdapter.t MemoryMessagingAdapter.State :=
  MessagingAdapter.mk MemoryMessagingAdapter.getConversation
    MemoryMessagingAdapter.sendMessage
    (Some MemoryMessagingAdapter.storePublicKey)
    (Some MemoryMessagingAdapter.getPublicKey)
    (Some MemoryMessagingAdapter.storeKeyBackup)
    (Some rateLimitedGetKeyBackup)
    (Some MemoryMessagingAdapter.recordPinAttempt).

(** A service over the memory adapter and the memory key storage. *)
Definition service (e2eEnabled : bool) (currentUserId : option string)
    (keyPair : option KeyPair) (publicKeyCache : gmap string bytes)
    (a : MemoryMessagingAdapter.State) (k : gmap string StoredKeyPair.t)
  : @MessagingService.State platform MemoryMessagingAdapter.State
      (gmap string StoredKeyPair.t) :=
  MessagingService.mkState e2eEnabled currentUserId keyPair publicKeyCache
    a k (seed 7) [].

(** Alice's backup as [setupEncryption] makes it, and what a directory
    holds after her setup with PIN 123456. *)
Definition aliceBackup : string :=
  match TweetNaClEncryption.encryptPrivateKeyWithPin
          (secretKey aliceKeys) "123456" (seed 3) with
  | (Returns blob, _) => blob
  | (Throws _, _) => ""
  end.

Definition aliceDirectory : MemoryMessagingAdapter.State :=
  MemoryMessagingAdapter.mkState ∅ ∅
    {[alice := bytesToBase64 (publicKey aliceKeys)]}
    {[alice := aliceBackup]} 1 "2024-01-02T00:00:00.000Z".

Abbreviation memoryAdapter := MemoryMessagingAdapter.create.
Abbreviation memoryStorage := MemoryKeyStorage.create.
Abbreviation tweetnacl := (@createE2EEncryption platform).

(** Alice, her key pair stored locally, on a directory that holds
    nothing. *)
Definition aliceLocalOnly :=
  service true (Some alice) None ∅ emptyDirectory
    {[alice := storedKeys aliceKeys]}.

(** A deployment with encryption disabled, nobody signed in. *)
Definition nobodyDisabled :=
  service false None None ∅ emptyDirectory ∅.

(** Alice on a new device: nothing stored locally, her public key and
    backup in the directory. *)
Definition aliceNewDevice :=
  service true (Some alice) None ∅ aliceDirectory ∅.

(** Alice signed in, her keys loaded, Bob's public key cached. *)
Definition aliceSignedIn :=
  service true (Some alice) (Some aliceKeys)
    {[bob := publicKey bobKeys]} aliceDirectory
    {[alice := storedKeys aliceKeys]}.

(** A conversation of three. *)
Definition team : Conversation.t := conversation "1" [alice; bob; carol].

Definition aliceInTeam :=
  service true (Some alice) (Some aliceKeys) ∅
    (directory team {[bob := bytesToBase64 (publicKey bobKeys)]} ∅) ∅.

Definition hello : SendMessageOptions.t :=
  SendMessageOptions.mk "hello team" None None None.

End Fixtures.

(** ** [encryption/key-storage.ts]: [IndexedDBKeyStorage] *)

Module IndexedDBKeyStorage.

(** The host as the class sees it, over the state [D] of the browser's
    databases: whether [window] and [indexedDB] are defined, and the
    requests the class makes, each of which completes ([onsuccess]) or
    fails with [request.error] ([onerror]). *)
Record Host (D : Type) := mkHost {
  windowDefined : bool;
  indexedDBDefined : bool;
  (** [indexedDB.open(dbName, 1)], the object store created on upgrade *)
  open : string -> M D unit;
  (** [store.put({ id: userId, ...keys })] on the store named *)
  put : string -> string -> StoredKeyPair.t -> M D unit;
  (** [store.get(userId)]; [None] when [request.result] is undefined *)
  get : string -> string -> M D (option StoredKeyPair.t);
  (** [store.delete(userId)] *)
  delete : string -> string -> M D unit;
}.
Arguments mkHost {D}.
Arguments windowDefined {D}.
Arguments indexedDBDefined {D}.
Arguments open {D}.
Arguments put {D}.
Arguments get {D}.
Arguments delete {D}.

Section WithHost.
Context {D : Type}.
Variable host : Host D.
Variable dbName : string.

Definition storeName : string := "keys".

Definition isAvailable : bool :=
  if negb (windowDefined host) then false
  else if negb (indexedDBDefined host) then false
  else true.

Definition openDatabase : M D unit :=
  if negb isAvailable then throw "IndexedDB not available"
  else open host dbName.

Definition storeKeyPair (userId : string) (keys : StoredKeyPair.t)
  : M D unit :=
  if negb isAvailable then
    throw "IndexedDB not available - cannot store encryption keys"
  else (openDatabase ;;; put host storeName userId keys)%js.

(** The [try] covers the awaited [openDatabase]; the promise of the read
    request is returned, not awaited, so its rejection passes the [catch]
    by. *)
Definition loadKeyPair (userId : string) : M D (option StoredKeyPair.t) :=
  if negb isAvailable then ret None
  else
    (opened <- tryCatch (openDatabase ;;; ret true) (ret false) ;;
     if (opened : bool) then get host storeName userId else ret None)%js.

Definition deleteKeyPair (userId : string) : M D unit :=
  if negb isAvailable then ret tt
  else (openDatabase ;;; delete host storeName userId)%js.

(** [createIndexedDBKeyStorage(dbName)] *)
Definition create : KeyStorage.t D :=
  KeyStorage.mk storeKeyPair loadKeyPair deleteKeyPair (fun _ => isAvailable).

End WithHost.
End IndexedDBKeyStorage.

(** ** The states of the memory adapter *)

Module MemoryStates.
Import MemoryMessagingAdapter.

(** [new MemoryMessagingAdapter()], the clock reading [timestamp]. *)
Definition initial (timestamp : string) : State :=
  mkState ∅ ∅ ∅ ∅ 1 timestamp.

(** The calls that change an adapter, and the clock moving on. *)
Inductive Operation :=
| CreateConversation (participants : list string)
    (options : option CreateConversationOptions.t)
| DeleteConversation (id userId : string)
| AddParticipants (conversationId : string) (userIds : list string)
| RemoveParticipants (conversationId : string) (userIds : list string)
| MuteConversation (conversationId userId : string) (mute : bool)
| SendMessage (conversationId senderId : string)
    (message : SendMessageOptions.t)
| MarkAsRead (conversationId userId : string) (messageId : option string)
| StorePublicKey (userId publicKey : string)
| StoreKeyBackup (userId encryptedPrivateKey : string)
| RecordPinAttempt (userId : string) (success : bool)
| Clear
| Tick (timestamp : string).

Definition apply (op : Operation) (st : State) : State :=
  match op with
  | CreateConversation participants options =>
      snd (createConversation participants options st)
  | DeleteConversation id userId => snd (deleteConversation id userId st)
  | AddParticipants conversationId userIds =>
      snd (addParticipants conversationId userIds st)
  | RemoveParticipants conversationId userIds =>
      snd (removeParticipants conversationId userIds st)
  | MuteConversation conversationId userId mute =>
      snd (muteConversation conversationId userId mute st)
  | SendMessage conversationId senderId message =>
      snd (sendMessage conversationId senderId message st)
  | MarkAsRead conversationId userId messageId =>
      snd (markAsRead conversationId userId messageId st)
  | StorePublicKey userId publicKey => snd (storePublicKey userId publicKey st)
  | StoreKeyBackup userId encryptedPrivateKey =>
      snd (storeKeyBackup userId encryptedPrivateKey st)
  | RecordPinAttempt userId success =>
      snd (recordPinAttempt userId success st)
  | Clear => snd (clear st)
  | Tick timestamp =>
      mkState (conversations st) (messages st) (publicKeys st)
        (keyBackups st) (idCounter st) timestamp
  end.

(** The states an adapter goes through from its construction. *)
Inductive reachable : State -> Prop :=
| reachable_initial (timestamp : string) : reachable (initial timestamp)
| reachable_apply (op : Operation) (st : State) :
    reachable st -> reachable (apply op st).

(** An id the counter has handed out. *)
Definition issued (st : State) (id : string) : Prop :=
  exists n : N, (0 < n < idCounter st)%N /\ id = pretty.pretty n.

Record wellFormed (st : State) : Prop := mkWellFormed {
  (** the counter starts at 1 and only grows *)
  counter_positive : (0 < idCounter st)%N;
  (** a conversation is filed under its own id, which was issued *)
  conversation_id : forall k c,
    conversations st !! k = Some c ->
    Conversation.id c = k /\ issued st k;
  (** there is a message list for exactly the conversations there are *)
  messages_domain : forall k,
    is_Some (messages st !! k) <-> is_Some (conversations st !! k);
  (** a message is filed under its conversation, its id was issued *)
  message_filed : forall k ms m,
    messages st !! k = Some ms -> In m ms ->
    Message.conversationId m = k /\ issued st (Message.id m);
  (** [lastMessage] is the last message sent to the conversation *)
  last_message : forall k c,
    conversations st !! k = Some c ->
    Conversation.lastMessage c = last (default [] (messages st !! k));
  (** nothing ever counts a message as unread *)
  nothing_unread : forall k c,
    conversations st !! k = Some c -> Conversation.unreadCount c = 0%Z;
}.

End MemoryStates.

(** ** Vocabulary for what a method leaves alone *)

(** A computation keeps a relation between the state it starts from and
    the state it ends in. *)
Definition respects {S X} (R : S -> S -> Prop) (m : M S X) : Prop :=
  forall st, R st (snd (m st)).

(** A lookup: one of the three questions [getEncryptionStatus] asks. *)
Definition isLookupCall (c : Call) : bool :=
  match c with
  | keyStorage_loadKeyPair _ | adapter_getKeyBackup _
  | adapter_getPublicKey _ => true
  | _ => false
  end.

Definition isSendMessageCall (c : Call) : bool :=
  match c with
  | adapter_sendMessage _ _ _ => true
  | _ => false
  end.

Definition isGetPublicKeyCall (c : Call) : bool :=
  match c with
  | adapter_getPublicKey _ => true
  | _ => false
  end.

(** An optional adapter method that returns nothing, called on the state
    [a] of the adapter if the adapter has it: that it completes, the state
    it leaves, and the call it counts for. *)
Definition optionalReturns {A} (method : option (M A unit)) (a : A) : Prop :=
  match method with
  | Some m => fst (m a) = Returns tt
  | None => True
  end.

Definition optionalState {A} (method : option (M A unit)) (a : A) : A :=
  match method with
  | Some m => snd (m a)
  | None => a
  end.

Definition optionalCall {A} (method : option (M A unit)) (c : Call)
  : list Call :=
  match method with
  | Some _ => [c]
  | None => []
  end.

Section Session.
Context `{Platform} {A K : Type}.

(** The later state has the earlier one's trace and, after it, only calls
    that satisfy [allowed]. *)
Definition callsOnly (allowed : Call -> bool)
    (before after : ServiceState A K) : Prop :=
  exists calls,
    MessagingService.trace after = MessagingService.trace before ++ calls
    /\ forallb allowed calls = true.

(** The fields of the service itself are the same in both states. *)
Definition sameSession (before after : ServiceState A K) : Prop :=
  MessagingService.e2eEnabled after = MessagingService.e2eEnabled before
  /\ MessagingService.currentUserId after
     = MessagingService.currentUserId before
  /\ MessagingService.keyPair after = MessagingService.keyPair before
  /\ MessagingService.publicKeyCache after
     = MessagingService.publicKeyCache before.

(** The same, the public-key cache left free. *)
Definition sameUserAndKeys (before after : ServiceState A K) : Prop :=
  MessagingService.e2eEnabled after = MessagingService.e2eEnabled before
  /\ MessagingService.currentUserId after
     = MessagingService.currentUserId before
  /\ MessagingService.keyPair after = MessagingService.keyPair before.

(** Read-only with respect to the session, asking only lookups. *)
Definition readOnly (before after : ServiceState A K) : Prop :=
  sameSession before after
  /\ MessagingService.rng after = MessagingService.rng before
  /\ callsOnly isLookupCall before after.

(** What [decryptMessage] may change in a message: its [content] and
    [contentEncrypted]. *)
Definition sameEnvelope (m m' : Message.t) : Prop :=
  Message.withContents (Message.content m) (Message.contentEncrypted m) m'
  = m.

End Session.


(** A [MessagingService] over the memory adapter and the memory key
    store. *)
Abbreviation MemoryService :=
  (ServiceState MemoryMessagingAdapter.State (gmap string StoredKeyPair.t)).

(** ** Scenarios: a set-up, a reload, a second device, a conversation *)
Module Scenarios.
Import Model Fixtures.

(** Alice before any set-up: nothing stored anywhere. *)
Definition aliceFirstVisit :=
  service true (Some alice) None ∅ emptyDirectory ∅.

(** Alice with her keys stored locally and backed up, before
    [initializeEncryption]. *)
Definition aliceBeforeInitialize :=
  service true (Some alice) None ∅ aliceDirectory
    {[alice := storedKeys aliceKeys]}.

(** A direct conversation between Alice and Bob, both keys published. *)
Definition chat : Conversation.t := conversation "1" [alice; bob].

Definition chatDirectory : MemoryMessagingAdapter.State :=
  directory chat
    {[alice := bytesToBase64 (publicKey aliceKeys);
      bob := bytesToBase64 (publicKey bobKeys)]} ∅.

Definition aliceInChat :=
  service true (Some alice) (Some aliceKeys) ∅ chatDirectory ∅.

Definition hi : SendMessageOptions.t :=
  SendMessageOptions.mk "hi bob" None None None.

(** Alice sends. *)
Definition aliceSends :=
  MessagingService.sendMessage memoryAdapter tweetnacl "1" hi aliceInChat.

(** The envelope Alice makes for Bob from the seed 5, and a message that
    carries it. *)
Definition envelope : string :=
  match createEncryptedContent tweetnacl "hi bob" (secretKey aliceKeys)
          (publicKey aliceKeys) (publicKey bobKeys) bob (seed 5) with
  | (Returns encrypted, _) => JSON_stringify (contentToJs encrypted)
  | (Throws _, _) => "hi bob"
  end.

Definition fromAlice : Message.t :=
  Message.mk "2" "1" alice envelope None "text" None None None None None
    "2024-01-02T00:00:00.000Z" None.

Definition bobReading :=
  service true (Some bob) (Some bobKeys) ∅ chatDirectory ∅.

(** Carol joins the conversation; Alice sends afterwards. *)
Definition chatWithCarol : MemoryMessagingAdapter.State :=
  snd (MemoryMessagingAdapter.addParticipants "1" [carol] chatDirectory).

Definition aliceWithCarol :=
  service true (Some alice) (Some aliceKeys) ∅ chatWithCarol ∅.

(** A new adapter in which Alice opened a conversation with Bob and wrote
    to him. *)
Definition started : MemoryMessagingAdapter.State :=
  MemoryStates.apply (MemoryStates.SendMessage "1" alice hi)
    (MemoryStates.apply (MemoryStates.CreateConversation [alice; bob] None)
       (MemoryStates.initial "2024-01-02T00:00:00.000Z")).

(** A host without [window], as on a server, and a browser whose
    database cannot be opened. *)
Definition serverHost : IndexedDBKeyStorage.Host unit :=
  IndexedDBKeyStorage.mkHost false false (fun _ => ret tt)
    (fun _ _ _ => ret tt) (fun _ _ => ret None) (fun _ _ => ret tt).

Definition blockedHost : IndexedDBKeyStorage.Host unit :=
  IndexedDBKeyStorage.mkHost true true (fun _ => throw "InvalidStateError")
    (fun _ _ _ => ret tt) (fun _ _ => ret None) (fun _ _ => ret tt).

Definition aliceOnServer
  : @MessagingService.State platform MemoryMessagingAdapter.State unit :=
  MessagingService.mkState true (Some alice) None ∅ emptyDirectory tt
    (seed 7) [].

End Scenarios.

(** * Properties *)

(** ** The PIN format *)

Lemma forallb_isDigit_six (l : list ascii) :
  length l = 6%nat ->
  forallb isDigit l =
  match l with
  | [a; b; c; d; e; f] =>
      isDigit a && isDigit b && isDigit c && isDigit d && isDigit e
      && isDigit f
  | _ => false
  end.
Proof.
  intros Hlen.
  do 7 (destruct l as [|? l]; try discriminate Hlen).
  simpl. rewrite andb_true_r. now rewrite !andb_assoc.
Qed.

Lemma length_list_ascii_of_string (str : string) :
  length (list_ascii_of_string str) = String.length str.
Proof. induction str as [|c str IH]; simpl; congruence. Qed.

(** The test of the source rejects exactly the PINs that are not six ASCII
    digits. *)
Lemma pinRejected_spec (pin : string) :
  pinRejected pin = negb (exactlySixDigits pin).
Proof.
  unfold pinRejected, exactlySixDigits, testDigits.
  destruct (String.length pin =? 6)%nat eqn:Hlen; simpl.
  - apply Nat.eqb_eq in Hlen.
    rewrite <- length_list_ascii_of_string in Hlen.
    rewrite <- (forallb_isDigit_six _ Hlen).
    destruct pin; [discriminate Hlen | reflexivity].
  - apply Nat.eqb_neq in Hlen.
    rewrite <- length_list_ascii_of_string in Hlen.
    destruct (list_ascii_of_string pin) as [|a [|b [|c [|d [|e [|f [|g l]]]]]]];
      try reflexivity.
    now contradiction Hlen.
Qed.

Section ServiceProperties.
Context `{Platform} {A K : Type}.
Variable adapter : MessagingAdapter.t A.
Variable keyStorage : KeyStorage.t K.
Variable encryption : E2EEncryption.

Lemma callsMade_app (before after : ServiceState A K) (l : list Call) :
  MessagingService.trace after = MessagingService.trace before ++ l ->
  callsMade before after = l.
Proof.
  intros Heq. unfold callsMade. rewrite Heq.
  rewrite List.skipn_app, List.skipn_all, Nat.sub_diag. reflexivity.
Qed.

Lemma callsMade_refl (this : ServiceState A K) : callsMade this this = [].
Proof. apply callsMade_app. now rewrite app_nil_r. Qed.

(** C9.  Switching to another user clears the key material: after
    [setCurrentUser] with an id different from the current one, on a
    state with a loaded KeyPair and a non-empty public-key cache, the
    KeyPair is null and the cache is empty; so the readiness check answers
    as it does without a key ([!e2eEnabled]) and decrypting a message
    hands it back untouched. *)
Theorem setCurrentUser_clears_key_material
    (this : ServiceState A K) (userId : string) (loaded : KeyPair) :
  MessagingService.keyPair this = Some loaded ->
  MessagingService.publicKeyCache this <> ∅ ->
  MessagingService.currentUserId this <> Some userId ->
  exists this',
    MessagingService.setCurrentUser userId this = (Returns tt, this')
    /\ MessagingService.currentUserId this' = Some userId
    /\ MessagingService.keyPair this' = None
    /\ MessagingService.publicKeyCache this' = ∅
    /\ MessagingService.isEncryptionReady this'
       = negb (MessagingService.e2eEnabled this)
    /\ forall message,
         MessagingService.decryptMessage adapter encryption message this'
         = (Returns message, this').
Proof.
  intros _ _ Hother.
  unfold MessagingService.setCurrentUser, bind, get, modify, ret.
  rewrite bool_decide_eq_false_2 by exact Hother. simpl.
  eexists; split; [reflexivity|]. simpl.
  repeat split.
  - unfold MessagingService.isEncryptionReady. simpl.
    apply orb_false_r.
  - intros message. unfold MessagingService.decryptMessage, bind, get, ret.
    simpl. now destruct (MessagingService.e2eEnabled this).
Qed.

(** C8.  With an active user, a PIN that is not exactly six ASCII digits
    makes [setupEncryption] and [restoreEncryption] throw the validation
    error and leaves the whole state as it was: no call to the
    encryption, the adapter or the key storage was made, no random byte
    drawn.  The inputs 12345, abcdef and 1234567 are such PINs, and
    000000 passes the test. *)
Theorem malformed_pin_rejected_first
    (this : ServiceState A K) (userId pin : string) :
  MessagingService.currentUser this = Some userId ->
  exactlySixDigits pin = false ->
  MessagingService.setupEncryption adapter keyStorage encryption pin this
    = (Throws ValidationError, this)
  /\ MessagingService.restoreEncryption adapter keyStorage encryption pin
       this = (Throws ValidationError, this)
  /\ callsMade this
       (snd (MessagingService.setupEncryption adapter keyStorage encryption
               pin this)) = []
  /\ callsMade this
       (snd (MessagingService.restoreEncryption adapter keyStorage
               encryption pin this)) = []
  /\ exactlySixDigits "12345" = false
  /\ exactlySixDigits "abcdef" = false
  /\ exactlySixDigits "1234567" = false
  /\ pinRejected "000000" = false.
Proof.
  intros Huser Hpin.
  assert (Hrej : pinRejected pin = true)
    by (rewrite pinRejected_spec, Hpin; reflexivity).
  unfold MessagingService.setupEncryption,
    MessagingService.restoreEncryption, bind, get, throw.
  rewrite Huser, Hrej. simpl.
  repeat split; try reflexivity; apply callsMade_refl.
Qed.

(** *** Running a call to a collaborator *)

Lemma onAdapter_run {X} (c : Call) (m : M A X) (this : ServiceState A K) :
  MessagingService.onAdapter c m this =
  (fst (m (MessagingService.adapterState this)),
   MessagingService.mkState (MessagingService.e2eEnabled this)
     (MessagingService.currentUserId this) (MessagingService.keyPair this)
     (MessagingService.publicKeyCache this)
     (snd (m (MessagingService.adapterState this)))
     (MessagingService.keyStorageState this) (MessagingService.rng this)
     (MessagingService.trace this ++ [c])).
Proof.
  unfold MessagingService.onAdapter, MessagingService.record, bind, modify.
  simpl. now destruct (m (MessagingService.adapterState this)).
Qed.

Lemma onKeyStorage_run {X} (c : Call) (m : M K X) (this : ServiceState A K) :
  MessagingService.onKeyStorage c m this =
  (fst (m (MessagingService.keyStorageState this)),
   MessagingService.mkState (MessagingService.e2eEnabled this)
     (MessagingService.currentUserId this) (MessagingService.keyPair this)
     (MessagingService.publicKeyCache this)
     (MessagingService.adapterState this)
     (snd (m (MessagingService.keyStorageState this)))
     (MessagingService.rng this) (MessagingService.trace this ++ [c])).
Proof.
  unfold MessagingService.onKeyStorage, MessagingService.record, bind,
    modify.
  simpl. now destruct (m (MessagingService.keyStorageState this)).
Qed.

Lemma onRng_run {X} (c : Call) (m : M Rng X) (this : ServiceState A K) :
  MessagingService.onRng c m this =
  (fst (m (MessagingService.rng this)),
   MessagingService.mkState (MessagingService.e2eEnabled this)
     (MessagingService.currentUserId this) (MessagingService.keyPair this)
     (MessagingService.publicKeyCache this)
     (MessagingService.adapterState this)
     (MessagingService.keyStorageState this)
     (snd (m (MessagingService.rng this)))
     (MessagingService.trace this ++ [c])).
Proof.
  unfold MessagingService.onRng, MessagingService.record, bind, modify.
  simpl. now destruct (m (MessagingService.rng this)).
Qed.

Lemma onPure_run {X} (c : Call) (o : Outcome X) (this : ServiceState A K) :
  MessagingService.onPure c o this =
  (o,
   MessagingService.mkState (MessagingService.e2eEnabled this)
     (MessagingService.currentUserId this) (MessagingService.keyPair this)
     (MessagingService.publicKeyCache this)
     (MessagingService.adapterState this)
     (MessagingService.keyStorageState this) (MessagingService.rng this)
     (MessagingService.trace this ++ [c])).
Proof. reflexivity. Qed.

Lemma bind_run {S X Y} (m : M S X) (k : X -> M S Y) (st : S) :
  bind m k st =
  match fst (m st) with
  | Returns x => k x (snd (m st))
  | Throws e => (Throws e, snd (m st))
  end.
Proof. unfold bind. now destruct (m st) as [[x|e] st']. Qed.

Lemma pin_accepted (pin : string) :
  exactlySixDigits pin = true -> pinRejected pin = false.
Proof. intros Hpin. now rewrite pinRejected_spec, Hpin. Qed.

(** C6.  Rate-limited restore: for an active user and a six-digit PIN,
    when the adapter's [getKeyBackup] answers [rateLimited: true],
    [restoreEncryption] throws the rate-limit error, and the only call it
    made is that [getKeyBackup]: neither [decryptPrivateKeyWithPin] nor
    [recordPinAttempt] was called. *)
Theorem rate_limited_restore
    (this : ServiceState A K) (userId pin : string)
    (getKeyBackup : string -> M A KeyBackup.t)
    (backup : KeyBackup.t) (a' : A) :
  MessagingService.currentUser this = Some userId ->
  exactlySixDigits pin = true ->
  MessagingAdapter.getKeyBackup adapter = Some getKeyBackup ->
  getKeyBackup userId (MessagingService.adapterState this)
    = (Returns backup, a') ->
  KeyBackup.rateLimited backup = true ->
  exists this',
    MessagingService.restoreEncryption adapter keyStorage encryption pin
      this = (Throws RateLimited, this')
    /\ callsMade this this' = [adapter_getKeyBackup userId]
    /\ existsb isDecryptPrivateKeyCall (callsMade this this') = false
    /\ existsb isRecordPinAttemptCall (callsMade this this') = false
    /\ MessagingService.keyPair this' = MessagingService.keyPair this.
Proof.
  intros Huser Hpin Hcap Hcall Hlimited.
  unfold MessagingService.restoreEncryption.
  rewrite bind_run. simpl. rewrite Huser, (pin_accepted _ Hpin), Hcap.
  rewrite bind_run, onAdapter_run, Hcall. simpl. rewrite Hlimited.
  eexists; split; [reflexivity|].
  assert (Hcalls : forall st : ServiceState A K,
    MessagingService.trace st
      = MessagingService.trace this ++ [adapter_getKeyBackup userId] ->
    callsMade this st = [adapter_getKeyBackup userId])
    by (intros st; apply callsMade_app).
  rewrite Hcalls by reflexivity. repeat split; reflexivity.
Qed.

(** Without the backup capability, and without a stored blob, the restore
    fails before any decryption. *)
Lemma restore_without_backup_capability
    (this : ServiceState A K) (userId pin : string) :
  MessagingService.currentUser this = Some userId ->
  exactlySixDigits pin = true ->
  MessagingAdapter.getKeyBackup adapter = None ->
  MessagingService.restoreEncryption adapter keyStorage encryption pin this
  = (Throws BackupUnsupported, this).
Proof.
  intros Huser Hpin Hcap.
  unfold MessagingService.restoreEncryption.
  rewrite bind_run. simpl. now rewrite Huser, (pin_accepted _ Hpin), Hcap.
Qed.

Lemma restore_without_blob
    (this : ServiceState A K) (userId pin : string)
    (getKeyBackup : string -> M A KeyBackup.t)
    (backup : KeyBackup.t) (a' : A) :
  MessagingService.currentUser this = Some userId ->
  exactlySixDigits pin = true ->
  MessagingAdapter.getKeyBackup adapter = Some getKeyBackup ->
  getKeyBackup userId (MessagingService.adapterState this)
    = (Returns backup, a') ->
  KeyBackup.rateLimited backup = false ->
  truthyString (KeyBackup.encryptedKey backup) = false ->
  exists this',
    MessagingService.restoreEncryption adapter keyStorage encryption pin this
    = (Throws BackupMissing, this')
    /\ callsMade this this' = [adapter_getKeyBackup userId].
Proof.
  intros Huser Hpin Hcap Hcall Hlimited Hblob.
  unfold MessagingService.restoreEncryption.
  rewrite bind_run. simpl. rewrite Huser, (pin_accepted _ Hpin), Hcap.
  rewrite bind_run, onAdapter_run, Hcall. simpl. rewrite Hlimited.
  unfold whenTruthy. rewrite Hblob.
  eexists; split; [reflexivity|]. now apply callsMade_app.
Qed.

Lemma ifSupported_run (method : option (M A unit)) (c : Call)
    (this : ServiceState A K) :
  MessagingService.ifSupported method c this =
  match method with
  | Some m => MessagingService.onAdapter c m this
  | None => (Returns tt, this)
  end.
Proof. now destruct method. Qed.

(** C7, amended.  Incorrect PIN: when the backup blob exists, the
    directory is not rate limited and [decryptPrivateKeyWithPin] returns
    null, [restoreEncryption] leaves the in-memory KeyPair, the
    public-key cache and the local key store as they were.  If the
    adapter has [recordPinAttempt], it is called with [(userId, false)]
    after the decryption attempt and before the method throws: the
    incorrect-PIN error when that call completes, the call's own error
    when it fails.  If the adapter has no [recordPinAttempt], the
    incorrect-PIN error is thrown and nothing is reported. *)
Theorem incorrect_pin_reported_when_supported
    (this : ServiceState A K) (userId pin encryptedKey : string)
    (getKeyBackup : string -> M A KeyBackup.t)
    (backup : KeyBackup.t) (a' : A) :
  MessagingService.currentUser this = Some userId ->
  exactlySixDigits pin = true ->
  MessagingAdapter.getKeyBackup adapter = Some getKeyBackup ->
  getKeyBackup userId (MessagingService.adapterState this)
    = (Returns backup, a') ->
  KeyBackup.rateLimited backup = false ->
  whenTruthy (KeyBackup.encryptedKey backup) = Some encryptedKey ->
  decryptPrivateKeyWithPin encryption encryptedKey pin = Returns None ->
  exists outcome this',
    MessagingService.restoreEncryption adapter keyStorage encryption pin
      this = (Throws outcome, this')
    /\ MessagingService.keyPair this' = MessagingService.keyPair this
    /\ MessagingService.publicKeyCache this'
       = MessagingService.publicKeyCache this
    /\ MessagingService.keyStorageState this'
       = MessagingService.keyStorageState this
    /\ match MessagingAdapter.recordPinAttempt adapter with
       | Some recordPinAttempt =>
           callsMade this this' =
             [adapter_getKeyBackup userId;
              encryption_decryptPrivateKeyWithPin encryptedKey pin;
              adapter_recordPinAttempt userId false]
           /\ MessagingService.adapterState this'
              = snd (recordPinAttempt userId false a')
           /\ outcome =
              match fst (recordPinAttempt userId false a') with
              | Returns _ => IncorrectPin
              | Throws e => e
              end
       | None =>
           callsMade this this' =
             [adapter_getKeyBackup userId;
              encryption_decryptPrivateKeyWithPin encryptedKey pin]
           /\ MessagingService.adapterState this' = a'
           /\ outcome = IncorrectPin
       end.
Proof.
  intros Huser Hpin Hcap Hcall Hlimited Hblob Hdecrypt.
  unfold MessagingService.restoreEncryption.
  rewrite bind_run. simpl. rewrite Huser, (pin_accepted _ Hpin), Hcap.
  rewrite bind_run, onAdapter_run, Hcall. simpl.
  rewrite Hlimited, Hblob.
  rewrite bind_run, onPure_run, Hdecrypt. simpl.
  rewrite bind_run, ifSupported_run.
  destruct (MessagingAdapter.recordPinAttempt adapter)
    as [recordPinAttempt|]; simpl.
  - rewrite onAdapter_run. simpl.
    destruct (recordPinAttempt userId false a') as [[[]|e] a''];
      simpl; do 2 eexists; (split; [reflexivity|]); simpl;
      repeat split; try reflexivity;
      apply callsMade_app; simpl; now rewrite <- !app_assoc.
  - do 2 eexists; split; [reflexivity|]; simpl.
    repeat split; try reflexivity.
    apply callsMade_app; simpl; now rewrite <- !app_assoc.
Qed.

(** *** Status resolution *)

Ltac start_status Henabled Huser :=
  unfold resolveStatus, MessagingService.getEncryptionStatus;
  rewrite bind_run; simpl; rewrite ?Henabled, ?Huser; simpl.

Lemma status_local_key (this : ServiceState A K) (userId : string) :
  MessagingService.e2eEnabled this = true ->
  MessagingService.currentUser this = Some userId ->
  localKeyPresent keyStorage userId (MessagingService.keyStorageState this) ->
  resolveStatus adapter keyStorage this =
  match MessagingAdapter.getKeyBackup adapter with
  | Some getKeyBackup =>
      match fst (getKeyBackup userId (MessagingService.adapterState this))
      with
      | Returns backup =>
          Returns (if truthyString (KeyBackup.encryptedKey backup)
                   then ready else needs_pin_setup)
      | Throws e => Throws e
      end
  | None => Returns ready
  end.
Proof.
  intros Henabled Huser (keys & k' & Hload).
  start_status Henabled Huser.
  rewrite bind_run, onKeyStorage_run, Hload. simpl.
  destruct (MessagingAdapter.getKeyBackup adapter) as [getKeyBackup|];
    [|reflexivity].
  rewrite bind_run, onAdapter_run. simpl.
  now destruct (getKeyBackup userId (MessagingService.adapterState this))
    as [[backup|e] a'].
Qed.

Lemma status_no_local_key_backup (this : ServiceState A K) (userId : string) :
  MessagingService.e2eEnabled this = true ->
  MessagingService.currentUser this = Some userId ->
  localKeyAbsent keyStorage userId (MessagingService.keyStorageState this) ->
  remoteBackupPresent adapter userId (MessagingService.adapterState this) ->
  resolveStatus adapter keyStorage this = Returns has_backup.
Proof.
  intros Henabled Huser (k' & Hload) (getKeyBackup & backup & a' & Hcap
    & Hcall & Hblob).
  start_status Henabled Huser.
  rewrite bind_run, onKeyStorage_run, Hload. simpl.
  rewrite Hcap, bind_run. simpl.
  rewrite bind_run, onAdapter_run. simpl. rewrite Hcall. simpl.
  now rewrite Hblob.
Qed.

Lemma status_no_local_key_no_backup (this : ServiceState A K) (userId : string)
    (a' : A) :
  MessagingService.e2eEnabled this = true ->
  MessagingService.currentUser this = Some userId ->
  localKeyAbsent keyStorage userId (MessagingService.keyStorageState this) ->
  remoteBackupAbsent adapter userId (MessagingService.adapterState this) a' ->
  resolveStatus adapter keyStorage this =
  match MessagingAdapter.getPublicKey adapter with
  | Some getPublicKey =>
      match fst (getPublicKey userId a') with
      | Returns publicKey =>
          Returns (if truthyString publicKey then needs_regeneration
                   else needs_setup)
      | Throws e => Throws e
      end
  | None => Returns needs_setup
  end.
Proof.
  intros Henabled Huser (k' & Hload) Habsent.
  start_status Henabled Huser.
  rewrite bind_run, onKeyStorage_run, Hload. simpl.
  destruct Habsent as [[Hcap ->]|(getKeyBackup & backup & Hcap & Hcall
    & Hblob)]; rewrite Hcap, bind_run; simpl.
  - destruct (MessagingAdapter.getPublicKey adapter) as [getPublicKey|];
      [|reflexivity].
    rewrite bind_run. simpl. rewrite bind_run, onAdapter_run. simpl.
    now destruct (getPublicKey userId (MessagingService.adapterState this))
      as [[[publicKey|]|e] a'']; simpl;
      try destruct (negb (publicKey =? "")%string).
  - rewrite bind_run, onAdapter_run. simpl. rewrite Hcall. simpl.
    rewrite Hblob.
    destruct (MessagingAdapter.getPublicKey adapter) as [getPublicKey|];
      [|reflexivity].
    rewrite bind_run. simpl. rewrite bind_run, onAdapter_run. simpl.
    now destruct (getPublicKey userId a')
      as [[[publicKey|]|e] a'']; simpl;
      try destruct (negb (publicKey =? "")%string).
Qed.

Lemma status_disabled (this : ServiceState A K) :
  MessagingService.e2eEnabled this = false ->
  resolveStatus adapter keyStorage this = Returns ready.
Proof.
  intros Hdisabled.
  unfold resolveStatus, MessagingService.getEncryptionStatus.
  rewrite bind_run. simpl. now rewrite Hdisabled.
Qed.

(** C1, amended.  For an active user whose Local Key Store holds a
    KeyPair, when the adapter has no [getKeyBackup] the status is
    [ready]; [needs_pin_setup] is the status when encryption is enabled,
    the adapter has [getKeyBackup] and it answers that no blob is
    stored. *)
Theorem local_key_without_backup_capability
    (this : ServiceState A K) (userId : string) :
  MessagingService.currentUser this = Some userId ->
  localKeyPresent keyStorage userId (MessagingService.keyStorageState this) ->
  (MessagingAdapter.getKeyBackup adapter = None ->
   resolveStatus adapter keyStorage this = Returns ready)
  /\ (MessagingService.e2eEnabled this = true ->
      forall a',
        remoteBackupEmpty adapter userId
          (MessagingService.adapterState this) a' ->
        resolveStatus adapter keyStorage this = Returns needs_pin_setup).
Proof.
  intros Huser Hlocal. split.
  - intros Hcap.
    destruct (MessagingService.e2eEnabled this) eqn:Henabled.
    + rewrite (status_local_key this userId Henabled Huser Hlocal).
      now rewrite Hcap.
    + now apply status_disabled.
  - intros Henabled a' (getKeyBackup & backup & Hcap & Hcall & Hblob).
    rewrite (status_local_key this userId Henabled Huser Hlocal).
    now rewrite Hcap, Hcall; simpl; rewrite Hblob.
Qed.

(** C5, amended.  With end-to-end encryption enabled, status resolution
    follows the state table: no active user gives [error]; for an active
    user, no local key, no remote backup and no remote public key give
    [needs_setup]; a local key and a remote backup give [ready]; no local
    key and a remote backup give [has_backup]; no local key, no backup
    and a remote public key give [needs_regeneration]. *)
Theorem status_follows_state_table (this : ServiceState A K) :
  MessagingService.e2eEnabled this = true ->
  (MessagingService.currentUser this = None ->
   resolveStatus adapter keyStorage this = Returns error)
  /\ forall userId,
       MessagingService.currentUser this = Some userId ->
       let k := MessagingService.keyStorageState this in
       let a := MessagingService.adapterState this in
       (forall a',
          localKeyAbsent keyStorage userId k ->
          remoteBackupAbsent adapter userId a a' ->
          remotePublicKeyAbsent adapter userId a' ->
          resolveStatus adapter keyStorage this = Returns needs_setup)
       /\ (localKeyPresent keyStorage userId k ->
           remoteBackupPresent adapter userId a ->
           resolveStatus adapter keyStorage this = Returns ready)
       /\ (localKeyAbsent keyStorage userId k ->
           remoteBackupPresent adapter userId a ->
           resolveStatus adapter keyStorage this = Returns has_backup)
       /\ (forall a',
             localKeyAbsent keyStorage userId k ->
             remoteBackupAbsent adapter userId a a' ->
             remotePublicKeyPresent adapter userId a' ->
             resolveStatus adapter keyStorage this
             = Returns needs_regeneration).
Proof.
  intros Henabled. split.
  - intros Hnone.
    unfold resolveStatus, MessagingService.getEncryptionStatus.
    rewrite bind_run. simpl. now rewrite Henabled, Hnone.
  - intros userId Huser k a. subst k a. repeat split.
    + intros a' Hlocal Hbackup Hkey.
      rewrite (status_no_local_key_no_backup this userId a' Henabled Huser
                 Hlocal Hbackup).
      destruct Hkey as [Hcap|(getPublicKey & publicKey & a'' & Hcap & Hcall
        & Hkey)]; rewrite Hcap; [reflexivity|].
      now rewrite Hcall; simpl; rewrite Hkey.
    + intros Hlocal (getKeyBackup & backup & a' & Hcap & Hcall & Hblob).
      rewrite (status_local_key this userId Henabled Huser Hlocal).
      now rewrite Hcap, Hcall; simpl; rewrite Hblob.
    + intros Hlocal Hbackup.
      now apply (status_no_local_key_backup this userId).
    + intros a' Hlocal Hbackup
        (getPublicKey & publicKey & a'' & Hcap & Hcall & Hkey).
      rewrite (status_no_local_key_no_backup this userId a' Henabled Huser
                 Hlocal Hbackup).
      now rewrite Hcap, Hcall; simpl; rewrite Hkey.
Qed.

(** *** Sending *)

Lemma withContent_same (message : SendMessageOptions.t) :
  SendMessageOptions.withContent (SendMessageOptions.content message)
    message = message.
Proof. now destruct message. Qed.

Lemma outgoingContent_not_direct
    (this : ServiceState A K) (userId conversationId : string)
    (message : SendMessageOptions.t) (conversation : Conversation.t)
    (a' : A) :
  MessagingAdapter.getConversation adapter conversationId
    (MessagingService.adapterState this)
    = (Returns (Some conversation), a') ->
  length (MessagingService.otherParticipants userId conversation) <> 1%nat ->
  exists this',
    MessagingService.outgoingContent adapter encryption userId
      conversationId message this
    = (Returns (SendMessageOptions.content message), this')
    /\ MessagingService.e2eEnabled this' = MessagingService.e2eEnabled this
    /\ MessagingService.adapterState this'
       = (if encrypting this then a'
          else MessagingService.adapterState this)
    /\ MessagingService.trace this'
       = MessagingService.trace this
         ++ (if encrypting this then [adapter_getConversation conversationId]
             else []).
Proof.
  intros Hlookup Hcount.
  unfold MessagingService.outgoingContent, encrypting.
  rewrite bind_run. simpl.
  destruct (MessagingService.e2eEnabled this) eqn:Henabled;
    destruct (MessagingService.keyPair this) as [keyPair|] eqn:Hkeys; simpl.
  - unfold MessagingService.getConversation.
    rewrite bind_run, onAdapter_run, Hlookup. simpl.
    apply Nat.eqb_neq in Hcount. rewrite Hcount.
    eexists; split; [reflexivity|]. now simpl.
  - eexists; split; [reflexivity|]. now rewrite Henabled, app_nil_r.
  - eexists; split; [reflexivity|]. now rewrite Henabled, app_nil_r.
  - eexists; split; [reflexivity|]. now rewrite Henabled, app_nil_r.
Qed.

(** C10.  Group conversations bypass encryption: when the conversation
    has a number of participants other than the current user different
    from one, [sendMessage] hands the adapter the message as it received
    it, [content] unchanged, whether or not encryption is enabled and a
    KeyPair loaded, and calls neither the encryption nor the envelope
    codec.  So a body that differs from [message.content] reaches the
    adapter only for a conversation with exactly one other participant. *)
Theorem group_conversation_sent_in_plaintext
    (this : ServiceState A K) (userId conversationId : string)
    (message : SendMessageOptions.t) (conversation : Conversation.t)
    (a' : A) :
  MessagingService.currentUser this = Some userId ->
  MessagingAdapter.getConversation adapter conversationId
    (MessagingService.adapterState this)
    = (Returns (Some conversation), a') ->
  length (MessagingService.otherParticipants userId conversation) <> 1%nat ->
  let result :=
    MessagingService.sendMessage adapter encryption conversationId message
      this in
  let sent :=
    MessagingAdapter.sendMessage adapter conversationId userId message
      (if encrypting this then a'
       else MessagingService.adapterState this) in
  callsMade this (snd result)
    = (if encrypting this then [adapter_getConversation conversationId]
       else [])
      ++ [adapter_sendMessage conversationId userId message]
  /\ existsb isCryptoCall (callsMade this (snd result)) = false
  /\ MessagingService.adapterState (snd result) = snd sent
  /\ fst result =
     match fst sent with
     | Returns m =>
         Returns (Message.withContents (SendMessageOptions.content message)
                    (if MessagingService.e2eEnabled this
                     then Some (SendMessageOptions.content message)
                     else None) m)
     | Throws e => Throws e
     end
  /\ forall handed,
       In (adapter_sendMessage conversationId userId handed)
         (callsMade this (snd result)) ->
       SendMessageOptions.content handed
       = SendMessageOptions.content message.
Proof.
  intros Huser Hlookup Hcount result sent.
  destruct (outgoingContent_not_direct this userId conversationId message
              conversation a' Hlookup Hcount)
    as (this' & Hout & Henabled & Hadapter & Htrace).
  assert (Hcalls : callsMade this (snd result)
    = (if encrypting this then [adapter_getConversation conversationId]
       else [])
      ++ [adapter_sendMessage conversationId userId message]).
  { apply callsMade_app. subst result.
    unfold MessagingService.sendMessage.
    rewrite bind_run. simpl. rewrite Huser.
    rewrite bind_run, Hout. simpl. rewrite withContent_same.
    rewrite bind_run, onAdapter_run. simpl.
    destruct (MessagingAdapter.sendMessage adapter conversationId userId
                message (MessagingService.adapterState this'))
      as [[m|e] a'']; simpl; now rewrite Htrace, app_assoc. }
  split; [exact Hcalls|]. rewrite Hcalls.
  split; [now destruct (encrypting this)|].
  split; [|split].
  - subst result sent. unfold MessagingService.sendMessage.
    rewrite bind_run. simpl. rewrite Huser.
    rewrite bind_run, Hout. simpl. rewrite withContent_same.
    rewrite bind_run, onAdapter_run. simpl. rewrite Hadapter.
    now destruct (MessagingAdapter.sendMessage adapter conversationId userId
                    message _) as [[m|e] a'']. 
  - subst result sent. unfold MessagingService.sendMessage.
    rewrite bind_run. simpl. rewrite Huser.
    rewrite bind_run, Hout. simpl. rewrite withContent_same.
    rewrite bind_run, onAdapter_run. simpl. rewrite Hadapter.
    now destruct (MessagingAdapter.sendMessage adapter conversationId userId
                    message _) as [[m|e] a'']. 
  - intros handed Hin. apply in_app_or in Hin as [Hin|[Heq|[]]].
    + destruct (encrypting this); [|contradiction].
      destruct Hin as [Heq|[]]; discriminate Heq.
    + now inversion Heq.
Qed.

(** The other half: with encryption enabled, a KeyPair loaded, exactly
    one other participant whose public key is found, the body handed on
    is the serialised dual envelope. *)
Lemma direct_message_gets_dual_envelope
    (this this2 : ServiceState A K) (userId conversationId : string)
    (message : SendMessageOptions.t) (conversation : Conversation.t)
    (a' : A) (recipient : User.t) (keys : KeyPair)
    (recipientPublicKey : bytes) (encrypted : EncryptedContent)
    (g' : Rng) :
  MessagingService.e2eEnabled this = true ->
  MessagingService.keyPair this = Some keys ->
  MessagingAdapter.getConversation adapter conversationId
    (MessagingService.adapterState this)
    = (Returns (Some conversation), a') ->
  MessagingService.otherParticipants userId conversation = [recipient] ->
  MessagingService.getPublicKey adapter (User.id recipient)
    (snd (MessagingService.getConversation adapter conversationId this))
    = (Returns (Some recipientPublicKey), this2) ->
  createEncryptedContent encryption (SendMessageOptions.content message)
    (secretKey keys) (publicKey keys) recipientPublicKey
    (User.id recipient) (MessagingService.rng this2)
    = (Returns encrypted, g') ->
  fst (MessagingService.outgoingContent adapter encryption userId
         conversationId message this)
  = Returns (JSON_stringify (contentToJs encrypted)).
Proof.
  intros Henabled Hkeys Hlookup Hothers Hkey Hcreate.
  unfold MessagingService.outgoingContent.
  rewrite bind_run. simpl. rewrite Henabled, Hkeys.
  rewrite bind_run.
  replace (fst (MessagingService.getConversation adapter conversationId
                  this)) with (Returns (Some conversation))
    by (unfold MessagingService.getConversation;
        now rewrite onAdapter_run, Hlookup).
  rewrite Hothers. simpl.
  rewrite bind_run, Hkey. simpl.
  rewrite bind_run, onRng_run. simpl. now rewrite Hcreate.
Qed.

End ServiceProperties.

(** ** The encryption and the envelope codec *)

Lemma slice_front (n : nat) (front back : bytes) :
  length front = n -> slice 0 n (front ++ back) = front.
Proof.
  intros Hlen. unfold slice. rewrite Nat.sub_0_r.
  change (skipn 0 (front ++ back)) with (front ++ back).
  rewrite List.firstn_app, Hlen, Nat.sub_diag.
  change (firstn 0 back) with (@nil Byte.byte).
  rewrite app_nil_r. rewrite <- Hlen. apply List.firstn_all.
Qed.

Lemma sliceFrom_back (n : nat) (front back : bytes) :
  length front = n -> sliceFrom n (front ++ back) = back.
Proof.
  intros Hlen. unfold sliceFrom.
  rewrite List.skipn_app, Hlen, Nat.sub_diag.
  change (skipn 0 back) with back.
  rewrite <- Hlen, List.skipn_all. reflexivity.
Qed.

Lemma slice_middle (m n : nat) (front middle back : bytes) :
  length front = m -> length middle = n ->
  slice m (m + n) (front ++ middle ++ back) = middle.
Proof.
  intros Hfront Hmiddle. unfold slice.
  replace (m + n - m)%nat with n by lia.
  fold (sliceFrom m (front ++ middle ++ back)).
  rewrite (sliceFrom_back m) by exact Hfront.
  apply (slice_front n middle back) in Hmiddle.
  unfold slice in Hmiddle. now rewrite Nat.sub_0_r in Hmiddle.
Qed.

Lemma sliceFrom_two (m n : nat) (front middle back : bytes) :
  length front = m -> length middle = n ->
  sliceFrom (m + n) (front ++ middle ++ back) = back.
Proof.
  intros Hfront Hmiddle. rewrite app_assoc.
  apply sliceFrom_back. rewrite length_app. lia.
Qed.

Lemma getProp_content_s (e : EncryptedContent) :
  getProp (contentToJs e) "s" = Returns (JString (s e)).
Proof. reflexivity. Qed.

Lemma getProp_content_r (e : EncryptedContent) :
  getProp (contentToJs e) "r" = Returns (JString (r e)).
Proof. reflexivity. Qed.

Lemma content_truthy (e : EncryptedContent) : truthy (contentToJs e) = true.
Proof. reflexivity. Qed.

Section EncryptionProperties.
Context `{Laws : PlatformLaws}.

Lemma random_run (n : nat) (g : Rng) :
  TweetNaClEncryption.random n g
  = (Returns (fst (randomBytes n g)), snd (randomBytes n g)).
Proof.
  unfold TweetNaClEncryption.random. now destruct (randomBytes n g).
Qed.

(** The key pairs [generateKeyPair] makes are valid. *)
Lemma generateKeyPair_valid (g : Rng) :
  exists keys g',
    generateKeyPair createE2EEncryption g = (Returns keys, g')
    /\ validKeyPair keys.
Proof.
  exists (fst (box_keyPair g)), (snd (box_keyPair g)). split.
  - simpl. unfold TweetNaClEncryption.generateKeyPair.
    now destruct (box_keyPair g).
  - apply box_keyPair_valid.
Qed.

(** What [encryptMessage] produces, and that the holder of the other
    secret key reads it back. *)
Lemma encryptMessage_decryptMessage
    (sender recipient : KeyPair) (plaintext : string) (utf8 : bytes)
    (g : Rng) :
  validKeyPair sender -> validKeyPair recipient ->
  decodeUTF8 plaintext = Returns utf8 ->
  exists nonce boxed,
    TweetNaClEncryption.encryptMessage plaintext (publicKey recipient)
      (secretKey sender) g
    = (Returns (encodeBase64 (nonce ++ boxed)),
       snd (randomBytes box_nonceLength g))
    /\ length nonce = box_nonceLength
    /\ TweetNaClEncryption.decryptMessage
         (JString (encodeBase64 (nonce ++ boxed)))
         (publicKey sender) (secretKey recipient)
       = Returns (Some plaintext).
Proof.
  intros Hsender Hrecipient Hutf8.
  set (nonce := fst (randomBytes box_nonceLength g)).
  assert (Hnonce : length nonce = box_nonceLength)
    by apply randomBytes_length.
  destruct (box_open_box sender recipient utf8 nonce Hsender Hrecipient
              Hnonce) as (boxed & Hbox & Hopen).
  exists nonce, boxed. split; [|split; [exact Hnonce|]].
  - unfold TweetNaClEncryption.encryptMessage, bind, liftOutcome, ret.
    rewrite random_run. fold nonce. now rewrite Hutf8, Hbox.
  - unfold TweetNaClEncryption.decryptMessage.
    rewrite base64_roundtrip. cbn [obind].
    rewrite (slice_front _ _ _ Hnonce), (sliceFrom_back _ _ _ Hnonce).
    rewrite Hopen. cbn [obind].
    now rewrite (utf8_roundtrip _ _ Hutf8).
Qed.

Lemma encodeBase64_truthy (front back : bytes) :
  length front = box_nonceLength ->
  truthy (JString (encodeBase64 (front ++ back))) = true.
Proof.
  intros Hlen. simpl.
  destruct (String.eqb_spec (encodeBase64 (front ++ back)) "") as [He|];
    [|reflexivity].
  exfalso. revert He. apply base64_nonempty.
  destruct front; [discriminate Hlen | discriminate].
Qed.

(** C2.  Dual-envelope round trip: for a plaintext that has a UTF-8
    encoding and the key pairs of a sender S and a recipient R, the
    content [createEncryptedContent] makes, once serialised as
    [sendMessage] does, is decoded by [decryptMessageContent] to the
    plaintext both by the sender (sender id equal to the current user's,
    S's secret key) and by the recipient (another current user, R's
    secret key). *)
Theorem dual_envelope_round_trip
    (plaintext : string) (utf8 : bytes) (S R : KeyPair)
    (senderId recipient : string) (g : Rng) :
  validKeyPair S -> validKeyPair R ->
  decodeUTF8 plaintext = Returns utf8 ->
  exists encrypted g',
    createEncryptedContent createE2EEncryption plaintext (secretKey S)
      (publicKey S) (publicKey R) recipient g = (Returns encrypted, g')
    /\ decryptMessageContent createE2EEncryption
         (JSON_stringify (contentToJs encrypted)) senderId senderId
         (publicKey S) (secretKey S) = Returns (Some plaintext)
    /\ forall currentUserId,
         currentUserId <> senderId ->
         decryptMessageContent createE2EEncryption
           (JSON_stringify (contentToJs encrypted)) senderId currentUserId
           (publicKey S) (secretKey R) = Returns (Some plaintext).
Proof.
  intros HS HR Hutf8.
  destruct (encryptMessage_decryptMessage S R plaintext utf8 g HS HR Hutf8)
    as (nonceR & boxedR & HencR & HlenR & HdecR).
  destruct (encryptMessage_decryptMessage S S plaintext utf8
              (snd (randomBytes box_nonceLength g)) HS HS Hutf8)
    as (nonceS & boxedS & HencS & HlenS & HdecS).
  do 2 eexists. split.
  - unfold createEncryptedContent, bind, ret. simpl.
    rewrite HencR, HencS. reflexivity.
  - assert (Hparse : forall e,
      e = {| s := encodeBase64 (nonceS ++ boxedS);
             r := encodeBase64 (nonceR ++ boxedR);
             recipientId := recipient |} ->
      parseEncryptedContent (JSON_stringify (contentToJs e))
      = Some (contentToJs e)).
    { intros e ->. unfold parseEncryptedContent.
      rewrite JSON_roundtrip, !getProp_content_s, !getProp_content_r.
      cbn [s r].
      now rewrite (encodeBase64_truthy _ _ HlenS),
        (encodeBase64_truthy _ _ HlenR). }
    unfold decryptMessageContent. rewrite (Hparse _ eq_refl).
    rewrite content_truthy, getProp_content_s, getProp_content_r.
    cbn [s r]. split.
    + rewrite String.eqb_refl. exact HdecS.
    + intros currentUserId Hother.
      destruct (String.eqb_spec senderId currentUserId) as [->|_];
        [now contradiction Hother|].
      exact HdecR.
Qed.

(** The backup made under a PIN opens under the same PIN, whatever the
    key bytes and the PIN are: the salt and the nonce drawn while
    encrypting are read back from the blob, and the derived key is a
    function of PIN and salt. *)
Lemma encryptPrivateKeyWithPin_decryptPrivateKeyWithPin
    (key : bytes) (pin : string) (g : Rng) :
  exists blob g',
    TweetNaClEncryption.encryptPrivateKeyWithPin key pin g
      = (Returns blob, g')
    /\ TweetNaClEncryption.decryptPrivateKeyWithPin blob pin
       = Returns (Some key).
Proof.
  set (salt := fst (randomBytes 16 g)).
  set (g1 := snd (randomBytes 16 g)).
  set (nonce := fst (randomBytes secretbox_nonceLength g1)).
  set (derivedKey := TweetNaClEncryption.deriveKeyFromPin pin salt).
  assert (Hsalt : length salt = 16%nat) by apply randomBytes_length.
  assert (Hnonce : length nonce = secretbox_nonceLength)
    by apply randomBytes_length.
  assert (Hkey : length derivedKey = 32%nat) by apply pbkdf2_length.
  destruct (secretbox_open_secretbox key nonce derivedKey Hnonce Hkey)
    as (sealed & Hseal & Hopen).
  exists (encodeBase64 (salt ++ nonce ++ sealed)),
    (snd (randomBytes secretbox_nonceLength g1)).
  split.
  - unfold TweetNaClEncryption.encryptPrivateKeyWithPin, bind, liftOutcome,
      ret.
    rewrite random_run. fold salt g1. rewrite random_run. fold nonce.
    fold derivedKey. now rewrite Hseal.
  - unfold TweetNaClEncryption.decryptPrivateKeyWithPin.
    rewrite base64_roundtrip. cbn [obind].
    rewrite (slice_front _ _ _ Hsalt).
    rewrite (slice_middle _ _ _ _ _ Hsalt Hnonce).
    rewrite (sliceFrom_two _ _ _ _ _ Hsalt Hnonce).
    fold derivedKey. now rewrite Hopen.
Qed.

(** C3.  PIN backup round trip: for a 32-byte secret key and a six-digit
    PIN, [encryptPrivateKeyWithPin] returns a blob, whatever the random
    source gives for salt and nonce, and [decryptPrivateKeyWithPin] of
    that blob under the same PIN returns the secret key. *)
Theorem pin_backup_round_trip (key : bytes) (pin : string) (g : Rng) :
  length key = 32%nat ->
  exactlySixDigits pin = true ->
  exists blob g',
    encryptPrivateKeyWithPin createE2EEncryption key pin g
      = (Returns blob, g')
    /\ decryptPrivateKeyWithPin createE2EEncryption blob pin
       = Returns (Some key).
Proof.
  intros _ _. apply encryptPrivateKeyWithPin_decryptPrivateKeyWithPin.
Qed.

(** A string of base-64 characters does not parse as a dual envelope:
    [JSON.parse] throws on it, or returns a value that is not an object
    and so has neither [s] nor [r]. *)
Lemma parseEncryptedContent_base64 (b : bytes) :
  parseEncryptedContent (encodeBase64 b) = None.
Proof.
  unfold parseEncryptedContent.
  destruct (JSON_parse (encodeBase64 b)) as [parsed|] eqn:Hparse;
    [|reflexivity].
  destruct parsed; try reflexivity.
  apply JSON_object_brace in Hparse.
  pose proof (base64_alphabet b) as Halphabet.
  rewrite forallb_forall in Halphabet.
  apply Halphabet in Hparse. discriminate Hparse.
Qed.

(** C4.  Legacy fallback: whatever the encryption, a content that
    [parseEncryptedContent] answers null for is decrypted as it stands,
    as one envelope, against [senderPublicKey] and
    [currentUserSecretKey]; and what the single-envelope [encryptMessage]
    of a sender makes for a recipient is such a content, which
    [decryptMessageContent] decodes to the plaintext with the sender's
    public key and the recipient's secret key. *)
Theorem legacy_envelope_fallback :
  (forall (encryption : E2EEncryption)
          (content senderId currentUserId : string)
          (senderPublicKey currentUserSecretKey : bytes),
     parseEncryptedContent content = None ->
     decryptMessageContent encryption content senderId currentUserId
       senderPublicKey currentUserSecretKey
     = decryptMessage encryption (JString content) senderPublicKey
         currentUserSecretKey)
  /\ (forall (plaintext : string) (utf8 : bytes) (S R : KeyPair)
             (senderId currentUserId : string) (g : Rng),
        validKeyPair S -> validKeyPair R ->
        decodeUTF8 plaintext = Returns utf8 ->
        exists content g',
          encryptMessage createE2EEncryption plaintext (publicKey R)
            (secretKey S) g = (Returns content, g')
          /\ parseEncryptedContent content = None
          /\ decryptMessageContent createE2EEncryption content senderId
               currentUserId (publicKey S) (secretKey R)
             = Returns (Some plaintext)).
Proof.
  split.
  - intros encryption content senderId currentUserId senderPublicKey
      currentUserSecretKey Hparse.
    unfold decryptMessageContent. now rewrite Hparse.
  - intros plaintext utf8 S R senderId currentUserId g HS HR Hutf8.
    destruct (encryptMessage_decryptMessage S R plaintext utf8 g HS HR
                Hutf8) as (nonce & boxed & Henc & Hlen & Hdec).
    do 2 eexists. split; [exact Henc|].
    split; [apply parseEncryptedContent_base64|].
    unfold decryptMessageContent.
    rewrite parseEncryptedContent_base64. exact Hdec.
Qed.

End EncryptionProperties.

(** ** The reference model meets the contracts of the platform *)
Module ModelLaws.
Import Model.

Lemma validKeyPair_inv (kp : KeyPair) :
  @validKeyPair platform kp ->
  length (secretKey kp) = 32%nat /\ publicKey kp = publicOf (secretKey kp).
Proof.
  unfold validKeyPair. simpl. unfold box_keyPair_fromSecretKey.
  destruct (Nat.eqb_spec (length (secretKey kp)) 32) as [Hlen|];
    [|discriminate].
  intros Heq. injection Heq as <-. now split.
Qed.

Lemma length_box_before (pk sk : bytes) : length (box_before pk sk) = 32%nat.
Proof. apply repeat_length. Qed.

Lemma previous_next (x : Byte.byte) : previous (next x) = x.
Proof. destruct x; reflexivity. Qed.

Lemma previous_publicOf (sk : bytes) : map previous (publicOf sk) = sk.
Proof.
  unfold publicOf. induction sk as [|x sk IH]; [reflexivity|].
  cbn [map]. now rewrite previous_next, IH.
Qed.

Lemma box_before_sym (a b : bytes) :
  box_before (publicOf b) a = box_before (publicOf a) b.
Proof.
  unfold box_before. rewrite !previous_publicOf.
  now rewrite Nat.add_comm.
Qed.

Lemma secretbox_sealed (msg nonce key : bytes) :
  length nonce = 24%nat -> length key = 32%nat ->
  secretbox msg nonce key = Returns (tag nonce key ++ msg)
  /\ secretbox_open (tag nonce key ++ msg) nonce key = Returns (Some msg).
Proof.
  intros Hnonce Hkey. unfold secretbox, secretbox_open.
  rewrite Hnonce, Hkey. simpl. split; [reflexivity|].
  now rewrite bool_decide_eq_true_2.
Qed.

Lemma charSextet_sextetChar (n : nat) :
  (n < 64)%nat -> charSextet (sextetChar n) = Some n.
Proof. intros Hn. do 64 (destruct n as [|n]; [reflexivity|]). lia. Qed.

Lemma sextetChar_not_pad (n : nat) :
  (n < 64)%nat -> Ascii.eqb (sextetChar n) pad = false.
Proof. intros Hn. do 64 (destruct n as [|n]; [reflexivity|]). lia. Qed.

Lemma isBase64Char_sextetChar (n : nat) : isBase64Char (sextetChar n) = true.
Proof. do 64 (destruct n as [|n]; [reflexivity|]). reflexivity. Qed.

Lemma byteOf_to_nat (x : Byte.byte) : byteOf (Byte.to_nat x) = x.
Proof. destruct x; reflexivity. Qed.

Lemma to_nat_bound (x : Byte.byte) : (Byte.to_nat x < 256)%nat.
Proof. destruct x; vm_compute; lia. Qed.

(** Induction over a list three elements at a time, as the encoder
    reads it. *)
Lemma list_ind3 {X} (P : list X -> Prop) :
  P [] -> (forall x, P [x]) -> (forall x y, P [x; y]) ->
  (forall x y z rest, P rest -> P (x :: y :: z :: rest)) ->
  forall l, P l.
Proof.
  intros H0 H1 H2 H3.
  fix IH 1. intros [|x [|y [|z rest]]].
  - exact H0.
  - apply H1.
  - apply H2.
  - apply H3, IH.
Qed.

Ltac sextets :=
  repeat first
    [ rewrite charSextet_sextetChar by lia
    | rewrite sextetChar_not_pad by lia ].

Lemma decodeQuads_encodeBase64 (b : bytes) :
  decodeQuads (encodeBase64 b) = Returns b.
Proof.
  induction b as [|x|x y|x y z rest IH] using list_ind3.
  - reflexivity.
  - pose proof (to_nat_bound x).
    cbn [encodeBase64 decodeQuads]. sextets.
    rewrite Ascii.eqb_refl. cbn [andb String.eqb].
    replace (Byte.to_nat x / 4 * 4 + Byte.to_nat x mod 4 * 16 / 16)%nat
      with (Byte.to_nat x) by lia.
    now rewrite byteOf_to_nat.
  - pose proof (to_nat_bound x). pose proof (to_nat_bound y).
    cbn [encodeBase64 decodeQuads]. sextets.
    rewrite Ascii.eqb_refl. cbn [String.eqb].
    replace (Byte.to_nat x / 4 * 4
             + (Byte.to_nat x mod 4 * 16 + Byte.to_nat y / 16) / 16)%nat
      with (Byte.to_nat x) by lia.
    replace ((Byte.to_nat x mod 4 * 16 + Byte.to_nat y / 16) mod 16 * 16
             + Byte.to_nat y mod 16 * 4 / 4)%nat
      with (Byte.to_nat y) by lia.
    now rewrite !byteOf_to_nat.
  - pose proof (to_nat_bound x). pose proof (to_nat_bound y).
    pose proof (to_nat_bound z).
    cbn [encodeBase64 decodeQuads]. sextets. rewrite IH. cbn [obind].
    replace (Byte.to_nat x / 4 * 4
             + (Byte.to_nat x mod 4 * 16 + Byte.to_nat y / 16) / 16)%nat
      with (Byte.to_nat x) by lia.
    replace ((Byte.to_nat x mod 4 * 16 + Byte.to_nat y / 16) mod 16 * 16
             + (Byte.to_nat y mod 16 * 4 + Byte.to_nat z / 64) / 4)%nat
      with (Byte.to_nat y) by lia.
    replace ((Byte.to_nat y mod 16 * 4 + Byte.to_nat z / 64) mod 4 * 64
             + Byte.to_nat z mod 64)%nat
      with (Byte.to_nat z) by lia.
    now rewrite !byteOf_to_nat.
Qed.

Lemma encodeBase64_alphabet (b : bytes) :
  forallb isBase64Char (list_ascii_of_string (encodeBase64 b)) = true.
Proof.
  induction b as [|x|x y|x y z rest IH] using list_ind3;
    cbn [encodeBase64 list_ascii_of_string forallb];
    rewrite ?isBase64Char_sextetChar, ?IH; reflexivity.
Qed.

Lemma append_String (c : ascii) (front back : string) :
  (String c front ++ back)%string = String c (front ++ back)%string.
Proof. reflexivity. Qed.

Lemma unquote_escape (v rest : string) :
  unquote (escape v ++ String dquote rest) = Some (v, rest).
Proof.
  induction v as [|c v IH]; [reflexivity|].
  cbn [escape]. destruct (special c) eqn:Hc.
  - rewrite !append_String. cbn [unquote].
    change (Ascii.eqb backslash dquote) with false.
    change (Ascii.eqb backslash backslash) with true.
    cbv iota. now rewrite Hc, IH.
  - unfold special in Hc. apply orb_false_iff in Hc as [Hq Hb].
    rewrite append_String. cbn [unquote]. now rewrite Hq, Hb, IH.
Qed.

Lemma parseMember_member (key value rest : string) :
  parseMember (member key (JString value) rest)
  = Some (key, JString value, rest).
Proof.
  unfold parseMember, member, literal, expect.
  rewrite Ascii.eqb_refl, unquote_escape.
  simpl Ascii.eqb. cbv iota. rewrite Ascii.eqb_refl.
  now rewrite unquote_escape.
Qed.

Lemma length_append_String (front back : string) (c : ascii) :
  String.length (front ++ String c back)
  = S (String.length (front ++ back)).
Proof.
  induction front as [|x front IH]; [reflexivity|].
  rewrite !append_String. cbn [String.length]. now rewrite IH.
Qed.

Lemma parseMembers_content (fuel : nat) (a b c : string) :
  parseMembers (S (S (S fuel)))
    (member "s" (JString a)
       (String "," (member "r" (JString b)
          (String "," (member "recipientId" (JString c) "}")))))
  = Some [("s", JString a); ("r", JString b);
          ("recipientId", JString c)].
Proof.
  cbn [parseMembers]. rewrite !parseMember_member.
  change (Ascii.eqb "," ",") with true.
  change (Ascii.eqb "}" ",") with false.
  change (Ascii.eqb "}" "}") with true.
  reflexivity.
Qed.

Lemma JSON_parse_stringify_content (e : EncryptedContent) :
  JSON_parse (JSON_stringify (contentToJs e)) = Some (contentToJs e).
Proof.
  destruct e as [a b c]. unfold contentToJs, JSON_stringify, JSON_parse.
  cbn [s r recipientId members expect].
  change (String.eqb (String "{" ?x) "null") with false.
  rewrite Ascii.eqb_refl.
  replace (String.eqb (member "s" (JString a) _) "}") with false
    by reflexivity.
  cbv iota.
  match goal with
  | |- context [parseMembers ?n _] =>
      assert (Hfuel : exists fuel, n = S (S (S fuel)))
  end.
  { unfold member at 1, literal at 1. cbn [String.length].
    rewrite length_append_String. eauto. }
  destruct Hfuel as [fuel ->]. now rewrite parseMembers_content.
Qed.

Lemma JSON_parse_object_brace (str : string)
    (fields : list (string * JsValue)) :
  JSON_parse str = Some (JObject fields) ->
  In "{"%char (list_ascii_of_string str).
Proof.
  unfold JSON_parse. destruct (String.eqb str "null"); [discriminate|].
  destruct str as [|c rest]; [discriminate|]. cbn [expect].
  destruct (Ascii.eqb_spec c "{") as [->|]; [|discriminate].
  intros _. now left.
Qed.

#[export] Instance laws : PlatformLaws platform.
Proof.
  split.
  - intros n g. simpl. unfold randomBytes. simpl.
    now rewrite length_map, length_seq.
  - intros g. reflexivity.
  - intros A B msg nonce HA HB Hnonce.
    apply validKeyPair_inv in HA as [HlenA ->].
    apply validKeyPair_inv in HB as [HlenB ->].
    exists (tag nonce (box_before (publicOf (secretKey B)) (secretKey A))
            ++ msg).
    simpl. unfold box, box_open.
    assert (Hpublic : forall sk : bytes, length (publicOf sk) = length sk)
      by (intros sk; apply length_map).
    rewrite !Hpublic, HlenA, HlenB. simpl.
    rewrite (box_before_sym (secretKey B) (secretKey A)).
    apply secretbox_sealed; [exact Hnonce | apply length_box_before].
  - intros msg nonce key Hnonce Hkey.
    exists (tag nonce key ++ msg). now apply secretbox_sealed.
  - intros password salt iterations. apply repeat_length.
  - intros str b Hdecode. injection Hdecode as <-. simpl.
    unfold encodeUTF8. now rewrite string_of_list_byte_of_string.
  - intros b. apply decodeQuads_encodeBase64.
  - intros b. apply encodeBase64_alphabet.
  - intros [|x [|y [|z b]]] Hne; [now contradiction Hne | discriminate..].
  - apply JSON_parse_stringify_content.
  - apply JSON_parse_object_brace.
Qed.

End ModelLaws.

(** ** The properties on concrete inputs *)
Module Examples.
Import Fixtures.
#[local] Existing Instance Model.platform.
#[local] Existing Instance ModelLaws.laws.

(** C1 as stated fails: Alice holds a local KeyPair, the adapter has no
    [getKeyBackup], and the status is [ready], not [needs_pin_setup]. *)
Lemma no_backup_capability_status_is_ready :
  MessagingService.currentUser aliceLocalOnly = Some alice
  /\ localKeyPresent memoryStorage alice
       (MessagingService.keyStorageState aliceLocalOnly)
  /\ MessagingAdapter.getKeyBackup withoutBackup = None
  /\ resolveStatus withoutBackup memoryStorage aliceLocalOnly
     = Returns ready
  /\ resolveStatus withoutBackup memoryStorage aliceLocalOnly
     <> Returns needs_pin_setup.
Proof.
  split; [reflexivity|]. split; [do 2 eexists; reflexivity|].
  split; [reflexivity|]. split; [reflexivity|]. discriminate.
Qed.

Lemma local_key_without_backup_capability_witness :
  resolveStatus withoutBackup memoryStorage aliceLocalOnly = Returns ready.
Proof.
  apply (local_key_without_backup_capability withoutBackup memoryStorage
           aliceLocalOnly alice).
  - reflexivity.
  - do 2 eexists; reflexivity.
  - reflexivity.
Defined.

Lemma dual_envelope_round_trip_witness :
  exists encrypted g',
    createEncryptedContent tweetnacl "hello" (secretKey aliceKeys)
      (publicKey aliceKeys) (publicKey bobKeys) bob (seed 5)
    = (Returns encrypted, g')
    /\ decryptMessageContent tweetnacl
         (JSON_stringify (contentToJs encrypted)) alice alice
         (publicKey aliceKeys) (secretKey aliceKeys)
       = Returns (Some "hello")
    /\ decryptMessageContent tweetnacl
         (JSON_stringify (contentToJs encrypted)) alice bob
         (publicKey aliceKeys) (secretKey bobKeys)
       = Returns (Some "hello").
Proof.
  destruct (dual_envelope_round_trip "hello" (list_byte_of_string "hello")
              aliceKeys bobKeys alice bob (seed 5))
    as (encrypted & g' & Hcreate & Hsender & Hrecipient);
    [reflexivity | reflexivity | reflexivity |].
  exists encrypted, g'. split; [exact Hcreate|]. split; [exact Hsender|].
  apply Hrecipient. discriminate.
Defined.

Lemma pin_backup_round_trip_witness :
  exists blob g',
    encryptPrivateKeyWithPin tweetnacl (secretKey aliceKeys) "123456"
      (seed 3) = (Returns blob, g')
    /\ decryptPrivateKeyWithPin tweetnacl blob "123456"
       = Returns (Some (secretKey aliceKeys)).
Proof.
  apply pin_backup_round_trip; reflexivity.
Defined.

Lemma legacy_envelope_fallback_witness :
  exists content g',
    encryptMessage tweetnacl "hello" (publicKey bobKeys)
      (secretKey aliceKeys) (seed 5) = (Returns content, g')
    /\ parseEncryptedContent content = None
    /\ decryptMessageContent tweetnacl content alice bob
         (publicKey aliceKeys) (secretKey bobKeys)
       = Returns (Some "hello").
Proof.
  apply (proj2 legacy_envelope_fallback "hello"
           (list_byte_of_string "hello")); reflexivity.
Defined.

(** C5 as stated fails where encryption is disabled: with no active user
    the status is [ready], not [error]. *)
Lemma status_without_user_is_ready_when_disabled :
  MessagingService.currentUser nobodyDisabled = None
  /\ resolveStatus memoryAdapter memoryStorage nobodyDisabled
     = Returns ready
  /\ resolveStatus memoryAdapter memoryStorage nobodyDisabled
     <> Returns error.
Proof. split; [reflexivity|]. split; [reflexivity | discriminate]. Qed.

Lemma status_follows_state_table_witness :
  resolveStatus memoryAdapter memoryStorage aliceNewDevice
  = Returns has_backup.
Proof.
  destruct (status_follows_state_table memoryAdapter memoryStorage
              aliceNewDevice eq_refl) as [_ Htable].
  apply (Htable alice eq_refl).
  - eexists; reflexivity.
  - do 3 eexists. split; [reflexivity|]. split; reflexivity.
Defined.

Lemma rate_limited_restore_witness :
  exists this',
    MessagingService.restoreEncryption rateLimiting memoryStorage tweetnacl
      "123456" aliceNewDevice = (Throws RateLimited, this')
    /\ callsMade aliceNewDevice this' = [adapter_getKeyBackup alice].
Proof.
  destruct (rate_limited_restore rateLimiting memoryStorage tweetnacl
              aliceNewDevice alice "123456" rateLimitedGetKeyBackup
              (KeyBackup.mk (Some aliceBackup) true) aliceDirectory)
    as (this' & Hthrows & Hcalls & _);
    [reflexivity | reflexivity | reflexivity | reflexivity | reflexivity |].
  exists this'. now split.
Defined.

(** C7 as stated fails for an adapter that has [getKeyBackup] and no
    [recordPinAttempt]: the wrong PIN 000000 is refused and nothing is
    reported. *)
Lemma incorrect_pin_unreported_without_capability :
  let result :=
    MessagingService.restoreEncryption withoutAttemptLog memoryStorage
      tweetnacl "000000" aliceNewDevice in
  MessagingService.currentUser aliceNewDevice = Some alice
  /\ MemoryMessagingAdapter.getKeyBackup alice
       (MessagingService.adapterState aliceNewDevice)
     = (Returns (KeyBackup.mk (Some aliceBackup) false), aliceDirectory)
  /\ whenTruthy (Some aliceBackup) = Some aliceBackup
  /\ decryptPrivateKeyWithPin tweetnacl aliceBackup "000000" = Returns None
  /\ fst result = Throws IncorrectPin
  /\ ~ In (adapter_recordPinAttempt alice false)
         (callsMade aliceNewDevice (snd result)).
Proof.
  split; [reflexivity|]. split; [reflexivity|]. split; [reflexivity|].
  split; [reflexivity|]. split; [reflexivity|].
  vm_compute. intuition discriminate.
Qed.

Lemma incorrect_pin_reported_when_supported_witness :
  exists this',
    MessagingService.restoreEncryption memoryAdapter memoryStorage
      tweetnacl "000000" aliceNewDevice = (Throws IncorrectPin, this')
    /\ callsMade aliceNewDevice this' =
         [adapter_getKeyBackup alice;
          encryption_decryptPrivateKeyWithPin aliceBackup "000000";
          adapter_recordPinAttempt alice false]
    /\ MessagingService.keyPair this' = None.
Proof.
  destruct (incorrect_pin_reported_when_supported memoryAdapter
              memoryStorage tweetnacl aliceNewDevice alice "000000"
              aliceBackup MemoryMessagingAdapter.getKeyBackup
              (KeyBackup.mk (Some aliceBackup) false) aliceDirectory)
    as (outcome & this' & Hthrows & Hkeys & _ & _ & Hcalls & _ & Houtcome);
    [reflexivity | reflexivity | reflexivity | reflexivity | reflexivity
    | reflexivity | reflexivity |].
  exists this'. rewrite Hthrows, Houtcome. now repeat split.
Defined.

Lemma malformed_pin_rejected_first_witness :
  MessagingService.setupEncryption memoryAdapter memoryStorage tweetnacl
    "12345" aliceNewDevice = (Throws ValidationError, aliceNewDevice)
  /\ MessagingService.restoreEncryption memoryAdapter memoryStorage
       tweetnacl "12345" aliceNewDevice
     = (Throws ValidationError, aliceNewDevice).
Proof.
  destruct (malformed_pin_rejected_first memoryAdapter memoryStorage
              tweetnacl aliceNewDevice alice "12345" eq_refl eq_refl)
    as (Hsetup & Hrestore & _).
  now split.
Defined.

Lemma setCurrentUser_clears_key_material_witness :
  exists this',
    MessagingService.setCurrentUser bob aliceSignedIn = (Returns tt, this')
    /\ MessagingService.keyPair this' = None
    /\ MessagingService.publicKeyCache this' = ∅.
Proof.
  destruct (setCurrentUser_clears_key_material memoryAdapter tweetnacl
              aliceSignedIn bob aliceKeys)
    as (this' & Hset & _ & Hkeys & Hcache & _);
    [reflexivity | apply insert_non_empty | discriminate |].
  exists this'. now repeat split.
Defined.

Lemma group_conversation_sent_in_plaintext_witness :
  callsMade aliceInTeam
    (snd (MessagingService.sendMessage memoryAdapter tweetnacl "1" hello
            aliceInTeam))
  = [adapter_getConversation "1"; adapter_sendMessage "1" alice hello].
Proof.
  apply (group_conversation_sent_in_plaintext memoryAdapter tweetnacl
           aliceInTeam alice "1" hello team
           (MessagingService.adapterState aliceInTeam)).
  - reflexivity.
  - reflexivity.
  - vm_compute. discriminate.
Defined.

End Examples.

(** * Further properties of the code *)

(** ** Relations a computation keeps *)

Section Respects.
Context {S : Type} (R : S -> S -> Prop).
Context (R_refl : forall st, R st st).
Context (R_trans : forall a b c, R a b -> R b c -> R a c).

Lemma respects_ret {X} (x : X) : respects R (ret x).
Proof. intros st. apply R_refl. Qed.

Lemma respects_throw {X} (e : string) : respects R (@throw S X e).
Proof. intros st. apply R_refl. Qed.

Lemma respects_liftOutcome {X} (o : Outcome X) : respects R (liftOutcome o).
Proof. intros st. apply R_refl. Qed.

Lemma respects_get : respects R get.
Proof. intros st. apply R_refl. Qed.

Lemma respects_bind {X Y} (m : M S X) (k : X -> M S Y) :
  respects R m -> (forall x, respects R (k x)) -> respects R (bind m k).
Proof.
  intros Hm Hk st. unfold bind.
  specialize (Hm st). destruct (m st) as [[x|e] st']; simpl in *.
  - eapply R_trans; [exact Hm | apply Hk].
  - exact Hm.
Qed.

Lemma respects_tryCatch {X} (m h : M S X) :
  respects R m -> respects R h -> respects R (tryCatch m h).
Proof.
  intros Hm Hh st. unfold tryCatch.
  specialize (Hm st). destruct (m st) as [[x|e] st']; simpl in *.
  - exact Hm.
  - eapply R_trans; [exact Hm | apply Hh].
Qed.

End Respects.

Section SessionProperties.
Context `{Platform} {A K : Type}.
Variable adapter : MessagingAdapter.t A.
Variable keyStorage : KeyStorage.t K.
Variable encryption : E2EEncryption.

Lemma callsOnly_refl (allowed : Call -> bool) (this : ServiceState A K) :
  callsOnly allowed this this.
Proof. exists []. now rewrite app_nil_r. Qed.

Lemma callsOnly_trans (allowed : Call -> bool) (a b c : ServiceState A K) :
  callsOnly allowed a b -> callsOnly allowed b c -> callsOnly allowed a c.
Proof.
  intros (l1 & H1 & Hl1) (l2 & H2 & Hl2). exists (l1 ++ l2).
  rewrite H2, H1, <- app_assoc. split; [reflexivity|].
  now rewrite forallb_app, Hl1, Hl2.
Qed.

Lemma callsOnly_callsMade (allowed : Call -> bool)
    (before after : ServiceState A K) :
  callsOnly allowed before after ->
  forallb allowed (callsMade before after) = true.
Proof.
  intros (l & Htrace & Hl). now rewrite (callsMade_app _ _ _ Htrace).
Qed.

Lemma sameSession_refl (this : ServiceState A K) : sameSession this this.
Proof. now repeat split. Qed.

Lemma sameSession_trans (a b c : ServiceState A K) :
  sameSession a b -> sameSession b c -> sameSession a c.
Proof.
  intros (H1 & H2 & H3 & H4) (H5 & H6 & H7 & H8).
  repeat split; congruence.
Qed.

Lemma readOnly_refl (this : ServiceState A K) : readOnly this this.
Proof.
  split; [apply sameSession_refl|]. split; [reflexivity|].
  apply callsOnly_refl.
Qed.

Lemma readOnly_trans (a b c : ServiceState A K) :
  readOnly a b -> readOnly b c -> readOnly a c.
Proof.
  intros (H1 & H2 & H3) (H4 & H5 & H6). split; [|split].
  - eapply sameSession_trans; eassumption.
  - congruence.
  - eapply callsOnly_trans; eassumption.
Qed.

Lemma onAdapter_readOnly {X} (c : Call) (m : M A X) :
  isLookupCall c = true ->
  respects (readOnly (A:=A) (K:=K)) (MessagingService.onAdapter c m).
Proof.
  intros Hc this. rewrite onAdapter_run. simpl.
  split; [now repeat split|]. split; [reflexivity|].
  exists [c]. simpl. now rewrite Hc.
Qed.

Lemma onKeyStorage_readOnly {X} (c : Call) (m : M K X) :
  isLookupCall c = true ->
  respects (readOnly (A:=A) (K:=K)) (MessagingService.onKeyStorage c m).
Proof.
  intros Hc this. rewrite onKeyStorage_run. simpl.
  split; [now repeat split|]. split; [reflexivity|].
  exists [c]. simpl. now rewrite Hc.
Qed.

Ltac respects_step R_refl R_trans :=
  first
    [ apply (respects_ret _ R_refl)
    | apply (respects_throw _ R_refl)
    | apply (respects_get _ R_refl)
    | apply (respects_liftOutcome _ R_refl)
    | apply (respects_bind _ R_trans); [|intros ?]
    | apply (respects_tryCatch _ R_trans)
    | match goal with
      | |- respects _ (match ?x with _ => _ end) => destruct x
      | |- respects _ (if ?b then _ else _) => destruct b
      end ].

(** X1.  [getEncryptionStatus] is read-only: whatever it returns or
    throws, it leaves [e2eEnabled], the current user, the in-memory
    KeyPair, the public-key cache and the random source as they were, and
    the only calls it makes are [loadKeyPair], [getKeyBackup] and
    [getPublicKey]. *)
Theorem getEncryptionStatus_read_only (this : ServiceState A K) :
  let this' :=
    snd (MessagingService.getEncryptionStatus adapter keyStorage this) in
  sameSession this this'
  /\ MessagingService.rng this' = MessagingService.rng this
  /\ forallb isLookupCall (callsMade this this') = true.
Proof.
  assert (Hkeeps : respects (readOnly (A:=A) (K:=K))
            (MessagingService.getEncryptionStatus adapter keyStorage)).
  { unfold MessagingService.getEncryptionStatus.
    repeat first
      [ apply onAdapter_readOnly; reflexivity
      | apply onKeyStorage_readOnly; reflexivity
      | respects_step readOnly_refl readOnly_trans ]. }
  destruct (Hkeeps this) as (Hsession & Hrng & Hcalls).
  split; [exact Hsession|]. split; [exact Hrng|].
  now apply callsOnly_callsMade.
Qed.

(** *** The public-key cache *)

Lemma getPublicKey_cached (this : ServiceState A K) (userId : string)
    (cached : bytes) :
  MessagingService.publicKeyCache this !! userId = Some cached ->
  MessagingService.getPublicKey adapter userId this
  = (Returns (Some cached), this).
Proof.
  intros Hcached. unfold MessagingService.getPublicKey.
  rewrite bind_run. simpl. now rewrite Hcached.
Qed.

(** What a lookup that misses the cache does, by what the adapter
    answers. *)
Lemma getPublicKey_missed (this : ServiceState A K) (userId : string) :
  MessagingService.publicKeyCache this !! userId = None ->
  MessagingService.getPublicKey adapter userId this =
  match MessagingAdapter.getPublicKey adapter with
  | None => (Returns None, this)
  | Some adapterGetPublicKey =>
      let asked :=
        MessagingService.onAdapter (adapter_getPublicKey userId)
          (adapterGetPublicKey userId) this in
      match fst asked with
      | Throws e => (Throws e, snd asked)
      | Returns publicKey =>
          match whenTruthy publicKey with
          | None => (Returns None, snd asked)
          | Some publicKey =>
              match base64ToBytes publicKey with
              | Throws e => (Throws e, snd asked)
              | Returns b =>
                  (Returns (Some b),
                   MessagingService.mkState
                     (MessagingService.e2eEnabled (snd asked))
                     (MessagingService.currentUserId (snd asked))
                     (MessagingService.keyPair (snd asked))
                     (<[userId := b]>
                        (MessagingService.publicKeyCache (snd asked)))
                     (MessagingService.adapterState (snd asked))
                     (MessagingService.keyStorageState (snd asked))
                     (MessagingService.rng (snd asked))
                     (MessagingService.trace (snd asked)))
              end
          end
      end
  end.
Proof.
  intros Hmiss. unfold MessagingService.getPublicKey.
  rewrite bind_run. simpl. rewrite Hmiss.
  destruct (MessagingAdapter.getPublicKey adapter) as [f|]; [|reflexivity].
  rewrite bind_run. cbv zeta.
  destruct (fst (MessagingService.onAdapter (adapter_getPublicKey userId)
                   (f userId) this)) as [publicKey|e]; [|reflexivity].
  destruct (whenTruthy publicKey) as [pk|]; [|reflexivity].
  rewrite bind_run. unfold liftOutcome at 1. simpl.
  now destruct (base64ToBytes pk).
Qed.

(** X2.  A public key that [getPublicKey] found stays found: once a
    lookup has returned a key, from the cache or from the adapter, the
    same lookup again returns the same key, asks the adapter nothing and
    changes nothing. *)
Theorem getPublicKey_caches_what_it_finds
    (this this' : ServiceState A K) (userId : string) (found : bytes) :
  MessagingService.getPublicKey adapter userId this
    = (Returns (Some found), this') ->
  MessagingService.getPublicKey adapter userId this'
    = (Returns (Some found), this').
Proof.
  destruct (MessagingService.publicKeyCache this !! userId) as [cached|]
    eqn:Hcache.
  - rewrite (getPublicKey_cached _ _ _ Hcache). intros [= <- <-].
    now apply getPublicKey_cached.
  - rewrite (getPublicKey_missed _ _ Hcache).
    destruct (MessagingAdapter.getPublicKey adapter) as [f|]; [|discriminate].
    cbv zeta.
    destruct (fst (MessagingService.onAdapter _ _ this)) as [publicKey|e];
      [|discriminate].
    destruct (whenTruthy publicKey) as [pk|]; [|discriminate].
    destruct (base64ToBytes pk) as [b|e]; [|discriminate].
    intros [= <- <-]. apply getPublicKey_cached. simpl.
    apply lookup_insert_eq.
Qed.

(** X3.  Absence is not cached: when [getPublicKey] returns null the
    cache is as it was, without an entry for the user, and the next lookup
    for the same user asks the adapter (if it has [getPublicKey])
    again. *)
Theorem getPublicKey_does_not_cache_absence
    (this this' : ServiceState A K) (userId : string) :
  MessagingService.getPublicKey adapter userId this = (Returns None, this') ->
  MessagingService.publicKeyCache this' = MessagingService.publicKeyCache this
  /\ MessagingService.publicKeyCache this' !! userId = None
  /\ (MessagingAdapter.getPublicKey adapter <> None ->
      callsMade this'
        (snd (MessagingService.getPublicKey adapter userId this'))
      = [adapter_getPublicKey userId]).
Proof.
  destruct (MessagingService.publicKeyCache this !! userId) as [cached|]
    eqn:Hcache.
  { rewrite (getPublicKey_cached _ _ _ Hcache). discriminate. }
  rewrite (getPublicKey_missed _ _ Hcache). intros Hnone.
  assert (Hsame : MessagingService.publicKeyCache this'
                  = MessagingService.publicKeyCache this).
  { destruct (MessagingAdapter.getPublicKey adapter) as [f|].
    - cbv zeta in Hnone. rewrite onAdapter_run in Hnone. simpl in Hnone.
      destruct (fst (f userId (MessagingService.adapterState this)))
        as [publicKey|e]; [|discriminate].
      destruct (whenTruthy publicKey) as [pk|].
      + destruct (base64ToBytes pk); discriminate.
      + now injection Hnone as <-.
    - now injection Hnone as <-. }
  split; [exact Hsame|]. split; [now rewrite Hsame|].
  intros Hcap. apply callsMade_app.
  rewrite getPublicKey_missed by now rewrite Hsame.
  destruct (MessagingAdapter.getPublicKey adapter) as [f|];
    [|now contradiction Hcap].
  cbv zeta. rewrite onAdapter_run. simpl.
  destruct (fst (f userId (MessagingService.adapterState this')))
    as [publicKey|e]; [|reflexivity].
  destruct (whenTruthy publicKey) as [pk|]; [|reflexivity].
  now destruct (base64ToBytes pk).
Qed.

(** A lookup leaves the user and the KeyPair alone and calls nothing but
    the adapter's [getPublicKey]. *)
Lemma getPublicKey_frame (this : ServiceState A K) (userId : string) :
  let this' := snd (MessagingService.getPublicKey adapter userId this) in
  sameUserAndKeys this this'
  /\ MessagingService.rng this' = MessagingService.rng this
  /\ MessagingService.keyStorageState this'
     = MessagingService.keyStorageState this
  /\ callsOnly isGetPublicKeyCall this this'.
Proof.
  destruct (MessagingService.publicKeyCache this !! userId) as [cached|]
    eqn:Hcache.
  { rewrite (getPublicKey_cached _ _ _ Hcache). simpl.
    repeat split. apply callsOnly_refl. }
  rewrite (getPublicKey_missed _ _ Hcache).
  destruct (MessagingAdapter.getPublicKey adapter) as [f|].
  - cbv zeta. rewrite onAdapter_run. simpl.
    assert (Hcalls : forall st : ServiceState A K,
      MessagingService.trace st
        = MessagingService.trace this ++ [adapter_getPublicKey userId] ->
      callsOnly isGetPublicKeyCall this st)
      by (intros st Hst; now exists [adapter_getPublicKey userId]).
    destruct (fst (f userId (MessagingService.adapterState this)))
      as [publicKey|e]; simpl; [|now repeat split; apply Hcalls].
    destruct (whenTruthy publicKey) as [pk|];
      [|now repeat split; apply Hcalls].
    destruct (base64ToBytes pk); simpl; now repeat split; apply Hcalls.
  - simpl. repeat split. apply callsOnly_refl.
Qed.

(** *** Reading messages *)

Lemma sameEnvelope_refl (m : Message.t) : sameEnvelope m m.
Proof. now destruct m. Qed.

Lemma sameEnvelope_withContent (c : string) (m : Message.t) :
  sameEnvelope m (Message.withContent c m).
Proof. now destruct m. Qed.

Lemma sameEnvelope_withContents (c : string) (e : option string)
    (m : Message.t) :
  sameEnvelope m (Message.withContents c e m).
Proof. now destruct m. Qed.

(** X4.  The private [decryptMessage] never throws: whatever the
    adapter, the encryption and the message do, it returns a message, and
    that message is the one it was given except, at most, for [content]
    and [contentEncrypted].  The user and the KeyPair of the service are
    left as they were. *)
Theorem decryptMessage_never_throws
    (this : ServiceState A K) (message : Message.t) :
  exists shown this',
    MessagingService.decryptMessage adapter encryption message this
      = (Returns shown, this')
    /\ sameEnvelope message shown
    /\ sameUserAndKeys this this'.
Proof.
  unfold MessagingService.decryptMessage. rewrite bind_run. simpl.
  destruct (MessagingService.e2eEnabled this) eqn:Henabled;
    [|do 2 eexists; split; [reflexivity|];
      split; [apply sameEnvelope_refl | now repeat split]].
  destruct (MessagingService.keyPair this) as [keys|] eqn:Hkeys;
    [|do 2 eexists; split; [reflexivity|];
      split; [apply sameEnvelope_refl | now repeat split]].
  destruct (MessagingService.currentUser this) as [userId|] eqn:Huser;
    [|do 2 eexists; split; [reflexivity|];
      split; [apply sameEnvelope_refl | now repeat split]].
  unfold tryCatch. rewrite bind_run.
  pose proof (getPublicKey_frame this (Message.senderId message))
    as (Hframe & _ & _ & _).
  destruct (MessagingService.getPublicKey adapter (Message.senderId message)
              this) as [[[senderPublicKey|]|e] this1]; simpl in *.
  - rewrite bind_run, onPure_run. simpl.
    destruct (decryptMessageContent encryption (Message.content message)
                (Message.senderId message) userId senderPublicKey
                (secretKey keys)) as [decrypted|e]; simpl.
    + destruct (whenTruthy decrypted); simpl; do 2 eexists;
        (split; [reflexivity|]);
        (split; [first [apply sameEnvelope_withContents
                       | apply sameEnvelope_withContent]
                | exact Hframe ]).
    + do 2 eexists. split; [reflexivity|].
      split; [apply sameEnvelope_withContent | exact Hframe].
  - do 2 eexists. split; [reflexivity|].
    split; [apply sameEnvelope_withContent | exact Hframe].
  - do 2 eexists. split; [reflexivity|].
    split; [apply sameEnvelope_withContent | exact Hframe].
Qed.

(** What [decryptMessage] shows once the sender's key is found and the
    codec has answered. *)
Lemma decryptMessage_shows
    (this this1 : ServiceState A K) (message : Message.t)
    (keys : KeyPair) (userId : string) (senderPublicKey : bytes)
    (decrypted : option string) :
  MessagingService.e2eEnabled this = true ->
  MessagingService.keyPair this = Some keys ->
  MessagingService.currentUser this = Some userId ->
  MessagingService.getPublicKey adapter (Message.senderId message) this
    = (Returns (Some senderPublicKey), this1) ->
  decryptMessageContent encryption (Message.content message)
    (Message.senderId message) userId senderPublicKey (secretKey keys)
    = Returns decrypted ->
  fst (MessagingService.decryptMessage adapter encryption message this) =
  Returns
    match whenTruthy decrypted with
    | Some plaintext =>
        Message.withContents plaintext (Some (Message.content message))
          message
    | None => Message.withContent "[Unable to decrypt message]" message
    end.
Proof.
  intros Henabled Hkeys Huser Hkey Hdecrypt.
  unfold MessagingService.decryptMessage. rewrite bind_run. simpl.
  rewrite Henabled, Hkeys, Huser. unfold tryCatch.
  rewrite bind_run, Hkey. simpl.
  rewrite bind_run, onPure_run, Hdecrypt. simpl.
  now destruct (whenTruthy decrypted).
Qed.

(** *** Sending *)

(** X5.  Without a loaded KeyPair nothing is encrypted, whatever the
    conversation: when encryption is disabled, or enabled with no KeyPair
    in memory, [sendMessage] does not look the conversation up and hands
    the adapter the message as it received it.  With encryption enabled
    the message it returns carries the plaintext as [contentEncrypted]. *)
Theorem sendMessage_without_key_pair_is_plaintext
    (this : ServiceState A K) (userId conversationId : string)
    (message : SendMessageOptions.t) :
  MessagingService.currentUser this = Some userId ->
  encrypting this = false ->
  let result :=
    MessagingService.sendMessage adapter encryption conversationId message
      this in
  let sent :=
    MessagingAdapter.sendMessage adapter conversationId userId message
      (MessagingService.adapterState this) in
  callsMade this (snd result)
    = [adapter_sendMessage conversationId userId message]
  /\ fst result =
     match fst sent with
     | Returns m =>
         Returns (Message.withContents (SendMessageOptions.content message)
                    (if MessagingService.e2eEnabled this
                     then Some (SendMessageOptions.content message)
                     else None) m)
     | Throws e => Throws e
     end.
Proof.
  intros Huser Hplain result sent. subst result sent.
  assert (Hout : MessagingService.outgoingContent adapter encryption userId
                   conversationId message this
                 = (Returns (SendMessageOptions.content message), this)).
  { unfold MessagingService.outgoingContent. rewrite bind_run. simpl.
    unfold encrypting in Hplain.
    destruct (MessagingService.e2eEnabled this); [|reflexivity].
    destruct (MessagingService.keyPair this); [|reflexivity].
    simpl in Hplain.
    first [ discriminate Hplain
          | rewrite bool_decide_eq_true_2 in Hplain by discriminate;
            discriminate Hplain ]. }
  unfold MessagingService.sendMessage.
  rewrite bind_run. simpl. rewrite Huser.
  rewrite bind_run, Hout. simpl. rewrite withContent_same.
  rewrite bind_run, onAdapter_run. simpl.
  destruct (MessagingAdapter.sendMessage adapter conversationId userId
              message (MessagingService.adapterState this))
    as [[m|e] a']; simpl; (split; [now apply callsMade_app | reflexivity]).
Qed.

(** X6.  An encrypting send fails closed.  With encryption enabled and a
    KeyPair loaded: if the adapter knows no such conversation,
    [sendMessage] throws ``Conversation not found''; if the conversation
    has exactly one other participant and no public key is found for
    them, it throws ``Recipient has not set up encryption''.  In both
    cases the adapter's [sendMessage] is not called: nothing goes out in
    plaintext. *)
Theorem sendMessage_fails_closed
    (this : ServiceState A K) (userId conversationId : string)
    (message : SendMessageOptions.t) (keys : KeyPair) (a' : A) :
  MessagingService.currentUser this = Some userId ->
  MessagingService.e2eEnabled this = true ->
  MessagingService.keyPair this = Some keys ->
  let result :=
    MessagingService.sendMessage adapter encryption conversationId message
      this in
  (MessagingAdapter.getConversation adapter conversationId
     (MessagingService.adapterState this) = (Returns None, a') ->
   fst result = Throws "Conversation not found"
   /\ callsMade this (snd result) = [adapter_getConversation conversationId])
  /\ (forall conversation recipient this2,
        MessagingAdapter.getConversation adapter conversationId
          (MessagingService.adapterState this)
          = (Returns (Some conversation), a') ->
        MessagingService.otherParticipants userId conversation
          = [recipient] ->
        MessagingService.getPublicKey adapter (User.id recipient)
          (snd (MessagingService.getConversation adapter conversationId
                  this)) = (Returns None, this2) ->
        fst result = Throws "Recipient has not set up encryption"
        /\ existsb isSendMessageCall (callsMade this (snd result)) = false).
Proof.
  intros Huser Henabled Hkeys result. subst result. split.
  - intros Hlookup. unfold MessagingService.sendMessage.
    rewrite bind_run. simpl. rewrite Huser. rewrite bind_run.
    unfold MessagingService.outgoingContent.
    rewrite bind_run. simpl. rewrite Henabled, Hkeys.
    rewrite bind_run. unfold MessagingService.getConversation.
    rewrite onAdapter_run, Hlookup. simpl.
    split; [reflexivity | now apply callsMade_app].
  - intros conversation recipient this2 Hlookup Hothers Hkey.
    pose proof (getPublicKey_frame
                  (snd (MessagingService.getConversation adapter
                          conversationId this)) (User.id recipient))
      as (_ & _ & _ & (calls & Htrace & Hcalls)).
    rewrite Hkey in Htrace. simpl in Htrace.
    unfold MessagingService.sendMessage.
    rewrite bind_run. simpl. rewrite Huser. rewrite bind_run.
    unfold MessagingService.outgoingContent.
    rewrite bind_run. simpl. rewrite Henabled, Hkeys.
    rewrite bind_run.
    replace (fst (MessagingService.getConversation adapter conversationId
                    this)) with (Returns (Some conversation))
      by (unfold MessagingService.getConversation;
          now rewrite onAdapter_run, Hlookup).
    rewrite Hothers. simpl. rewrite bind_run, Hkey. simpl.
    split; [reflexivity|].
    unfold MessagingService.getConversation in Htrace.
    rewrite onAdapter_run in Htrace. simpl in Htrace.
    rewrite <- app_assoc in Htrace.
    rewrite (callsMade_app _ _ _ Htrace). simpl.
    clear -Hcalls. induction calls as [|c calls IH]; [reflexivity|].
    simpl in *. apply andb_prop in Hcalls as [Hc Hcalls].
    rewrite (IH Hcalls), orb_false_r. now destruct c.
Qed.

(** *** Set-up and restore *)

Lemma ifSupported_returns (method : option (M A unit)) (c : Call)
    (this : ServiceState A K) :
  optionalReturns method (MessagingService.adapterState this) ->
  MessagingService.ifSupported method c this =
  (Returns tt,
   MessagingService.mkState (MessagingService.e2eEnabled this)
     (MessagingService.currentUserId this) (MessagingService.keyPair this)
     (MessagingService.publicKeyCache this)
     (optionalState method (MessagingService.adapterState this))
     (MessagingService.keyStorageState this) (MessagingService.rng this)
     (MessagingService.trace this ++ optionalCall method c)).
Proof.
  destruct method as [m|]; simpl.
  - intros Hreturns. rewrite onAdapter_run, Hreturns. reflexivity.
  - intros _. rewrite app_nil_r. now destruct this.
Qed.

(** X7.  Restore with the right PIN.  When the backup is there, the
    directory is not rate limited, [decryptPrivateKeyWithPin] returns a
    secret key and the public key is derived from it, [restoreEncryption]
    first reports the successful attempt ([recordPinAttempt(userId,
    true)], if the adapter has it) and then stores the pair locally, keys
    in base 64.  If the store accepts it the pair becomes the in-memory
    KeyPair and the method returns true; if the store throws, the method
    throws the same error and the in-memory KeyPair is what it was, the
    success already reported. *)
Theorem restore_with_correct_pin
    (this : ServiceState A K) (userId pin encryptedKey : string)
    (getKeyBackup : string -> M A KeyBackup.t)
    (backup : KeyBackup.t) (a' : A) (secret public : bytes) :
  MessagingService.currentUser this = Some userId ->
  exactlySixDigits pin = true ->
  MessagingAdapter.getKeyBackup adapter = Some getKeyBackup ->
  getKeyBackup userId (MessagingService.adapterState this)
    = (Returns backup, a') ->
  KeyBackup.rateLimited backup = false ->
  whenTruthy (KeyBackup.encryptedKey backup) = Some encryptedKey ->
  decryptPrivateKeyWithPin encryption encryptedKey pin
    = Returns (Some secret) ->
  publicKeyFromPrivate secret = Returns public ->
  let report :=
    option_map (fun f => f userId true)
      (MessagingAdapter.recordPinAttempt adapter) in
  optionalReturns report a' ->
  let stored :=
    StoredKeyPair.mk (bytesToBase64 public) (bytesToBase64 secret) in
  let saved :=
    KeyStorage.storeKeyPair keyStorage userId stored
      (MessagingService.keyStorageState this) in
  exists this',
    MessagingService.restoreEncryption adapter keyStorage encryption pin this
    = (match fst saved with
       | Returns _ => Returns true
       | Throws e => Throws e
       end, this')
    /\ callsMade this this' =
         [adapter_getKeyBackup userId;
          encryption_decryptPrivateKeyWithPin encryptedKey pin]
         ++ optionalCall report (adapter_recordPinAttempt userId true)
         ++ [keyStorage_storeKeyPair userId stored]
    /\ MessagingService.keyPair this' =
         match fst saved with
         | Returns _ => Some (mkKeyPair public secret)
         | Throws _ => MessagingService.keyPair this
         end
    /\ MessagingService.adapterState this' = optionalState report a'
    /\ MessagingService.keyStorageState this' = snd saved.
Proof.
  intros Huser Hpin Hcap Hcall Hlimited Hblob Hdecrypt Hpublic report
    Hreport stored saved.
  unfold MessagingService.restoreEncryption.
  rewrite bind_run. simpl. rewrite Huser, (pin_accepted _ Hpin), Hcap.
  rewrite bind_run, onAdapter_run, Hcall. simpl.
  rewrite Hlimited, Hblob.
  rewrite bind_run, onPure_run, Hdecrypt. simpl.
  rewrite bind_run. fold report.
  rewrite ifSupported_returns by exact Hreport. simpl.
  rewrite bind_run. unfold liftOutcome at 1. rewrite Hpublic. simpl.
  rewrite bind_run, onKeyStorage_run. simpl. fold stored saved.
  destruct saved as [[[]|e] k']; simpl; eexists;
    (split; [reflexivity|]); simpl; repeat split;
    apply callsMade_app; simpl; now rewrite <- !app_assoc.
Qed.

(** X8.  Set-up publishes before it stores.  Once the key pair is
    generated and its backup encrypted, [setupEncryption] hands the public
    key and the backup to the adapter (each if the adapter has the
    method) and only then stores the pair locally.  If the local store
    throws, the method throws the same error with the directory already
    overwritten and the in-memory KeyPair unchanged; if it accepts, the
    new pair is the in-memory KeyPair and the method returns true. *)
Theorem setup_publishes_before_it_stores
    (this : ServiceState A K) (userId pin blob : string)
    (keys : KeyPair) (g1 g2 : Rng) :
  MessagingService.currentUser this = Some userId ->
  exactlySixDigits pin = true ->
  generateKeyPair encryption (MessagingService.rng this)
    = (Returns keys, g1) ->
  encryptPrivateKeyWithPin encryption (secretKey keys) pin g1
    = (Returns blob, g2) ->
  let publicKeyBase64 := bytesToBase64 (publicKey keys) in
  let stored := StoredKeyPair.mk publicKeyBase64
                  (bytesToBase64 (secretKey keys)) in
  let publish :=
    option_map (fun f => f userId publicKeyBase64)
      (MessagingAdapter.storePublicKey adapter) in
  let backup :=
    option_map (fun f => f userId blob)
      (MessagingAdapter.storeKeyBackup adapter) in
  let a1 := optionalState publish (MessagingService.adapterState this) in
  optionalReturns publish (MessagingService.adapterState this) ->
  optionalReturns backup a1 ->
  let saved :=
    KeyStorage.storeKeyPair keyStorage userId stored
      (MessagingService.keyStorageState this) in
  exists this',
    MessagingService.setupEncryption adapter keyStorage encryption pin this
    = (match fst saved with
       | Returns _ => Returns true
       | Throws e => Throws e
       end, this')
    /\ callsMade this this' =
         [encryption_generateKeyPair;
          encryption_encryptPrivateKeyWithPin (secretKey keys) pin]
         ++ optionalCall publish
              (adapter_storePublicKey userId publicKeyBase64)
         ++ optionalCall backup (adapter_storeKeyBackup userId blob)
         ++ [keyStorage_storeKeyPair userId stored]
    /\ MessagingService.adapterState this' = optionalState backup a1
    /\ MessagingService.keyStorageState this' = snd saved
    /\ MessagingService.rng this' = g2
    /\ MessagingService.keyPair this' =
         match fst saved with
         | Returns _ => Some keys
         | Throws _ => MessagingService.keyPair this
         end.
Proof.
  intros Huser Hpin Hgenerate Hencrypt publicKeyBase64 stored publish backup
    a1 Hpublish Hbackup saved.
  unfold MessagingService.setupEncryption.
  rewrite bind_run. simpl. rewrite Huser, (pin_accepted _ Hpin).
  rewrite bind_run, onRng_run, Hgenerate. simpl.
  rewrite bind_run, onRng_run. simpl. rewrite Hencrypt. simpl.
  rewrite bind_run. fold publicKeyBase64 publish.
  rewrite ifSupported_returns by exact Hpublish. simpl.
  rewrite bind_run. fold backup.
  rewrite ifSupported_returns by exact Hbackup. simpl.
  rewrite bind_run, onKeyStorage_run. simpl.
  fold publicKeyBase64 stored saved a1.
  destruct saved as [[[]|e] k']; simpl; eexists;
    (split; [reflexivity|]); simpl; repeat split;
    apply callsMade_app; simpl; now rewrite <- !app_assoc.
Qed.

End SessionProperties.

(** ** The codec and the service together *)

Section CodecProperties.
Context `{Laws : PlatformLaws}.

(** What [parseEncryptedContent] accepts is an object with truthy [s] and
    [r]. *)
Lemma parseEncryptedContent_accepts (content : string) (parsed : JsValue) :
  parseEncryptedContent content = Some parsed ->
  exists fields,
    parsed = JObject fields
    /\ truthy (lookupField "s" fields) = true
    /\ truthy (lookupField "r" fields) = true.
Proof.
  unfold parseEncryptedContent.
  destruct (JSON_parse content) as [v|]; [|discriminate].
  destruct v as [| |b|z|str|items|fields]; try discriminate.
  cbn [getProp].
  destruct (truthy (lookupField "s" fields)) eqn:Hs; [|discriminate].
  destruct (truthy (lookupField "r" fields)) eqn:Hr; [|discriminate].
  intros [= <-]. now exists fields.
Qed.

(** X9.  With [TweetNaClEncryption], [decryptMessageContent] never
    throws: for every content, sender, reader and keys it returns a
    plaintext or null.  What [parseEncryptedContent] lets through to the
    dual branch is always an object whose [s] and [r] are truthy. *)
Theorem decryptMessageContent_never_throws
    (content senderId currentUserId : string)
    (senderPublicKey currentUserSecretKey : bytes) :
  (exists result,
     decryptMessageContent createE2EEncryption content senderId
       currentUserId senderPublicKey currentUserSecretKey = Returns result)
  /\ forall parsed,
       parseEncryptedContent content = Some parsed ->
       exists fields,
         parsed = JObject fields
         /\ truthy (lookupField "s" fields) = true
         /\ truthy (lookupField "r" fields) = true.
Proof.
  split; [|apply parseEncryptedContent_accepts].
  assert (Hnull : forall c pk sk,
    exists result,
      TweetNaClEncryption.decryptMessage c pk sk = Returns result).
  { intros c pk sk. unfold TweetNaClEncryption.decryptMessage, catchNull.
    destruct (obind _ _) as [x|e]; eauto. }
  unfold decryptMessageContent, decryptLegacy.
  destruct (parseEncryptedContent content) as [parsed|] eqn:Hparse;
    [|apply Hnull].
  apply parseEncryptedContent_accepts in Hparse as (fields & -> & _ & _).
  cbn [truthy getProp].
  destruct (String.eqb senderId currentUserId); cbn [obind]; apply Hnull.
Qed.

(** The serialised dual envelope decodes for its sender and for its
    recipient. *)
Lemma dual_content_decodes
    (plaintext : string) (utf8 : bytes) (S R : KeyPair)
    (senderId recipient : string) (g : Rng) :
  validKeyPair S -> validKeyPair R ->
  decodeUTF8 plaintext = Returns utf8 ->
  exists encrypted g',
    createEncryptedContent createE2EEncryption plaintext (secretKey S)
      (publicKey S) (publicKey R) recipient g = (Returns encrypted, g')
    /\ decryptMessageContent createE2EEncryption
         (JSON_stringify (contentToJs encrypted)) senderId senderId
         (publicKey S) (secretKey S) = Returns (Some plaintext)
    /\ forall currentUserId,
         currentUserId <> senderId ->
         decryptMessageContent createE2EEncryption
           (JSON_stringify (contentToJs encrypted)) senderId currentUserId
           (publicKey S) (secretKey R) = Returns (Some plaintext).
Proof.
  intros HS HR Hutf8.
  destruct (encryptMessage_decryptMessage S R plaintext utf8 g HS HR Hutf8)
    as (nonceR & boxedR & HencR & HlenR & HdecR).
  destruct (encryptMessage_decryptMessage S S plaintext utf8
              (snd (randomBytes box_nonceLength g)) HS HS Hutf8)
    as (nonceS & boxedS & HencS & HlenS & HdecS).
  exists {| s := encodeBase64 (nonceS ++ boxedS);
            r := encodeBase64 (nonceR ++ boxedR);
            recipientId := recipient |},
    (snd (randomBytes box_nonceLength (snd (randomBytes box_nonceLength g)))).
  split.
  - unfold createEncryptedContent, bind, ret. simpl.
    now rewrite HencR, HencS.
  - unfold decryptMessageContent, parseEncryptedContent.
    rewrite JSON_roundtrip, !getProp_content_s, !getProp_content_r.
    cbn [s r].
    rewrite (encodeBase64_truthy _ _ HlenS), (encodeBase64_truthy _ _ HlenR).
    rewrite content_truthy, getProp_content_s, getProp_content_r.
    cbn [s r]. split.
    + rewrite String.eqb_refl. exact HdecS.
    + intros currentUserId Hother.
      destruct (String.eqb_spec senderId currentUserId) as [->|_];
        [now contradiction Hother|].
      exact HdecR.
Qed.

Section OverCollaborators.
Context {A K : Type}.
Variable adapter : MessagingAdapter.t A.

(** What [sendMessage] does with a direct message whose recipient's key
    is found: the body it hands to the adapter, and who reads it. *)
Lemma sendMessage_direct
    (this this2 : ServiceState A K) (userId conversationId : string)
    (message : SendMessageOptions.t) (conversation : Conversation.t)
    (a' : A) (recipient : User.t) (mine theirs : KeyPair) (utf8 : bytes) :
  MessagingService.currentUser this = Some userId ->
  MessagingService.e2eEnabled this = true ->
  MessagingService.keyPair this = Some mine ->
  validKeyPair mine -> validKeyPair theirs ->
  decodeUTF8 (SendMessageOptions.content message) = Returns utf8 ->
  MessagingAdapter.getConversation adapter conversationId
    (MessagingService.adapterState this)
    = (Returns (Some conversation), a') ->
  MessagingService.otherParticipants userId conversation = [recipient] ->
  MessagingService.getPublicKey adapter (User.id recipient)
    (snd (MessagingService.getConversation adapter conversationId this))
    = (Returns (Some (publicKey theirs)), this2) ->
  let result :=
    MessagingService.sendMessage adapter createE2EEncryption conversationId
      message this in
  exists body,
    let outgoing := SendMessageOptions.withContent body message in
    let handed :=
      MessagingAdapter.sendMessage adapter conversationId userId outgoing
        (MessagingService.adapterState this2) in
    fst result =
      match fst handed with
      | Returns sent =>
          Returns (Message.withContents
                     (SendMessageOptions.content message) (Some body) sent)
      | Throws e => Throws e
      end
    /\ MessagingService.adapterState (snd result) = snd handed
    /\ last (MessagingService.trace (snd result))
       = Some (adapter_sendMessage conversationId userId outgoing)
    /\ decryptMessageContent createE2EEncryption body userId userId
         (publicKey mine) (secretKey mine)
       = Returns (Some (SendMessageOptions.content message))
    /\ forall reader,
         reader <> userId ->
         decryptMessageContent createE2EEncryption body userId reader
           (publicKey mine) (secretKey theirs)
         = Returns (Some (SendMessageOptions.content message)).
Proof.
  intros Huser Henabled Hkeys Hmine Htheirs Hutf8 Hlookup Hothers Hkey result.
  destruct (dual_content_decodes (SendMessageOptions.content message) utf8
              mine theirs userId (User.id recipient)
              (MessagingService.rng this2) Hmine Htheirs Hutf8)
    as (encrypted & g' & Hcreate & Hsender & Hreader).
  exists (JSON_stringify (contentToJs encrypted)). cbv zeta.
  assert (Hrun : exists this3,
    result =
      (match fst (MessagingAdapter.sendMessage adapter conversationId userId
                    (SendMessageOptions.withContent
                       (JSON_stringify (contentToJs encrypted)) message)
                    (MessagingService.adapterState this2)) with
       | Returns sent =>
           Returns (Message.withContents
                      (SendMessageOptions.content message)
                      (Some (JSON_stringify (contentToJs encrypted))) sent)
       | Throws e => Throws e
       end, this3)
    /\ MessagingService.adapterState this3
       = snd (MessagingAdapter.sendMessage adapter conversationId userId
                (SendMessageOptions.withContent
                   (JSON_stringify (contentToJs encrypted)) message)
                (MessagingService.adapterState this2))
    /\ last (MessagingService.trace this3)
       = Some (adapter_sendMessage conversationId userId
                 (SendMessageOptions.withContent
                    (JSON_stringify (contentToJs encrypted)) message))).
  { subst result. unfold MessagingService.sendMessage.
    rewrite bind_run. simpl. rewrite Huser. rewrite bind_run.
    unfold MessagingService.outgoingContent.
    rewrite bind_run. simpl. rewrite Henabled, Hkeys. rewrite bind_run.
    replace (fst (MessagingService.getConversation adapter conversationId
                    this)) with (Returns (Some conversation))
      by (unfold MessagingService.getConversation;
          now rewrite onAdapter_run, Hlookup).
    rewrite Hothers. simpl. rewrite bind_run, Hkey. simpl.
    rewrite bind_run, onRng_run. simpl. rewrite Hcreate. simpl.
    rewrite bind_run, onAdapter_run. simpl.
    destruct (MessagingAdapter.sendMessage adapter conversationId userId _
                (MessagingService.adapterState this2)) as [[sent|e] a''];
      simpl; eexists; (split; [reflexivity|]); simpl;
      (split; [reflexivity | apply last_snoc]). }
  destruct Hrun as (this3 & -> & Hstate & Hlast). simpl.
  now repeat split.
Qed.

(** X10.  A direct message end to end.  With encryption enabled, a valid
    KeyPair loaded, exactly one other participant whose public key is
    found, and a content that has a UTF-8 encoding, [sendMessage] hands
    the adapter a body that [decryptMessageContent] decodes to the
    content both for the sender and, under the recipient's secret key,
    for any other reader; the message it returns shows the plaintext as
    [content] and that body as [contentEncrypted]. *)
Theorem direct_message_end_to_end
    (this this2 : ServiceState A K) (userId conversationId : string)
    (message : SendMessageOptions.t) (conversation : Conversation.t)
    (a' : A) (recipient : User.t) (mine theirs : KeyPair) (utf8 : bytes) :
  MessagingService.currentUser this = Some userId ->
  MessagingService.e2eEnabled this = true ->
  MessagingService.keyPair this = Some mine ->
  validKeyPair mine -> validKeyPair theirs ->
  decodeUTF8 (SendMessageOptions.content message) = Returns utf8 ->
  MessagingAdapter.getConversation adapter conversationId
    (MessagingService.adapterState this)
    = (Returns (Some conversation), a') ->
  MessagingService.otherParticipants userId conversation = [recipient] ->
  MessagingService.getPublicKey adapter (User.id recipient)
    (snd (MessagingService.getConversation adapter conversationId this))
    = (Returns (Some (publicKey theirs)), this2) ->
  let result :=
    MessagingService.sendMessage adapter createE2EEncryption conversationId
      message this in
  exists body,
    let outgoing := SendMessageOptions.withContent body message in
    last (MessagingService.trace (snd result))
      = Some (adapter_sendMessage conversationId userId outgoing)
    /\ fst result =
       match fst (MessagingAdapter.sendMessage adapter conversationId userId
                    outgoing (MessagingService.adapterState this2)) with
       | Returns sent =>
           Returns (Message.withContents
                      (SendMessageOptions.content message) (Some body) sent)
       | Throws e => Throws e
       end
    /\ decryptMessageContent createE2EEncryption body userId userId
         (publicKey mine) (secretKey mine)
       = Returns (Some (SendMessageOptions.content message))
    /\ forall reader,
         reader <> userId ->
         decryptMessageContent createE2EEncryption body userId reader
           (publicKey mine) (secretKey theirs)
         = Returns (Some (SendMessageOptions.content message)).
Proof.
  intros Huser Henabled Hkeys Hmine Htheirs Hutf8 Hlookup Hothers Hkey result.
  destruct (sendMessage_direct this this2 userId conversationId message
              conversation a' recipient mine theirs utf8 Huser Henabled Hkeys
              Hmine Htheirs Hutf8 Hlookup Hothers Hkey)
    as (body & Hfst & _ & Hlast & Hsender & Hreader).
  exists body. cbv zeta. now repeat split.
Qed.

(** X11.  Reading a dual envelope.  When the content of a message is the
    serialised envelope a sender made for a recipient, the service of
    either of them (encryption enabled, their own valid KeyPair loaded,
    the sender's public key found) shows the plaintext as [content] and
    keeps the envelope as [contentEncrypted]; except that an empty
    plaintext, being falsy, is shown as the placeholder for a message
    that could not be decrypted. *)
Theorem decryptMessage_reads_dual_envelope
    (this this1 : ServiceState A K) (message : Message.t)
    (reader recipient plaintext : string) (utf8 : bytes)
    (mine S R : KeyPair) (g g' : Rng) (encrypted : EncryptedContent) :
  validKeyPair S -> validKeyPair R ->
  decodeUTF8 plaintext = Returns utf8 ->
  createEncryptedContent createE2EEncryption plaintext (secretKey S)
    (publicKey S) (publicKey R) recipient g = (Returns encrypted, g') ->
  Message.content message = JSON_stringify (contentToJs encrypted) ->
  (reader = Message.senderId message /\ mine = S)
  \/ (reader <> Message.senderId message /\ mine = R) ->
  MessagingService.e2eEnabled this = true ->
  MessagingService.keyPair this = Some mine ->
  MessagingService.currentUser this = Some reader ->
  MessagingService.getPublicKey adapter (Message.senderId message) this
    = (Returns (Some (publicKey S)), this1) ->
  fst (MessagingService.decryptMessage adapter createE2EEncryption message
         this) =
  Returns
    (if String.eqb plaintext "" then
       Message.withContent "[Unable to decrypt message]" message
     else
       Message.withContents plaintext (Some (Message.content message))
         message).
Proof.
  intros HS HR Hutf8 Hcreate Hcontent Hreader Henabled Hkeys Huser Hkey.
  destruct (dual_content_decodes plaintext utf8 S R (Message.senderId message)
              recipient g HS HR Hutf8)
    as (encrypted' & g'' & Hcreate' & Hsender & Hother).
  rewrite Hcreate in Hcreate'. injection Hcreate' as <- <-.
  assert (Hdecoded :
    decryptMessageContent createE2EEncryption (Message.content message)
      (Message.senderId message) reader (publicKey S) (secretKey mine)
    = Returns (Some plaintext)).
  { rewrite Hcontent. destruct Hreader as [[-> ->]|[Hne ->]];
      [exact Hsender | now apply Hother]. }
  rewrite (decryptMessage_shows adapter createE2EEncryption this this1
             message mine reader (publicKey S) (Some plaintext)
             Henabled Hkeys Huser Hkey Hdecoded).
  unfold whenTruthy, truthyString.
  now destruct (String.eqb plaintext "").
Qed.

End OverCollaborators.
End CodecProperties.

(** ** Set-up, reload and restore over the memory collaborators *)

Section OnMemory.
Context `{Laws : PlatformLaws}.

(** The backup [encryptPrivateKeyWithPin] makes is not the empty string,
    and [decryptPrivateKeyWithPin] reads it under the same PIN. *)
Lemma encryptPrivateKeyWithPin_blob (key : bytes) (pin : string) (g : Rng) :
  exists blob g',
    TweetNaClEncryption.encryptPrivateKeyWithPin key pin g
      = (Returns blob, g')
    /\ blob <> ""
    /\ TweetNaClEncryption.decryptPrivateKeyWithPin blob pin
       = Returns (Some key).
Proof.
  set (salt := fst (randomBytes 16 g)).
  set (g1 := snd (randomBytes 16 g)).
  set (nonce := fst (randomBytes secretbox_nonceLength g1)).
  set (derivedKey := TweetNaClEncryption.deriveKeyFromPin pin salt).
  assert (Hsalt : length salt = 16%nat) by apply randomBytes_length.
  assert (Hnonce : length nonce = secretbox_nonceLength)
    by apply randomBytes_length.
  assert (Hkey : length derivedKey = 32%nat) by apply pbkdf2_length.
  destruct (secretbox_open_secretbox key nonce derivedKey Hnonce Hkey)
    as (sealed & Hseal & Hopen).
  exists (encodeBase64 (salt ++ nonce ++ sealed)),
    (snd (randomBytes secretbox_nonceLength g1)).
  split; [|split].
  - unfold TweetNaClEncryption.encryptPrivateKeyWithPin, bind, liftOutcome,
      ret.
    rewrite random_run. fold salt g1. rewrite random_run. fold nonce.
    fold derivedKey. now rewrite Hseal.
  - apply base64_nonempty.
    destruct salt; [discriminate Hsalt | discriminate].
  - unfold TweetNaClEncryption.decryptPrivateKeyWithPin.
    rewrite base64_roundtrip. cbn [obind].
    rewrite (slice_front _ _ _ Hsalt).
    rewrite (slice_middle _ _ _ _ _ Hsalt Hnonce).
    rewrite (sliceFrom_two _ _ _ _ _ Hsalt Hnonce).
    fold derivedKey. now rewrite Hopen.
Qed.

Lemma generateKeyPair_run (g : Rng) :
  TweetNaClEncryption.generateKeyPair g
  = (Returns (fst (box_keyPair g)), snd (box_keyPair g)).
Proof.
  unfold TweetNaClEncryption.generateKeyPair.
  now destruct (box_keyPair g).
Qed.

Lemma whenTruthy_nonempty (str : string) :
  str <> "" -> whenTruthy (Some str) = Some str.
Proof.
  intros Hne. unfold whenTruthy, truthyString.
  now destruct (String.eqb_spec str "").
Qed.

(** What [setupEncryption] leaves behind over the memory adapter and the
    memory key store. *)
Lemma setup_on_memory (this : MemoryService) (userId pin : string) :
  MessagingService.currentUser this = Some userId ->
  exactlySixDigits pin = true ->
  let keys := fst (box_keyPair (MessagingService.rng this)) in
  exists blob this',
    MessagingService.setupEncryption MemoryMessagingAdapter.create
      MemoryKeyStorage.create createE2EEncryption pin this
    = (Returns true, this')
    /\ blob <> ""
    /\ TweetNaClEncryption.decryptPrivateKeyWithPin blob pin
       = Returns (Some (secretKey keys))
    /\ MessagingService.keyPair this' = Some keys
    /\ MessagingService.e2eEnabled this' = MessagingService.e2eEnabled this
    /\ MessagingService.currentUserId this'
       = MessagingService.currentUserId this
    /\ MessagingService.keyStorageState this'
       = <[userId := StoredKeyPair.mk (bytesToBase64 (publicKey keys))
                       (bytesToBase64 (secretKey keys))]>
           (MessagingService.keyStorageState this)
    /\ MemoryMessagingAdapter.publicKeys (MessagingService.adapterState this')
       = <[userId := bytesToBase64 (publicKey keys)]>
           (MemoryMessagingAdapter.publicKeys
              (MessagingService.adapterState this))
    /\ MemoryMessagingAdapter.keyBackups (MessagingService.adapterState this')
       = <[userId := blob]>
           (MemoryMessagingAdapter.keyBackups
              (MessagingService.adapterState this)).
Proof.
  intros Huser Hpin keys.
  destruct (encryptPrivateKeyWithPin_blob (secretKey keys) pin
              (snd (box_keyPair (MessagingService.rng this))))
    as (blob & g' & Hencrypt & Hblob & Hdecrypt).
  exists blob. eexists. split.
  { unfold MessagingService.setupEncryption.
    rewrite bind_run. simpl. rewrite Huser, (pin_accepted _ Hpin).
    rewrite bind_run, onRng_run. simpl.
    rewrite generateKeyPair_run. simpl.
    rewrite bind_run, onRng_run. simpl. fold keys.
    rewrite Hencrypt. simpl.
    rewrite bind_run, onAdapter_run. simpl.
    rewrite bind_run, onAdapter_run. simpl.
    rewrite bind_run, onKeyStorage_run. simpl.
    unfold bind, MessagingService.setKeyPair, modify, ret.
    reflexivity. }
  split; [exact Hblob|]. split; [exact Hdecrypt|].
  simpl. now repeat split.
Qed.

(** X12.  Keys survive a reload.  After [setupEncryption] over the memory
    adapter and the memory key store, a service started for the same
    user on the key store it left (encryption enabled, whatever its
    directory, cache, keys in memory and random source) gets from
    [initializeEncryption] the answer true and, as its in-memory
    KeyPair, the very pair the set-up generated. *)
Theorem setup_then_initialize_reloads_keys
    (this : MemoryService) (userId pin : string)
    (keys : option KeyPair) (cache : gmap string bytes)
    (directory : MemoryMessagingAdapter.State) (g : Rng)
    (calls : list Call) :
  MessagingService.currentUser this = Some userId ->
  exactlySixDigits pin = true ->
  let afterSetup :=
    snd (MessagingService.setupEncryption MemoryMessagingAdapter.create
           MemoryKeyStorage.create createE2EEncryption pin this) in
  let restarted :=
    MessagingService.mkState true (MessagingService.currentUserId this) keys
      cache directory (MessagingService.keyStorageState afterSetup) g
      calls in
  let reloaded :=
    MessagingService.initializeEncryption MemoryKeyStorage.create
      restarted in
  fst reloaded = Returns true
  /\ MessagingService.keyPair (snd reloaded)
     = MessagingService.keyPair afterSetup
  /\ MessagingService.keyPair afterSetup
     = Some (fst (box_keyPair (MessagingService.rng this))).
Proof.
  intros Huser Hpin afterSetup restarted reloaded.
  assert (Henabled : MessagingService.e2eEnabled restarted = true)
    by reflexivity.
  assert (Hrestarted : MessagingService.currentUser restarted = Some userId)
    by exact Huser.
  assert (Hstore : MessagingService.keyStorageState restarted
                   = MessagingService.keyStorageState afterSetup)
    by reflexivity.
  clearbody restarted.
  destruct (setup_on_memory this userId pin Huser Hpin)
    as (blob & this' & Hsetup & _ & _ & Hkeys & _ & _ & Hstored & _).
  subst afterSetup reloaded. rewrite Hsetup in *. simpl in Hstore |- *.
  rewrite Hkeys.
  unfold MessagingService.initializeEncryption.
  rewrite bind_run. simpl. rewrite Henabled, Hrestarted. simpl.
  rewrite bind_run, onKeyStorage_run. simpl.
  rewrite Hstore, Hstored, lookup_insert_eq. simpl.
  unfold base64ToBytes, bytesToBase64, liftOutcome, bind.
  rewrite !base64_roundtrip. simpl.
  now destruct (fst (box_keyPair (MessagingService.rng this))).
Qed.

(** X13.  Keys move to a new device.  After [setupEncryption] over the
    memory adapter, a service of the same user on another device, one
    that sees the directory the set-up left and has any key store of its
    own, gets from [restoreEncryption] under the same PIN the answer
    true, the pair the set-up generated as its in-memory KeyPair, and
    that pair, in base 64, in its key store, as the first device has
    it. *)
Theorem setup_then_restore_recovers_keys
    (this : MemoryService) (userId pin : string)
    (enabled : bool) (keys : option KeyPair) (cache : gmap string bytes)
    (store : gmap string StoredKeyPair.t) (g : Rng) (calls : list Call) :
  MessagingService.currentUser this = Some userId ->
  exactlySixDigits pin = true ->
  let afterSetup :=
    snd (MessagingService.setupEncryption MemoryMessagingAdapter.create
           MemoryKeyStorage.create createE2EEncryption pin this) in
  let device :=
    MessagingService.mkState enabled (MessagingService.currentUserId this)
      keys cache (MessagingService.adapterState afterSetup) store g calls in
  let restored :=
    MessagingService.restoreEncryption MemoryMessagingAdapter.create
      MemoryKeyStorage.create createE2EEncryption pin device in
  fst restored = Returns true
  /\ MessagingService.keyPair (snd restored)
     = MessagingService.keyPair afterSetup
  /\ MessagingService.keyPair afterSetup
     = Some (fst (box_keyPair (MessagingService.rng this)))
  /\ MessagingService.keyStorageState (snd restored) !! userId
     = MessagingService.keyStorageState afterSetup !! userId
  /\ MessagingService.adapterState (snd restored)
     = MessagingService.adapterState device.
Proof.
  intros Huser Hpin afterSetup device restored.
  assert (Hdevice : MessagingService.currentUser device = Some userId)
    by exact Huser.
  assert (Hdirectory : MessagingService.adapterState device
                       = MessagingService.adapterState afterSetup)
    by reflexivity.
  clearbody device.
  destruct (setup_on_memory this userId pin Huser Hpin)
    as (blob & this' & Hsetup & Hblob & Hdecrypt & Hkeys & _ & _ & Hstored
        & _ & Hbackups).
  pose proof (box_keyPair_valid (MessagingService.rng this)) as Hvalid.
  unfold validKeyPair in Hvalid.
  subst afterSetup restored. rewrite Hsetup in *. simpl in Hdirectory |- *.
  rewrite Hkeys, Hstored, lookup_insert_eq.
  unfold MessagingService.restoreEncryption.
  rewrite bind_run. simpl. rewrite Hdevice, (pin_accepted _ Hpin).
  rewrite bind_run, onAdapter_run. simpl.
  rewrite Hdirectory, Hbackups, lookup_insert_eq.
  rewrite (whenTruthy_nonempty _ Hblob).
  rewrite bind_run, onPure_run. simpl. rewrite Hdecrypt. simpl.
  unfold publicKeyFromPrivate, liftOutcome, bind. rewrite Hvalid. simpl.
  rewrite lookup_insert_eq.
  destruct (fst (box_keyPair (MessagingService.rng this))) as [pk sk].
  simpl. now repeat split.
Qed.

(** X14.  The status after set-up.  Once [setupEncryption] has run over
    the memory adapter and the memory key store with encryption enabled,
    [getEncryptionStatus] answers [ready] on that service, and
    [has_backup] on a service of the same user that sees the same
    directory and has no local KeyPair for the user. *)
Theorem status_after_setup
    (this : MemoryService) (userId pin : string)
    (keys : option KeyPair) (cache : gmap string bytes)
    (store : gmap string StoredKeyPair.t) (g : Rng) (calls : list Call) :
  MessagingService.currentUser this = Some userId ->
  exactlySixDigits pin = true ->
  MessagingService.e2eEnabled this = true ->
  store !! userId = None ->
  let afterSetup :=
    snd (MessagingService.setupEncryption MemoryMessagingAdapter.create
           MemoryKeyStorage.create createE2EEncryption pin this) in
  let device :=
    MessagingService.mkState true (MessagingService.currentUserId this)
      keys cache (MessagingService.adapterState afterSetup) store g calls in
  resolveStatus MemoryMessagingAdapter.create MemoryKeyStorage.create
    afterSetup = Returns ready
  /\ resolveStatus MemoryMessagingAdapter.create MemoryKeyStorage.create
       device = Returns has_backup.
Proof.
  intros Huser Hpin Henabled Hlocal afterSetup device.
  assert (Hon : MessagingService.e2eEnabled device = true) by reflexivity.
  assert (Hdevice : MessagingService.currentUser device = Some userId)
    by exact Huser.
  assert (Hdirectory : MessagingService.adapterState device
                       = MessagingService.adapterState afterSetup)
    by reflexivity.
  change (MessagingService.keyStorageState device !! userId = None)
    in Hlocal.
  clearbody device.
  destruct (setup_on_memory this userId pin Huser Hpin)
    as (blob & this' & Hsetup & Hblob & _ & _ & Henabled' & Huser' & Hstored
        & _ & Hbackups).
  subst afterSetup. rewrite Hsetup in *. simpl in Hdirectory |- *.
  assert (Htruthy : truthyString (Some blob) = true).
  { unfold truthyString. now destruct (String.eqb_spec blob ""). }
  split.
  - rewrite (status_local_key MemoryMessagingAdapter.create
               MemoryKeyStorage.create this' userId).
    + simpl. now rewrite Hbackups, lookup_insert_eq, Htruthy.
    + now rewrite Henabled'.
    + unfold MessagingService.currentUser. rewrite Huser'. exact Huser.
    + unfold localKeyPresent. simpl.
      unfold MemoryKeyStorage.loadKeyPair.
      rewrite Hstored, lookup_insert_eq. eauto.
  - apply (status_no_local_key_backup MemoryMessagingAdapter.create
             MemoryKeyStorage.create device userId Hon Hdevice).
    + unfold localKeyAbsent. simpl. unfold MemoryKeyStorage.loadKeyPair.
      rewrite Hlocal. eauto.
    + unfold remoteBackupPresent. simpl.
      eexists _, _, _. split; [reflexivity|].
      unfold MemoryMessagingAdapter.getKeyBackup.
      split; [reflexivity|]. simpl.
      now rewrite Hdirectory, Hbackups, lookup_insert_eq.
Qed.

(** A key published in the memory directory is found by a lookup that
    misses the cache. *)
Lemma memory_getPublicKey_published
    (this : MemoryService) (userId : string) (key : bytes) :
  MessagingService.publicKeyCache this !! userId = None ->
  MemoryMessagingAdapter.publicKeys (MessagingService.adapterState this)
    !! userId = Some (bytesToBase64 key) ->
  key <> [] ->
  exists this',
    MessagingService.getPublicKey MemoryMessagingAdapter.create userId this
    = (Returns (Some key), this')
    /\ MessagingService.adapterState this'
       = MessagingService.adapterState this.
Proof.
  intros Hcache Hpublished Hkey.
  rewrite (getPublicKey_missed _ _ _ Hcache). simpl.
  rewrite Hpublished.
  rewrite whenTruthy_nonempty by now apply base64_nonempty.
  unfold base64ToBytes, bytesToBase64. rewrite base64_roundtrip.
  eexists. split; reflexivity.
Qed.

(** X15.  A direct message over the memory adapter, from one service to
    the other.  The sender's service (encryption enabled, a valid KeyPair
    loaded) sends a non-empty content to a conversation with one other
    participant, both public keys published in the directory.  The
    adapter appends one message to the conversation; the recipient's
    service, on the directory as the send left it and holding the
    recipient's KeyPair, decrypts that stored message to exactly the
    message the sender got back: the plaintext as [content], the stored
    body as [contentEncrypted]. *)
Theorem direct_message_over_memory
    (sender : MemoryService) (senderId conversationId : string)
    (conversation : Conversation.t) (recipient : User.t)
    (S R : KeyPair) (message : SendMessageOptions.t) (utf8 : bytes)
    (cache : gmap string bytes) (store : gmap string StoredKeyPair.t)
    (g : Rng) (calls : list Call) :
  let directory := MessagingService.adapterState sender in
  let plaintext := SendMessageOptions.content message in
  MessagingService.e2eEnabled sender = true ->
  MessagingService.currentUser sender = Some senderId ->
  MessagingService.keyPair sender = Some S ->
  MessagingService.publicKeyCache sender !! User.id recipient = None ->
  validKeyPair S -> validKeyPair R ->
  publicKey S <> [] -> publicKey R <> [] ->
  MemoryMessagingAdapter.conversations directory !! conversationId
    = Some conversation ->
  MessagingService.otherParticipants senderId conversation = [recipient] ->
  MemoryMessagingAdapter.publicKeys directory !! senderId
    = Some (bytesToBase64 (publicKey S)) ->
  MemoryMessagingAdapter.publicKeys directory !! User.id recipient
    = Some (bytesToBase64 (publicKey R)) ->
  decodeUTF8 plaintext = Returns utf8 ->
  plaintext <> "" ->
  User.id recipient <> "" ->
  cache !! senderId = None ->
  let sending :=
    MessagingService.sendMessage MemoryMessagingAdapter.create
      createE2EEncryption conversationId message sender in
  let reader :=
    MessagingService.mkState true (Some (User.id recipient)) (Some R) cache
      (MessagingService.adapterState (snd sending)) store g calls in
  exists sent stored,
    fst sending = Returns sent
    /\ sent = Message.withContents plaintext (Some (Message.content stored))
                stored
    /\ MemoryMessagingAdapter.messages
         (MessagingService.adapterState (snd sending)) !! conversationId
       = Some (default []
                 (MemoryMessagingAdapter.messages directory
                    !! conversationId) ++ [stored])
    /\ Message.senderId stored = senderId
    /\ fst (MessagingService.decryptMessage MemoryMessagingAdapter.create
              createE2EEncryption stored reader)
       = Returns sent.
Proof.
  intros directory plaintext Henabled Huser Hkeys Hcache HS HR HpkS HpkR
    Hconversation Hothers HpublishedS HpublishedR Hutf8 Hnonempty Hrecipient
    Hcached sending reader.
  assert (Hon : MessagingService.e2eEnabled reader = true) by reflexivity.
  assert (Hreader :
    MessagingService.currentUser reader = Some (User.id recipient))
    by (unfold MessagingService.currentUser; simpl;
        now apply whenTruthy_nonempty).
  assert (HkeysR : MessagingService.keyPair reader = Some R) by reflexivity.
  assert (HcacheR : MessagingService.publicKeyCache reader !! senderId = None)
    by exact Hcached.
  assert (Hshared : MessagingService.adapterState reader
                    = MessagingService.adapterState (snd sending))
    by reflexivity.
  clearbody reader.
  assert (Hother : User.id recipient <> senderId).
  { assert (Hin : In recipient
                    (MessagingService.otherParticipants senderId
                       conversation))
      by (rewrite Hothers; now left).
    apply filter_In in Hin as [_ Hin].
    intros Heq. rewrite Heq, String.eqb_refl in Hin. discriminate Hin. }
  assert (Hlookup :
    MessagingAdapter.getConversation MemoryMessagingAdapter.create
      conversationId (MessagingService.adapterState sender)
    = (Returns (Some conversation), directory)).
  { simpl. unfold MemoryMessagingAdapter.getConversation.
    fold directory. now rewrite Hconversation. }
  destruct (memory_getPublicKey_published
              (snd (MessagingService.getConversation
                      MemoryMessagingAdapter.create conversationId sender))
              (User.id recipient) (publicKey R))
    as (this2 & Hkey & Hstate2).
  { unfold MessagingService.getConversation. rewrite onAdapter_run.
    exact Hcache. }
  { unfold MessagingService.getConversation. rewrite onAdapter_run.
    simpl. exact HpublishedR. }
  { exact HpkR. }
  assert (Hdirectory2 : MessagingService.adapterState this2 = directory).
  { rewrite Hstate2. unfold MessagingService.getConversation.
    now rewrite onAdapter_run. }
  destruct (sendMessage_direct MemoryMessagingAdapter.create sender this2
              senderId conversationId message conversation directory
              recipient S R utf8 Huser Henabled Hkeys HS HR Hutf8 Hlookup
              Hothers Hkey)
    as (body & Hfst & Hstate & _ & _ & Hreads).
  fold sending in Hfst, Hstate. cbv zeta in Hfst, Hstate.
  rewrite Hdirectory2 in Hfst, Hstate.
  simpl in Hfst, Hstate.
  unfold MemoryMessagingAdapter.sendMessage in Hfst, Hstate.
  rewrite bind_run in Hfst, Hstate. simpl in Hfst, Hstate.
  rewrite Hconversation in Hfst, Hstate. simpl in Hfst, Hstate.
  match type of Hfst with
  | _ = Returns (Message.withContents _ _ ?m) => set (stored := m) in *
  end.
  exists (Message.withContents plaintext (Some body) stored), stored.
  split; [exact Hfst|]. split; [reflexivity|].
  split; [rewrite Hstate; simpl; now rewrite lookup_insert_eq|].
  split; [reflexivity|].
  destruct (memory_getPublicKey_published reader senderId (publicKey S))
    as (reader1 & HkeyS & _).
  { exact HcacheR. }
  { rewrite Hshared, Hstate. simpl. exact HpublishedS. }
  { exact HpkS. }
  rewrite (decryptMessage_shows MemoryMessagingAdapter.create
             createE2EEncryption reader reader1 stored R (User.id recipient)
             (publicKey S) (Some plaintext) Hon HkeysR Hreader HkeyS
             (Hreads _ Hother)).
  now rewrite whenTruthy_nonempty.
Qed.

(** A wrong PIN over the memory adapter: the attempt throws, and only
    the record of calls grows. *)
Lemma restore_wrong_on_memory
    (device : MemoryService) (userId wrong blob : string) :
  MessagingService.currentUser device = Some userId ->
  MemoryMessagingAdapter.keyBackups (MessagingService.adapterState device)
    !! userId = Some blob ->
  blob <> "" ->
  exactlySixDigits wrong = true ->
  TweetNaClEncryption.decryptPrivateKeyWithPin blob wrong = Returns None ->
  let result :=
    MessagingService.restoreEncryption MemoryMessagingAdapter.create
      MemoryKeyStorage.create createE2EEncryption wrong device in
  fst result = Throws "Incorrect PIN"
  /\ MessagingService.adapterState (snd result)
     = MessagingService.adapterState device
  /\ MessagingService.currentUserId (snd result)
     = MessagingService.currentUserId device
  /\ MessagingService.keyPair (snd result) = MessagingService.keyPair device
  /\ MessagingService.keyStorageState (snd result)
     = MessagingService.keyStorageState device.
Proof.
  intros Huser Hbackup Hblob Hpin Hdecrypt result. subst result.
  unfold MessagingService.restoreEncryption.
  rewrite bind_run. simpl. rewrite Huser, (pin_accepted _ Hpin).
  rewrite bind_run, onAdapter_run. simpl.
  rewrite Hbackup, (whenTruthy_nonempty _ Hblob).
  rewrite bind_run, onPure_run. simpl. rewrite Hdecrypt. simpl.
  now repeat split.
Qed.

(** X16.  The memory adapter never rate limits.  Over the memory adapter,
    whose [recordPinAttempt] does nothing and whose [getKeyBackup]
    always answers [rateLimited: false], any number of attempts with
    six-digit PINs that do not open the backup leaves the directory, the
    key store and the in-memory KeyPair as they were, and
    [restoreEncryption] with the PIN that opens it then returns true and
    loads the pair. *)
Theorem memory_adapter_never_rate_limits
    (wrong : list string) (device : MemoryService)
    (userId pin blob : string) (secret public : bytes) :
  MessagingService.currentUser device = Some userId ->
  MemoryMessagingAdapter.keyBackups (MessagingService.adapterState device)
    !! userId = Some blob ->
  blob <> "" ->
  exactlySixDigits pin = true ->
  decryptPrivateKeyWithPin createE2EEncryption blob pin
    = Returns (Some secret) ->
  publicKeyFromPrivate secret = Returns public ->
  Forall (fun w =>
            exactlySixDigits w = true
            /\ decryptPrivateKeyWithPin createE2EEncryption blob w
               = Returns None) wrong ->
  let attempt w d :=
    MessagingService.restoreEncryption MemoryMessagingAdapter.create
      MemoryKeyStorage.create createE2EEncryption w d in
  let after := foldl (fun d w => snd (attempt w d)) device wrong in
  MessagingService.adapterState after = MessagingService.adapterState device
  /\ MessagingService.keyStorageState after
     = MessagingService.keyStorageState device
  /\ MessagingService.keyPair after = MessagingService.keyPair device
  /\ fst (attempt pin after) = Returns true
  /\ MessagingService.keyPair (snd (attempt pin after))
     = Some (mkKeyPair public secret).
Proof.
  intros Huser Hbackup Hblob Hpin Hdecrypt Hpublic Hwrong attempt after.
  assert (Hafter :
    MessagingService.adapterState after = MessagingService.adapterState device
    /\ MessagingService.keyStorageState after
       = MessagingService.keyStorageState device
    /\ MessagingService.keyPair after = MessagingService.keyPair device
    /\ MessagingService.currentUserId after
       = MessagingService.currentUserId device).
  { subst after. revert device Huser Hbackup.
    induction Hwrong as [|w rest [Hw Hnone] _ IH]; intros device Huser Hbackup;
      [easy|].
    simpl.
    destruct (restore_wrong_on_memory device userId w blob Huser Hbackup
                Hblob Hw Hnone) as (_ & Hadapter & Hid & Hkeys & Hstore).
    fold (attempt w device) in Hadapter, Hid, Hkeys, Hstore.
    destruct (IH (snd (attempt w device))) as (-> & -> & -> & ->).
    - unfold MessagingService.currentUser. rewrite Hid. exact Huser.
    - rewrite Hadapter. exact Hbackup.
    - now repeat split. }
  destruct Hafter as (Hadapter & Hstore & Hkeys & Hid).
  split; [exact Hadapter|]. split; [exact Hstore|]. split; [exact Hkeys|].
  subst attempt. cbv beta.
  unfold MessagingService.restoreEncryption.
  assert (Huser' : MessagingService.currentUser after = Some userId)
    by (unfold MessagingService.currentUser; rewrite Hid; exact Huser).
  rewrite bind_run. simpl. rewrite Huser', (pin_accepted _ Hpin).
  rewrite bind_run, onAdapter_run. simpl.
  rewrite Hadapter, Hbackup, (whenTruthy_nonempty _ Hblob).
  rewrite bind_run, onPure_run. simpl. simpl in Hdecrypt.
  rewrite Hdecrypt. simpl.
  unfold liftOutcome, bind. rewrite Hpublic. simpl. now split.
Qed.

End OnMemory.

(** ** The memory adapter *)

Section MemoryAdapterProperties.
Import MemoryMessagingAdapter MemoryStates.

Lemma issued_later (st st' : State) (id : string) :
  (idCounter st <= idCounter st')%N -> issued st id -> issued st' id.
Proof. intros Hle (n & Hn & ->). exists n. split; [lia | reflexivity]. Qed.

Lemma issued_next (st : State) :
  (0 < idCounter st)%N ->
  forall st', (idCounter st < idCounter st')%N ->
  issued st' (pretty.pretty (idCounter st)).
Proof.
  intros Hpos st' Hlt. exists (idCounter st).
  split; [lia | reflexivity].
Qed.


Lemma wellFormed_initial (timestamp : string) : wellFormed (initial timestamp).
Proof.
  split; simpl.
  - lia.
  - intros k c Hk. now rewrite lookup_empty in Hk.
  - intros k. rewrite !lookup_empty. split; intros [x Hx]; discriminate Hx.
  - intros k ms m Hk. now rewrite lookup_empty in Hk.
  - intros k c Hk. now rewrite lookup_empty in Hk.
  - intros k c Hk. now rewrite lookup_empty in Hk.
Qed.

(** Well-formedness looks at the conversations, the messages and the
    counter only. *)
Lemma wellFormed_same (st st' : State) :
  conversations st' = conversations st ->
  messages st' = messages st ->
  idCounter st' = idCounter st ->
  wellFormed st -> wellFormed st'.
Proof.
  intros Hc Hm Hn [Hpos Hid Hdom Hfiled Hlast Hunread].
  assert (Hissued : forall id, issued st id -> issued st' id)
    by (intros id; apply issued_later; lia).
  split; rewrite ?Hc, ?Hm, ?Hn; try assumption.
  - intros k c Hk. destruct (Hid k c Hk). auto.
  - intros k ms m Hk Hin. destruct (Hfiled k ms m Hk Hin). auto.
Qed.

(** Replacing a conversation by one with the same id, last message and no
    unread count. *)
Lemma wellFormed_setConversation (st : State) (k0 : string)
    (c c' : Conversation.t) :
  wellFormed st ->
  conversations st !! k0 = Some c ->
  Conversation.id c' = Conversation.id c ->
  Conversation.lastMessage c' = Conversation.lastMessage c ->
  Conversation.unreadCount c' = 0%Z ->
  wellFormed (snd (setConversation k0 c' st)).
Proof.
  intros [Hpos Hid Hdom Hfiled Hlast Hunread] Hk0 Hsame Hsamelast Hzero.
  split; simpl.
  - exact Hpos.
  - intros k x [[<- <-]|[Hne Hk]]%lookup_insert_Some.
    + rewrite Hsame. exact (Hid _ _ Hk0).
    + exact (Hid _ _ Hk).
  - intros k. rewrite Hdom. destruct (decide (k0 = k)) as [<-|Hne].
    + rewrite lookup_insert_eq, Hk0. split; eauto.
    + now rewrite lookup_insert_ne.
  - exact Hfiled.
  - intros k x [[<- <-]|[Hne Hk]]%lookup_insert_Some.
    + rewrite Hsamelast. exact (Hlast _ _ Hk0).
    + exact (Hlast _ _ Hk).
  - intros k x [[<- <-]|[Hne Hk]]%lookup_insert_Some.
    + exact Hzero.
    + exact (Hunread _ _ Hk).
Qed.

(** Deleting a conversation together with its messages. *)
Lemma wellFormed_delete (st : State) (k0 : string) :
  wellFormed st ->
  wellFormed
    (mkState (delete k0 (conversations st)) (delete k0 (messages st))
       (publicKeys st) (keyBackups st) (idCounter st) (now st)).
Proof.
  intros [Hpos Hid Hdom Hfiled Hlast Hunread].
  split; simpl.
  - exact Hpos.
  - intros k x [Hne Hk]%lookup_delete_Some. exact (Hid _ _ Hk).
  - intros k. destruct (decide (k0 = k)) as [<-|Hne].
    + rewrite !lookup_delete_eq. split; intros [x Hx]; discriminate Hx.
    + rewrite !lookup_delete_ne by exact Hne. apply Hdom.
  - intros k ms m [Hne Hk]%lookup_delete_Some. exact (Hfiled _ _ _ Hk).
  - intros k x [Hne Hk]%lookup_delete_Some.
    rewrite lookup_delete_ne by exact Hne. exact (Hlast _ _ Hk).
  - intros k x [Hne Hk]%lookup_delete_Some. exact (Hunread _ _ Hk).
Qed.

Lemma wellFormed_createConversation (st : State) (participants : list string)
    (options : option CreateConversationOptions.t) :
  wellFormed st ->
  wellFormed (snd (createConversation participants options st)).
Proof.
  intros [Hpos Hid Hdom Hfiled Hlast Hunread].
  assert (Hissued : forall id, issued st id ->
    issued (snd (createConversation participants options st)) id)
    by (intros id; apply issued_later; simpl; lia).
  split; simpl.
  - lia.
  - intros k x [[<- <-]|[Hne Hk]]%lookup_insert_Some.
    + split; [reflexivity|]. apply issued_next; simpl; lia.
    + destruct (Hid _ _ Hk). split; [assumption|]. now apply Hissued.
  - intros k. destruct (decide (pretty.pretty (idCounter st) = k)) as [<-|Hne].
    + rewrite !lookup_insert_eq. split; eauto.
    + rewrite !lookup_insert_ne by exact Hne. apply Hdom.
  - intros k ms m [[<- <-]|[Hne Hk]]%lookup_insert_Some; [intros []|].
    intros Hin. destruct (Hfiled _ _ _ Hk Hin).
    split; [assumption|]. now apply Hissued.
  - intros k x [[<- <-]|[Hne Hk]]%lookup_insert_Some.
    + now rewrite lookup_insert_eq.
    + rewrite lookup_insert_ne by exact Hne. exact (Hlast _ _ Hk).
  - intros k x [[<- <-]|[Hne Hk]]%lookup_insert_Some.
    + reflexivity.
    + exact (Hunread _ _ Hk).
Qed.

Lemma wellFormed_sendMessage (st : State) (conversationId senderId : string)
    (message : SendMessageOptions.t) :
  wellFormed st ->
  wellFormed (snd (sendMessage conversationId senderId message st)).
Proof.
  intros Hwf. pose proof Hwf as [Hpos Hid Hdom Hfiled Hlast Hunread].
  unfold sendMessage. rewrite bind_run. simpl.
  destruct (conversations st !! conversationId) as [c|] eqn:Hc;
    [|exact Hwf].
  simpl.
  match goal with
  | |- wellFormed ?st' =>
      assert (Hissued : forall id, issued st id -> issued st' id)
        by (intros id; apply issued_later; simpl; lia)
  end.
  split; simpl.
  - lia.
  - intros k x [[<- <-]|[Hne Hk]]%lookup_insert_Some.
    + simpl. destruct (Hid _ _ Hc). split; [assumption|]. now apply Hissued.
    + destruct (Hid _ _ Hk). split; [assumption|]. now apply Hissued.
  - intros k. destruct (decide (conversationId = k)) as [<-|Hne].
    + rewrite !lookup_insert_eq. split; eauto.
    + rewrite !lookup_insert_ne by exact Hne. apply Hdom.
  - intros k ms m [[<- <-]|[Hne Hk]]%lookup_insert_Some.
    + intros [Hin|[<-|[]]]%in_app_or.
      * destruct (messages st !! conversationId) as [old|] eqn:Hold;
          [|destruct Hin].
        destruct (Hfiled _ _ _ Hold Hin). split; [assumption|].
        now apply Hissued.
      * simpl. split; [reflexivity|]. apply issued_next; simpl; lia.
    + intros Hin. destruct (Hfiled _ _ _ Hk Hin). split; [assumption|].
      now apply Hissued.
  - intros k x [[<- <-]|[Hne Hk]]%lookup_insert_Some.
    + rewrite lookup_insert_eq. simpl. now rewrite last_snoc.
    + rewrite lookup_insert_ne by exact Hne. exact (Hlast _ _ Hk).
  - intros k x [[<- <-]|[Hne Hk]]%lookup_insert_Some.
    + simpl. exact (Hunread _ _ Hc).
    + exact (Hunread _ _ Hk).
Qed.

Lemma wellFormed_apply (op : Operation) (st : State) :
  wellFormed st -> wellFormed (apply op st).
Proof.
  intros Hwf. destruct op; simpl.
  - now apply wellFormed_createConversation.
  - unfold deleteConversation. rewrite bind_run. simpl.
    destruct (conversations st !! id) as [c|] eqn:Hc; [|exact Hwf].
    rewrite bind_run. simpl.
    pose proof (wellFormed_setConversation st id c
      (withParticipants
         (List.filter (fun p => negb (String.eqb (User.id p) userId))
            (Conversation.participants c)) c)
      Hwf Hc eq_refl eq_refl (nothing_unread st Hwf _ _ Hc)) as Hset.
    destruct (length _ =? 0)%nat; [|exact Hset].
    apply (wellFormed_delete _ id) in Hset. exact Hset.
  - unfold addParticipants. rewrite bind_run. simpl.
    destruct (conversations st !! conversationId) as [c|] eqn:Hc;
      [|exact Hwf].
    rewrite bind_run.
    apply (wellFormed_setConversation st conversationId c); try easy.
    exact (nothing_unread st Hwf _ _ Hc).
  - unfold removeParticipants. rewrite bind_run. simpl.
    destruct (conversations st !! conversationId) as [c|] eqn:Hc;
      [|exact Hwf].
    rewrite bind_run.
    apply (wellFormed_setConversation st conversationId c); try easy.
    exact (nothing_unread st Hwf _ _ Hc).
  - exact Hwf.
  - now apply wellFormed_sendMessage.
  - unfold markAsRead. rewrite bind_run. simpl.
    destruct (conversations st !! conversationId) as [c|] eqn:Hc;
      [|exact Hwf].
    now apply (wellFormed_setConversation st conversationId c).
  - revert Hwf. now apply wellFormed_same.
  - revert Hwf. now apply wellFormed_same.
  - exact Hwf.
  - apply (wellFormed_same (initial (now st))); try reflexivity.
    apply wellFormed_initial.
  - revert Hwf. now apply wellFormed_same.
Qed.

(** Every state the adapter goes through is well formed. *)
Lemma invariant_holds (st : State) : reachable st -> wellFormed st.
Proof.
  induction 1 as [timestamp|op st _ IH];
    [apply wellFormed_initial | now apply wellFormed_apply].
Qed.



(** X19.  Nothing is ever unread.  In every state reached from a new
    adapter, [getUnreadCount] answers 0 for every user: the adapter sets
    [unreadCount] to 0 when it creates a conversation and [sendMessage]
    does not raise it. *)
Theorem getUnreadCount_is_zero (st : State) (userId : string) :
  reachable st ->
  getUnreadCount userId st = (Returns 0%Z, st).
Proof.
  intros Hreachable.
  apply invariant_holds in Hreachable as Hwf.
  pose proof (nothing_unread st Hwf) as Hzero.
  unfold getUnreadCount. f_equal. f_equal.
  revert Hzero. generalize (conversations st). clear.
  intros m.
  apply (map_fold_weak_ind
    (fun (r : Z) (m : gmap string Conversation.t) =>
       (forall k c, m !! k = Some c -> Conversation.unreadCount c = 0%Z) ->
       r = 0%Z)).
  - reflexivity.
  - intros k c m' r Hk IH Hzero.
    rewrite (Hzero k c) by apply lookup_insert_eq.
    rewrite IH.
    + now destruct (isParticipant userId (Conversation.participants c)).
    + intros k' c' Hk'. apply (Hzero k').
      rewrite lookup_insert_ne; [exact Hk' | congruence].
Qed.


(** [addParticipants] keeps the participants there were, in their order. *)
Lemma pushNew_prefix (userIds : list string) (ps : list User.t) :
  exists extra, pushNew ps userIds = ps ++ extra.
Proof.
  revert ps. induction userIds as [|u rest IH]; intros ps.
  - exists []. unfold pushNew. simpl. now rewrite app_nil_r.
  - unfold pushNew. simpl. fold (pushNew
      (if isParticipant u ps then ps else ps ++ [participant u]) rest).
    destruct (isParticipant u ps).
    + apply IH.
    + destruct (IH (ps ++ [participant u])) as [extra ->].
      exists (participant u :: extra). now rewrite <- app_assoc.
Qed.

Lemma isParticipant_app (userId : string) (ps qs : list User.t) :
  isParticipant userId (ps ++ qs)
  = isParticipant userId ps || isParticipant userId qs.
Proof. apply existsb_app. Qed.

Lemma pushNew_keeps (userIds : list string) (ps : list User.t) (v : string) :
  isParticipant v ps = true -> isParticipant v (pushNew ps userIds) = true.
Proof.
  intros Hv. destruct (pushNew_prefix userIds ps) as [extra ->].
  now rewrite isParticipant_app, Hv.
Qed.

(** Every user named is a participant afterwards. *)
Lemma pushNew_includes (userIds : list string) (ps : list User.t)
    (v : string) :
  In v userIds -> isParticipant v (pushNew ps userIds) = true.
Proof.
  revert ps. induction userIds as [|u rest IH]; intros ps; [intros []|].
  assert (Hstep : pushNew ps (u :: rest)
    = pushNew (if isParticipant u ps then ps else ps ++ [participant u])
        rest) by reflexivity.
  rewrite Hstep. intros [->|Hin].
  - apply pushNew_keeps.
    destruct (isParticipant v ps) eqn:Hv; [exact Hv|].
    rewrite isParticipant_app. simpl. rewrite String.eqb_refl.
    now rewrite orb_true_r.
  - now apply IH.
Qed.

(** What one [deleteConversation] does to the conversation it names. *)
Lemma deleteConversation_run (st : State) (id userId : string)
    (c : Conversation.t) :
  conversations st !! id = Some c ->
  let remaining :=
    List.filter (fun p => negb (String.eqb (User.id p) userId))
      (Conversation.participants c) in
  let st' := snd (deleteConversation id userId st) in
  fst (deleteConversation id userId st) = Returns tt
  /\ (forall k, k <> id ->
        conversations st' !! k = conversations st !! k
        /\ messages st' !! k = messages st !! k)
  /\ match remaining with
     | [] => conversations st' !! id = None /\ messages st' !! id = None
     | _ :: _ =>
         conversations st' !! id = Some (withParticipants remaining c)
         /\ messages st' !! id = messages st !! id
     end.
Proof.
  intros Hc remaining st'. subst st'.
  unfold deleteConversation. rewrite bind_run. simpl. rewrite Hc.
  rewrite bind_run. simpl. fold remaining.
  destruct remaining as [|p rest]; simpl.
  - split; [reflexivity|]. split.
    + intros k Hne.
      rewrite !lookup_delete_ne, lookup_insert_ne by congruence. easy.
    + now rewrite !lookup_delete_eq.
  - split; [reflexivity|]. split.
    + intros k Hne. now rewrite lookup_insert_ne by congruence.
    + now rewrite lookup_insert_eq.
Qed.

Lemma deleteConversation_absent (st : State) (id : string)
    (userIds : list string) :
  conversations st !! id = None ->
  foldl (fun st userId => snd (deleteConversation id userId st)) st userIds
  = st.
Proof.
  intros Hc. induction userIds as [|u rest IH]; [reflexivity|].
  simpl. unfold deleteConversation at 2. rewrite bind_run. simpl.
  rewrite Hc. exact IH.
Qed.

(** X21.  A conversation ends when everyone has left.  After
    [deleteConversation(id, u)] has been called, in any order and with
    any repetitions, for a non-empty list of users that includes every
    participant of the conversation, the conversation and its messages
    are gone, and every other conversation and message list is as it
    was.  A caller who is not a participant removes nobody, but ends a
    conversation that has no participants. *)
Theorem conversation_ends_when_everyone_left
    (userIds : list string) (st : State) (id : string) (c : Conversation.t) :
  userIds <> [] ->
  conversations st !! id = Some c ->
  (forall p, In p (Conversation.participants c) -> In (User.id p) userIds) ->
  let st' :=
    foldl (fun st userId => snd (deleteConversation id userId st)) st
      userIds in
  conversations st' !! id = None
  /\ messages st' !! id = None
  /\ forall k, k <> id ->
       conversations st' !! k = conversations st !! k
       /\ messages st' !! k = messages st !! k.
Proof.
  revert st c. induction userIds as [|u rest IH]; [easy|].
  intros st c _ Hc Hall. simpl.
  destruct (deleteConversation_run st id u c Hc) as (_ & Hothers & Hthis).
  destruct (List.filter _ (Conversation.participants c)) as [|p remaining]
    eqn:Hremaining.
  - destruct Hthis as [Hgone Hnone].
    rewrite deleteConversation_absent by exact Hgone.
    split; [exact Hgone|]. split; [exact Hnone | exact Hothers].
  - destruct Hthis as [Hkept Hmessages].
    assert (Hrest : forall q, In q (p :: remaining) -> In (User.id q) rest).
    { intros q Hq. rewrite <- Hremaining in Hq.
      apply filter_In in Hq as [Hq Hne].
      destruct (Hall q Hq) as [Heq|Hin]; [|exact Hin].
      rewrite <- Heq, String.eqb_refl in Hne. discriminate Hne. }
    assert (Hnonempty : rest <> []).
    { intros ->. exact (Hrest p (or_introl eq_refl)). }
    destruct (IH _ _ Hnonempty Hkept Hrest) as (Hgone & Hnone & Hframe).
    split; [exact Hgone|]. split; [exact Hnone|].
    intros k Hne. destruct (Hframe k Hne) as [-> ->]. now apply Hothers.
Qed.

End MemoryAdapterProperties.

(** ** The service over a conversation that grows *)

Section GrowingConversation.
Context `{Platform}.

(** X22.  A third participant ends the encryption of a conversation.
    Once [addParticipants] has added to a direct conversation a user who
    is neither of the two, [sendMessage] of a service over the memory
    adapter, whatever its encryption setting and keys, hands the adapter
    the content as given: the message the adapter stores has the
    plaintext as its [content]. *)
Theorem third_participant_ends_encryption
    (before later : MemoryService) (userId conversationId : string)
    (conversation : Conversation.t) (recipient : User.t)
    (userIds : list string) (newcomer : string)
    (message : SendMessageOptions.t) :
  MemoryMessagingAdapter.conversations (MessagingService.adapterState before)
    !! conversationId = Some conversation ->
  MessagingService.otherParticipants userId conversation = [recipient] ->
  In newcomer userIds ->
  newcomer <> userId -> newcomer <> User.id recipient ->
  MessagingService.adapterState later
  = snd (MemoryMessagingAdapter.addParticipants conversationId userIds
           (MessagingService.adapterState before)) ->
  MessagingService.currentUser later = Some userId ->
  let result :=
    MessagingService.sendMessage MemoryMessagingAdapter.create
      createE2EEncryption conversationId message later in
  exists stored,
    MemoryMessagingAdapter.messages
      (MessagingService.adapterState (snd result)) !! conversationId
    = Some (default []
              (MemoryMessagingAdapter.messages
                 (MessagingService.adapterState before) !! conversationId)
            ++ [stored])
    /\ Message.content stored = SendMessageOptions.content message
    /\ Message.senderId stored = userId
    /\ fst result =
       Returns (Message.withContents (SendMessageOptions.content message)
                  (if MessagingService.e2eEnabled later
                   then Some (SendMessageOptions.content message)
                   else None) stored).
Proof.
  intros Hconversation Hothers Hin Hnotme Hnotthem Hlater Huser result.
  set (grown :=
    MemoryMessagingAdapter.withUpdatedAt
      (MemoryMessagingAdapter.now (MessagingService.adapterState before))
      (MemoryMessagingAdapter.withParticipants
         (MemoryMessagingAdapter.pushNew
            (Conversation.participants conversation) userIds)
         conversation)).
  assert (Hstate :
    MessagingService.adapterState later
    = snd (MemoryMessagingAdapter.setConversation conversationId grown
             (MessagingService.adapterState before))).
  { rewrite Hlater. unfold MemoryMessagingAdapter.addParticipants.
    rewrite bind_run. simpl. rewrite Hconversation.
    rewrite bind_run. reflexivity. }
  simpl in Hstate.
  assert (Hgrown :
    MemoryMessagingAdapter.conversations (MessagingService.adapterState later)
      !! conversationId = Some grown)
    by (rewrite Hstate; simpl; apply lookup_insert_eq).
  assert (Hcount :
    length (MessagingService.otherParticipants userId grown) <> 1%nat).
  { unfold MessagingService.otherParticipants in *. simpl.
    destruct (pushNew_prefix userIds (Conversation.participants conversation))
      as [extra Hextra].
    pose proof (pushNew_includes userIds
                  (Conversation.participants conversation) newcomer Hin)
      as Hthere.
    rewrite Hextra in Hthere |- *.
    rewrite List.filter_app, Hothers.
    rewrite isParticipant_app in Hthere.
    assert (Hnew :
      MemoryMessagingAdapter.isParticipant newcomer extra = true).
    { destruct (MemoryMessagingAdapter.isParticipant newcomer
                  (Conversation.participants conversation)) eqn:Hold;
        [|exact Hthere].
      exfalso. apply existsb_exists in Hold as (q & Hq & Hid).
      apply String.eqb_eq in Hid.
      assert (Hqin : In q [recipient]).
      { rewrite <- Hothers. apply filter_In. split; [exact Hq|].
        rewrite Hid. now apply negb_true_iff, String.eqb_neq. }
      destruct Hqin as [<-|[]]. now apply Hnotthem. }
    apply existsb_exists in Hnew as (q & Hq & Hid).
    apply String.eqb_eq in Hid.
    assert (Hqin : In q (List.filter
                           (fun p => negb (String.eqb (User.id p) userId))
                           extra)).
    { apply filter_In. split; [exact Hq|].
      rewrite Hid. now apply negb_true_iff, String.eqb_neq. }
    destruct (List.filter _ extra); [destruct Hqin | discriminate]. }
  destruct (outgoingContent_not_direct MemoryMessagingAdapter.create
              createE2EEncryption later userId conversationId message grown
              (MessagingService.adapterState later))
    as (later' & Hcontent & Henabled & Hadapter & _).
  { simpl. unfold MemoryMessagingAdapter.getConversation.
    now rewrite Hgrown. }
  { exact Hcount. }
  assert (Hadapter' :
    MessagingService.adapterState later'
    = MessagingService.adapterState later)
    by (rewrite Hadapter; now destruct (encrypting later)).
  subst result. unfold MessagingService.sendMessage.
  rewrite bind_run. simpl. rewrite Huser.
  rewrite bind_run, Hcontent. simpl.
  rewrite withContent_same.
  rewrite bind_run, onAdapter_run. simpl.
  unfold MemoryMessagingAdapter.sendMessage.
  rewrite bind_run. simpl. rewrite Hadapter', Hgrown. simpl.
  eexists. split; [|split; [|split]]; cycle 3.
  - reflexivity.
  - rewrite lookup_insert_eq. rewrite Hstate. reflexivity.
  - reflexivity.
  - reflexivity.
Qed.

End GrowingConversation.

(** ** Key storage in the browser *)

Section IndexedDBProperties.
Context {D : Type}.
Variable host : IndexedDBKeyStorage.Host D.
Variable dbName : string.

(** X23.  What a failing database does to each method.  With IndexedDB
    available: when the database cannot be opened, [loadKeyPair] answers
    null, as if no key were stored, while [storeKeyPair] and
    [deleteKeyPair] throw the error of the open request; when the
    database opens, each method ends as its request does, so a failing
    read makes [loadKeyPair] throw. *)
Theorem indexedDB_open_failure_reads_as_no_key
    (userId : string) (keys : StoredKeyPair.t) (d : D) :
  IndexedDBKeyStorage.isAvailable host = true ->
  let opened := IndexedDBKeyStorage.open host dbName d in
  match fst opened with
  | Throws e =>
      IndexedDBKeyStorage.loadKeyPair host dbName userId d
      = (Returns None, snd opened)
      /\ IndexedDBKeyStorage.storeKeyPair host dbName userId keys d
         = (Throws e, snd opened)
      /\ IndexedDBKeyStorage.deleteKeyPair host dbName userId d
         = (Throws e, snd opened)
  | Returns _ =>
      IndexedDBKeyStorage.loadKeyPair host dbName userId d
      = IndexedDBKeyStorage.get host IndexedDBKeyStorage.storeName userId
          (snd opened)
      /\ IndexedDBKeyStorage.storeKeyPair host dbName userId keys d
         = IndexedDBKeyStorage.put host IndexedDBKeyStorage.storeName userId
             keys (snd opened)
      /\ IndexedDBKeyStorage.deleteKeyPair host dbName userId d
         = IndexedDBKeyStorage.delete host IndexedDBKeyStorage.storeName
             userId (snd opened)
  end.
Proof.
  intros Havailable opened. subst opened.
  unfold IndexedDBKeyStorage.loadKeyPair, IndexedDBKeyStorage.storeKeyPair,
    IndexedDBKeyStorage.deleteKeyPair, IndexedDBKeyStorage.openDatabase.
  rewrite Havailable. simpl.
  unfold tryCatch, bind, ret.
  destruct (IndexedDBKeyStorage.open host dbName d) as [[[]|e] d']; simpl;
    repeat split.
Qed.

End IndexedDBProperties.

Section WithoutIndexedDB.
Context `{Laws : PlatformLaws} {D : Type}.
Variable host : IndexedDBKeyStorage.Host D.
Variable dbName : string.

(** X24.  Set-up on a host without IndexedDB.  Over the memory adapter
    and an [IndexedDBKeyStorage] that is not available,
    [setupEncryption] with a six-digit PIN throws the key store's error
    only after it has replaced the user's public key and backup in the
    directory by those of the pair it generated; the pair is neither in
    memory nor stored locally, so, with encryption enabled,
    [getEncryptionStatus] then answers [has_backup]. *)
Theorem setup_without_indexedDB
    (this : ServiceState MemoryMessagingAdapter.State D)
    (userId pin : string) :
  IndexedDBKeyStorage.isAvailable host = false ->
  MessagingService.currentUser this = Some userId ->
  exactlySixDigits pin = true ->
  let keyStorage := IndexedDBKeyStorage.create host dbName in
  let keys := fst (box_keyPair (MessagingService.rng this)) in
  let result :=
    MessagingService.setupEncryption MemoryMessagingAdapter.create keyStorage
      createE2EEncryption pin this in
  fst result
  = Throws "IndexedDB not available - cannot store encryption keys"
  /\ MessagingService.keyPair (snd result) = MessagingService.keyPair this
  /\ MessagingService.keyStorageState (snd result)
     = MessagingService.keyStorageState this
  /\ MemoryMessagingAdapter.publicKeys
       (MessagingService.adapterState (snd result)) !! userId
     = Some (bytesToBase64 (publicKey keys))
  /\ (exists blob,
        MemoryMessagingAdapter.keyBackups
          (MessagingService.adapterState (snd result)) !! userId = Some blob
        /\ blob <> ""
        /\ decryptPrivateKeyWithPin createE2EEncryption blob pin
           = Returns (Some (secretKey keys)))
  /\ (MessagingService.e2eEnabled this = true ->
      resolveStatus MemoryMessagingAdapter.create keyStorage (snd result)
      = Returns has_backup).
Proof.
  intros Hhost Huser Hpin keyStorage keys result.
  destruct (encryptPrivateKeyWithPin_blob (secretKey keys) pin
              (snd (box_keyPair (MessagingService.rng this))))
    as (blob & g' & Hencrypt & Hblob & Hdecrypt).
  assert (Hrun : exists this',
    result
    = (Throws "IndexedDB not available - cannot store encryption keys",
       this')
    /\ MessagingService.keyPair this' = MessagingService.keyPair this
    /\ MessagingService.keyStorageState this'
       = MessagingService.keyStorageState this
    /\ MessagingService.e2eEnabled this' = MessagingService.e2eEnabled this
    /\ MessagingService.currentUserId this'
       = MessagingService.currentUserId this
    /\ MemoryMessagingAdapter.publicKeys (MessagingService.adapterState this')
       = <[userId := bytesToBase64 (publicKey keys)]>
           (MemoryMessagingAdapter.publicKeys
              (MessagingService.adapterState this))
    /\ MemoryMessagingAdapter.keyBackups (MessagingService.adapterState this')
       = <[userId := blob]>
           (MemoryMessagingAdapter.keyBackups
              (MessagingService.adapterState this))).
  { subst result. unfold MessagingService.setupEncryption.
    rewrite bind_run. simpl. rewrite Huser, (pin_accepted _ Hpin).
    rewrite bind_run, onRng_run. simpl.
    rewrite generateKeyPair_run. simpl.
    rewrite bind_run, onRng_run. simpl. fold keys.
    rewrite Hencrypt. simpl.
    rewrite bind_run, onAdapter_run. simpl.
    rewrite bind_run, onAdapter_run. simpl.
    rewrite bind_run, onKeyStorage_run. simpl.
    unfold IndexedDBKeyStorage.storeKeyPair. rewrite Hhost. simpl.
    eexists. split; [reflexivity|]. simpl. now repeat split. }
  destruct Hrun as (this' & -> & Hkeys & Hstore & Henabled & Hid & Hpublic
                    & Hbackup).
  simpl. split; [reflexivity|]. split; [exact Hkeys|].
  split; [exact Hstore|].
  split; [now rewrite Hpublic, lookup_insert_eq|].
  split.
  { exists blob. rewrite Hbackup, lookup_insert_eq. now repeat split. }
  intros Hon.
  apply (status_no_local_key_backup MemoryMessagingAdapter.create keyStorage
           this' userId).
  - now rewrite Henabled.
  - unfold MessagingService.currentUser. rewrite Hid. exact Huser.
  - unfold localKeyAbsent. simpl.
    unfold IndexedDBKeyStorage.loadKeyPair. rewrite Hhost. simpl. eauto.
  - unfold remoteBackupPresent. simpl.
    eexists _, _, _. split; [reflexivity|].
    unfold MemoryMessagingAdapter.getKeyBackup.
    split; [reflexivity|]. simpl.
    rewrite Hbackup, lookup_insert_eq. unfold truthyString.
    now destruct (String.eqb_spec blob "").
Qed.

End WithoutIndexedDB.

(** ** The status and the keys in memory *)

Section StatusAndKeys.
Context `{Platform} {A K : Type}.
Variable adapter : MessagingAdapter.t A.
Variable keyStorage : KeyStorage.t K.
Variable encryption : E2EEncryption.

(** X25.  The status [ready] does not say that the keys are loaded.  With
    encryption enabled, a KeyPair in the local key store and a backup in
    the directory, but no KeyPair in memory (as before
    [initializeEncryption] has run), [getEncryptionStatus] answers
    [ready] while [isEncryptionReady] is false, and the body [sendMessage]
    hands to the adapter is the content as given, whatever the
    conversation. *)
Theorem ready_status_before_keys_are_loaded
    (this : ServiceState A K) (userId conversationId : string)
    (message : SendMessageOptions.t) :
  MessagingService.e2eEnabled this = true ->
  MessagingService.currentUser this = Some userId ->
  MessagingService.keyPair this = None ->
  localKeyPresent keyStorage userId (MessagingService.keyStorageState this) ->
  remoteBackupPresent adapter userId (MessagingService.adapterState this) ->
  resolveStatus adapter keyStorage this = Returns ready
  /\ MessagingService.isEncryptionReady this = false
  /\ MessagingService.outgoingContent adapter encryption userId
       conversationId message this
     = (Returns (SendMessageOptions.content message), this).
Proof.
  intros Henabled Huser Hkeys Hlocal
    (getKeyBackup & backup & a' & Hcap & Hcall & Htruthy).
  split; [|split].
  - rewrite (status_local_key adapter keyStorage this userId Henabled Huser
               Hlocal).
    rewrite Hcap, Hcall. simpl. now rewrite Htruthy.
  - unfold MessagingService.isEncryptionReady.
    now rewrite Henabled, Hkeys.
  - unfold MessagingService.outgoingContent. rewrite bind_run. simpl.
    now rewrite Henabled, Hkeys.
Qed.

End StatusAndKeys.

(** ** The further properties at work *)

Module MoreExamples.
Import Fixtures Scenarios.
#[local] Existing Instance Model.platform.
#[local] Existing Instance ModelLaws.laws.

Lemma getPublicKey_caches_what_it_finds_witness :
  let found :=
    MessagingService.getPublicKey memoryAdapter alice aliceNewDevice in
  MessagingService.getPublicKey memoryAdapter alice (snd found)
  = (Returns (Some (publicKey aliceKeys)), snd found).
Proof.
  apply (getPublicKey_caches_what_it_finds memoryAdapter aliceNewDevice).
  reflexivity.
Defined.

Lemma getPublicKey_does_not_cache_absence_witness :
  let missed :=
    MessagingService.getPublicKey memoryAdapter bob aliceNewDevice in
  MessagingService.publicKeyCache (snd missed) !! bob = None
  /\ callsMade (snd missed)
       (snd (MessagingService.getPublicKey memoryAdapter bob (snd missed)))
     = [adapter_getPublicKey bob].
Proof.
  destruct (getPublicKey_does_not_cache_absence memoryAdapter aliceNewDevice
              (snd (MessagingService.getPublicKey memoryAdapter bob
                      aliceNewDevice)) bob)
    as (_ & Hcache & Hagain); [reflexivity|].
  split; [exact Hcache|]. apply Hagain. discriminate.
Defined.

Lemma sendMessage_without_key_pair_is_plaintext_witness :
  callsMade aliceNewDevice
    (snd (MessagingService.sendMessage memoryAdapter tweetnacl "1" hello
            aliceNewDevice))
  = [adapter_sendMessage "1" alice hello].
Proof.
  apply (sendMessage_without_key_pair_is_plaintext memoryAdapter tweetnacl
           aliceNewDevice alice "1" hello); reflexivity.
Defined.

Lemma sendMessage_fails_closed_witness :
  fst (MessagingService.sendMessage memoryAdapter tweetnacl "1" hello
         aliceSignedIn) = Throws "Conversation not found".
Proof.
  destruct (sendMessage_fails_closed memoryAdapter tweetnacl aliceSignedIn
              alice "1" hello aliceKeys aliceDirectory
              eq_refl eq_refl eq_refl) as [Hmissing _].
  apply Hmissing. reflexivity.
Defined.

Lemma restore_with_correct_pin_witness :
  exists this',
    MessagingService.restoreEncryption memoryAdapter memoryStorage tweetnacl
      "123456" aliceNewDevice = (Returns true, this')
    /\ MessagingService.keyPair this' = Some aliceKeys.
Proof.
  destruct (restore_with_correct_pin memoryAdapter memoryStorage tweetnacl
              aliceNewDevice alice "123456" aliceBackup
              MemoryMessagingAdapter.getKeyBackup
              (KeyBackup.mk (Some aliceBackup) false) aliceDirectory
              (secretKey aliceKeys) (publicKey aliceKeys))
    as (this' & Hrestore & _ & Hkeys & _);
    [reflexivity | reflexivity | reflexivity | reflexivity | reflexivity
    | reflexivity | vm_compute; reflexivity | reflexivity | reflexivity |].
  exists this'. split; [exact Hrestore | exact Hkeys].
Defined.

Lemma setup_publishes_before_it_stores_witness :
  exists this',
    MessagingService.setupEncryption memoryAdapter memoryStorage tweetnacl
      "123456" aliceFirstVisit = (Returns true, this')
    /\ MessagingService.keyPair this' = Some (fst (box_keyPair (seed 7))).
Proof.
  edestruct (setup_publishes_before_it_stores memoryAdapter memoryStorage
               tweetnacl aliceFirstVisit alice "123456")
    as (this' & Hsetup & _ & _ & _ & _ & Hkeys);
    [reflexivity | reflexivity | vm_compute; reflexivity
    | vm_compute; reflexivity | reflexivity | reflexivity |].
  exists this'. split; [exact Hsetup | exact Hkeys].
Defined.

Lemma direct_message_end_to_end_witness :
  exists body,
    last (MessagingService.trace (snd aliceSends))
    = Some (adapter_sendMessage "1" alice
              (SendMessageOptions.withContent body hi))
    /\ decryptMessageContent tweetnacl body alice bob (publicKey aliceKeys)
         (secretKey bobKeys) = Returns (Some "hi bob").
Proof.
  destruct (direct_message_end_to_end memoryAdapter aliceInChat
              (snd (MessagingService.getPublicKey memoryAdapter bob
                      (snd (MessagingService.getConversation memoryAdapter
                              "1" aliceInChat))))
              alice "1" hi chat chatDirectory (user bob) aliceKeys bobKeys
              (list_byte_of_string "hi bob"))
    as (body & Hlast & _ & _ & Hreader);
    [reflexivity | reflexivity | reflexivity | reflexivity | reflexivity
    | reflexivity | reflexivity | reflexivity | reflexivity |].
  exists body. split; [exact Hlast|]. apply Hreader. discriminate.
Defined.

Lemma decryptMessage_reads_dual_envelope_witness :
  fst (MessagingService.decryptMessage memoryAdapter tweetnacl fromAlice
         bobReading)
  = Returns (Message.withContents "hi bob" (Some envelope) fromAlice).
Proof.
  eapply (decryptMessage_reads_dual_envelope memoryAdapter bobReading
            (snd (MessagingService.getPublicKey memoryAdapter alice
                    bobReading))
            fromAlice bob bob "hi bob" (list_byte_of_string "hi bob")
            bobKeys aliceKeys bobKeys (seed 5)).
  - reflexivity.
  - reflexivity.
  - reflexivity.
  - vm_compute. reflexivity.
  - vm_compute. reflexivity.
  - right. split; [discriminate | reflexivity].
  - reflexivity.
  - reflexivity.
  - reflexivity.
  - reflexivity.
Defined.

Lemma setup_then_initialize_reloads_keys_witness :
  let afterSetup :=
    snd (MessagingService.setupEncryption memoryAdapter memoryStorage
           tweetnacl "123456" aliceFirstVisit) in
  let restarted :=
    MessagingService.mkState true
      (MessagingService.currentUserId aliceFirstVisit) None ∅ emptyDirectory
      (MessagingService.keyStorageState afterSetup) (seed 9) [] in
  let reloaded :=
    MessagingService.initializeEncryption memoryStorage restarted in
  fst reloaded = Returns true
  /\ MessagingService.keyPair (snd reloaded)
     = MessagingService.keyPair afterSetup
  /\ MessagingService.keyPair afterSetup
     = Some (fst (box_keyPair (MessagingService.rng aliceFirstVisit))).
Proof.
  exact (setup_then_initialize_reloads_keys aliceFirstVisit alice "123456"
           None (∅ : gmap string bytes) emptyDirectory (seed 9) [] eq_refl
           eq_refl).
Defined.

Lemma setup_then_restore_recovers_keys_witness :
  let afterSetup :=
    snd (MessagingService.setupEncryption memoryAdapter memoryStorage
           tweetnacl "123456" aliceFirstVisit) in
  let device :=
    MessagingService.mkState true
      (MessagingService.currentUserId aliceFirstVisit) None ∅
      (MessagingService.adapterState afterSetup) ∅ (seed 9) [] in
  let restored :=
    MessagingService.restoreEncryption memoryAdapter memoryStorage tweetnacl
      "123456" device in
  fst restored = Returns true
  /\ MessagingService.keyPair (snd restored)
     = MessagingService.keyPair afterSetup.
Proof.
  destruct (setup_then_restore_recovers_keys aliceFirstVisit alice "123456"
              true None (∅ : gmap string bytes)
              (∅ : gmap string StoredKeyPair.t) (seed 9) [] eq_refl eq_refl)
    as (Htrue & Hkeys & _).
  exact (conj Htrue Hkeys).
Defined.

Lemma status_after_setup_witness :
  let afterSetup :=
    snd (MessagingService.setupEncryption memoryAdapter memoryStorage
           tweetnacl "123456" aliceFirstVisit) in
  let device :=
    MessagingService.mkState true
      (MessagingService.currentUserId aliceFirstVisit) None ∅
      (MessagingService.adapterState afterSetup) ∅ (seed 9) [] in
  resolveStatus memoryAdapter memoryStorage afterSetup = Returns ready
  /\ resolveStatus memoryAdapter memoryStorage device = Returns has_backup.
Proof.
  exact (status_after_setup aliceFirstVisit alice "123456" None
           (∅ : gmap string bytes) (∅ : gmap string StoredKeyPair.t)
           (seed 9) [] eq_refl eq_refl eq_refl eq_refl).
Defined.

Lemma direct_message_over_memory_witness :
  let reader :=
    MessagingService.mkState true (Some (User.id (user bob)))
      (Some bobKeys) ∅ (MessagingService.adapterState (snd aliceSends))
      (∅ : gmap string StoredKeyPair.t) (seed 9) [] in
  exists sent stored,
    fst aliceSends = Returns sent
    /\ Message.content sent = "hi bob"
    /\ fst (MessagingService.decryptMessage memoryAdapter tweetnacl stored
              reader) = Returns sent.
Proof.
  destruct (direct_message_over_memory aliceInChat alice "1" chat (user bob)
              aliceKeys bobKeys hi (list_byte_of_string "hi bob")
              (∅ : gmap string bytes) (∅ : gmap string StoredKeyPair.t)
              (seed 9) [])
    as (sent & stored & Hsent & Hshape & _ & _ & Hread);
    [reflexivity | reflexivity | reflexivity | reflexivity | reflexivity
    | reflexivity | discriminate | discriminate | reflexivity | reflexivity
    | reflexivity | reflexivity | reflexivity | discriminate | discriminate
    | reflexivity |].
  exists sent, stored. split; [exact Hsent|].
  split; [now rewrite Hshape | exact Hread].
Defined.

Lemma memory_adapter_never_rate_limits_witness :
  let attempt w d :=
    MessagingService.restoreEncryption memoryAdapter memoryStorage tweetnacl
      w d in
  fst (attempt "123456"
         (snd (attempt "111111" (snd (attempt "000000" aliceNewDevice)))))
  = Returns true.
Proof.
  destruct (memory_adapter_never_rate_limits ["000000"; "111111"]
              aliceNewDevice alice "123456" aliceBackup
              (secretKey aliceKeys) (publicKey aliceKeys))
    as (_ & _ & _ & Htrue & _);
    [reflexivity | reflexivity | discriminate | reflexivity
    | vm_compute; reflexivity | reflexivity
    | repeat constructor; vm_compute; reflexivity |].
  exact Htrue.
Defined.



Lemma getUnreadCount_is_zero_witness :
  MemoryMessagingAdapter.getUnreadCount bob started = (Returns 0%Z, started).
Proof.
  apply getUnreadCount_is_zero. repeat constructor.
Defined.


Lemma conversation_ends_when_everyone_left_witness :
  MemoryMessagingAdapter.conversations
    (snd (MemoryMessagingAdapter.deleteConversation "1" alice
            (snd (MemoryMessagingAdapter.deleteConversation "1" bob
                    chatDirectory)))) !! "1" = None.
Proof.
  apply (conversation_ends_when_everyone_left [bob; alice] chatDirectory "1"
           chat).
  - discriminate.
  - reflexivity.
  - intros p [<-|[<-|[]]]; simpl; auto.
Defined.

Lemma third_participant_ends_encryption_witness :
  exists stored,
    MemoryMessagingAdapter.messages
      (MessagingService.adapterState
         (snd (MessagingService.sendMessage memoryAdapter tweetnacl "1" hi
                 aliceWithCarol))) !! "1" = Some [stored]
    /\ Message.content stored = "hi bob".
Proof.
  destruct (third_participant_ends_encryption aliceInChat aliceWithCarol
              alice "1" chat (user bob) [carol] carol hi)
    as (stored & Hstored & Hcontent & _);
    [reflexivity | reflexivity | now left | discriminate | discriminate
    | reflexivity | reflexivity |].
  exists stored. split; [exact Hstored | exact Hcontent].
Defined.

Lemma indexedDB_open_failure_reads_as_no_key_witness :
  IndexedDBKeyStorage.loadKeyPair blockedHost "MessagingEncryption" alice tt
  = (Returns None, tt)
  /\ IndexedDBKeyStorage.storeKeyPair blockedHost "MessagingEncryption" alice
       (storedKeys aliceKeys) tt
     = (Throws "InvalidStateError", tt).
Proof.
  destruct (indexedDB_open_failure_reads_as_no_key blockedHost
              "MessagingEncryption" alice (storedKeys aliceKeys) tt eq_refl)
    as (Hload & Hstore & _).
  split; [exact Hload | exact Hstore].
Defined.

Lemma setup_without_indexedDB_witness :
  let result :=
    MessagingService.setupEncryption memoryAdapter
      (IndexedDBKeyStorage.create serverHost "MessagingEncryption")
      tweetnacl "123456" aliceOnServer in
  fst result
  = Throws "IndexedDB not available - cannot store encryption keys"
  /\ MemoryMessagingAdapter.publicKeys
       (MessagingService.adapterState (snd result)) !! alice
     = Some (bytesToBase64 (publicKey (fst (box_keyPair (seed 7))))).
Proof.
  destruct (setup_without_indexedDB serverHost "MessagingEncryption"
              aliceOnServer alice "123456" eq_refl eq_refl eq_refl)
    as (Hthrows & _ & _ & Hpublished & _).
  split; [exact Hthrows | exact Hpublished].
Defined.

Lemma ready_status_before_keys_are_loaded_witness :
  resolveStatus memoryAdapter memoryStorage aliceBeforeInitialize
  = Returns ready
  /\ MessagingService.isEncryptionReady aliceBeforeInitialize = false.
Proof.
  destruct (ready_status_before_keys_are_loaded memoryAdapter memoryStorage
              tweetnacl aliceBeforeInitialize alice "1" hello)
    as (Hstatus & Hready & _).
  - reflexivity.
  - reflexivity.
  - reflexivity.
  - do 2 eexists; reflexivity.
  - do 3 eexists. split; [reflexivity|]. split; reflexivity.
  - split; [exact Hstatus | exact Hready].
Defined.

End MoreExamples.
